(** * export-events.py: extraction, merge, date filter, enrichment, flattening

    A shallow embedding of [src/export-events.py] and the properties of its
    pipeline.  A Python [str] is the string of the bytes of its UTF-8
    encoding; Python values that come out of [json.loads] are the
    inductive [json]; a Python [dict] is an insertion-ordered association
    list ([pydict]); a function that can raise returns an [outcome]; a
    function that also logs returns an [outcome] paired with the log records
    it emitted, in order.  Calls into libraries and the outside world ([git],
    [json.loads], [float], [datetime.fromisoformat], the file system, lxml)
    are the fields of one record, [env]; every definition below is
    parametrised by it. *)

From Stdlib Require Import ZArith List String Ascii Bool Lia Floats Uint63 DecimalString.
Import ListNotations.

Set Warnings "-inexact-float,-register-all".

Open Scope string_scope.
Open Scope list_scope.

(* ===================================================================== *)
(** ** Strings: the [str] methods the script calls *)

(** A [str] is held as the bytes of its UTF-8 encoding, one [ascii] each.

    [str.isspace] on an ASCII character: TAB, LF, VT, FF, CR, FS, GS, RS, US
    and the space. *)
Definition is_space (c : ascii) : bool :=
  let n := nat_of_ascii c in
  ((9 <=? n)%nat && (n <=? 13)%nat) || ((28 <=? n)%nat && (n <=? 32)%nat).

(** The characters beyond ASCII for which [str.isspace] holds, by the bytes
    of their encoding: U+0085 and U+00A0 take two bytes; U+1680, U+2000 to
    U+200A, U+2028, U+2029, U+202F, U+205F and U+3000 take three. *)
Definition is_space2 (c0 c1 : ascii) : bool :=
  let n0 := nat_of_ascii c0 in
  let n1 := nat_of_ascii c1 in
  ((n0 =? 194) && ((n1 =? 133) || (n1 =? 160)))%nat.

Definition is_space3 (c0 c1 c2 : ascii) : bool :=
  let n0 := nat_of_ascii c0 in
  let n1 := nat_of_ascii c1 in
  let n2 := nat_of_ascii c2 in
  (((n0 =? 225) && ((n1 =? 154) && (n2 =? 128)))
   || ((n0 =? 226) && ((n1 =? 128)
                       && (((128 <=? n2) && (n2 <=? 138))
                           || (n2 =? 168) || (n2 =? 169) || (n2 =? 175))))
   || ((n0 =? 226) && ((n1 =? 129) && (n2 =? 159)))
   || ((n0 =? 227) && ((n1 =? 128) && (n2 =? 128))))%nat.

(** [s] is one whitespace character. *)
Definition is_space_char (s : string) : bool :=
  match s with
  | String c0 EmptyString => is_space c0
  | String c0 (String c1 EmptyString) => is_space2 c0 c1
  | String c0 (String c1 (String c2 EmptyString)) => is_space3 c0 c1 c2
  | _ => false
  end.

(** The number of bytes of the whitespace character [s] starts with; 0 when
    it starts with none. *)
Definition space_prefix (s : string) : nat :=
  match s with
  | EmptyString => 0
  | String c0 s1 =>
      if is_space c0 then 1
      else match s1 with
           | EmptyString => 0
           | String c1 s2 =>
               if is_space2 c0 c1 then 2
               else match s2 with
                    | EmptyString => 0
                    | String c2 _ => if is_space3 c0 c1 c2 then 3 else 0
                    end
           end
  end.

(** [s.lstrip()] *)
Fixpoint lstrip (s : string) : string :=
  match s with
  | EmptyString => EmptyString
  | String c0 s1 =>
      if is_space c0 then lstrip s1
      else match s1 with
           | EmptyString => s
           | String c1 s2 =>
               if is_space2 c0 c1 then lstrip s2
               else match s2 with
                    | EmptyString => s
                    | String c2 s3 => if is_space3 c0 c1 c2 then lstrip s3 else s
                    end
           end
  end.

(** [s.rstrip()]: when the stripped tail of [s] is short enough to make,
    with the first byte of [s], one whitespace character, that character is
    stripped too. *)
Fixpoint rstrip (s : string) : string :=
  match s with
  | EmptyString => EmptyString
  | String c0 s' =>
      match rstrip s' with
      | EmptyString => if is_space c0 then EmptyString else String c0 EmptyString
      | String c1 EmptyString =>
          if is_space2 c0 c1 then EmptyString else String c0 (String c1 EmptyString)
      | String c1 (String c2 EmptyString) =>
          if is_space3 c0 c1 c2 then EmptyString
          else String c0 (String c1 (String c2 EmptyString))
      | String c1 (String c2 (String c3 r)) =>
          String c0 (String c1 (String c2 (String c3 r)))
      end
  end.

(** [s.strip()] *)
Definition strip (s : string) : string := rstrip (lstrip s).

(** [c in s] for a one-character [c]. *)
Fixpoint contains (c : ascii) (s : string) : bool :=
  match s with
  | EmptyString => false
  | String c' s' => Ascii.eqb c' c || contains c s'
  end.

(** [s.split(sep)] for a one-character separator: never empty, one part more
    than there are separators. *)
Fixpoint split_on (sep : ascii) (s : string) : list string :=
  match s with
  | EmptyString => [EmptyString]
  | String c s' =>
      if Ascii.eqb c sep then EmptyString :: split_on sep s'
      else match split_on sep s' with
           | p :: ps => String c p :: ps
           | [] => [String c EmptyString]
           end
  end.

(** [s.split(sep, 1)] on a string that contains [sep]: the text before the
    first separator and the text after it. *)
Fixpoint split_first (sep : ascii) (s : string) : string * string :=
  match s with
  | EmptyString => (EmptyString, EmptyString)
  | String c s' =>
      if Ascii.eqb c sep then (EmptyString, s')
      else let '(a, b) := split_first sep s' in (String c a, b)
  end.

(** [sep.join(parts)] *)
Fixpoint join (sep : string) (parts : list string) : string :=
  match parts with
  | [] => EmptyString
  | [p] => p
  | p :: ps => p ++ sep ++ join sep ps
  end.

(** [s[:n]] *)
Definition prefix_of (n : nat) (s : string) : string := substring 0 n s.

Definition comma : ascii := ","%char.
Definition newline : ascii := ascii_of_nat 10.
Definition bar : ascii := "|"%char.

(* ===================================================================== *)
(** ** Values and dictionaries *)

(** What [json.loads] builds, and what the script stores into records
    ([None], [True], [False], strings). *)
Inductive json : Type :=
| JNull
| JBool (b : bool)
| JInt (n : Z)
| JFloat (f : float)
| JStr (s : string)
| JList (l : list json)
| JDict (d : list (string * json)).

(** A Python [dict] with string keys: entries in insertion order, one entry
    per key. *)
Definition pydict (V : Type) : Type := list (string * V).

(** [d.get(k)] as an option; [k in d] *)
Fixpoint pd_get {V : Type} (k : string) (d : pydict V) : option V :=
  match d with
  | [] => None
  | (k', v) :: d' => if String.eqb k' k then Some v else pd_get k d'
  end.

Definition pd_mem {V : Type} (k : string) (d : pydict V) : bool :=
  match pd_get k d with Some _ => true | None => false end.

(** [d.get(k, dflt)] *)
Definition pd_get_default {V : Type} (k : string) (dflt : V) (d : pydict V) : V :=
  match pd_get k d with Some v => v | None => dflt end.

(** [d[k] = v]: an existing key keeps its position, a new one goes last. *)
Fixpoint pd_set {V : Type} (k : string) (v : V) (d : pydict V) : pydict V :=
  match d with
  | [] => [(k, v)]
  | (k', v') :: d' =>
      if String.eqb k' k then (k, v) :: d' else (k', v') :: pd_set k v d'
  end.

(** [d.update(other)] *)
Definition pd_update {V : Type} (d other : pydict V) : pydict V :=
  fold_left (fun acc kv => pd_set (fst kv) (snd kv) acc) other d.

Definition pd_keys {V : Type} (d : pydict V) : list string := map fst d.
Definition pd_values {V : Type} (d : pydict V) : list V := map snd d.

(** How many entries a dictionary holds under key [k]. *)
Definition count_key {V : Type} (k : string) (d : pydict V) : nat :=
  List.length (filter (fun kv => String.eqb (fst kv) k) d).

(** Truth value of a Python object ([if x:], [not x]). *)
Definition truthy (v : json) : bool :=
  match v with
  | JNull => false
  | JBool b => b
  | JInt n => negb (n =? 0)%Z
  | JFloat f => negb (PrimFloat.eqb f 0%float)
  | JStr s => negb (s =? "")
  | JList l => match l with [] => false | _ => true end
  | JDict d => match d with [] => false | _ => true end
  end.

(** [str(n)] for an [int]. *)
Definition str_of_int (n : Z) : string := NilZero.string_of_int (Z.to_int n).

(* ===================================================================== *)
(** ** Exceptions, outcomes, logging *)

(** The exception classes that occur; all derive from [Exception]. *)
Inductive exn : Type :=
| ValueError
| JSONDecodeError
| UnicodeDecodeError
| TypeError
| AttributeError
| CalledProcessError
| OSError
| FileNotFoundError
| ParserError.

Definition exn_eqb (a b : exn) : bool :=
  match a, b with
  | ValueError, ValueError | JSONDecodeError, JSONDecodeError
  | UnicodeDecodeError, UnicodeDecodeError | TypeError, TypeError
  | AttributeError, AttributeError | CalledProcessError, CalledProcessError
  | OSError, OSError | FileNotFoundError, FileNotFoundError
  | ParserError, ParserError => true
  | _, _ => false
  end.

(** [except cls:] catches [e] when [e]'s class is [cls] or derives from it. *)
Definition catches (cls e : exn) : bool :=
  match cls, e with
  | ValueError, (JSONDecodeError | UnicodeDecodeError) => true
  | OSError, FileNotFoundError => true
  | _, _ => exn_eqb cls e
  end.

(** What a library call does: return, or raise an [Exception]. *)
Inductive result (A : Type) : Type :=
| Ok (a : A)
| Err (e : exn).
Arguments Ok {A} a.
Arguments Err {A} e.

(** What a function of the script does: return, raise, or leave through
    [sys.exit] ([SystemExit] is no [Exception]: [except Exception] lets it
    through). *)
Inductive outcome (A : Type) : Type :=
| Returned (a : A)
| Raised (e : exn)
| Exited (code : Z).
Arguments Returned {A} a.
Arguments Raised {A} e.
Arguments Exited {A} code.

Inductive level : Type := INFO | WARNING | ERROR.

(** One constructor per [logger] call of the script, with the values its
    message interpolates. *)
Inductive log_entry : Type :=
| Log_git_failed                                  (* error, get_all_commits *)
| Log_git_hint                                    (* error, get_all_commits *)
| Log_no_events_json (sha8 : string)              (* warning, extract_events_from_commit *)
| Log_invalid_json (sha8 : string)                (* warning, extract_events_from_commit *)
| Log_found_commits (n : nat)                     (* info, extract_all_events *)
| Log_total_extracted (n : nat)                   (* info, extract_all_events *)
| Log_unique_events (n : nat)                     (* info, extract_all_events *)
| Log_bad_datetime (event_id dt : string)         (* warning, extract_all_events *)
| Log_after_filter (n : nat)                      (* info, extract_all_events *)
| Log_html_missing (event_id : string)            (* warning, enrich_with_html *)
| Log_html_failed (event_id : string) (e : exn)   (* error, enrich_with_html *)
| Log_html_summary (processed missing errors : nat) (* info, enrich_with_html *)
| Log_invalid_gps (event_id : string) (e : exn)   (* warning, flatten_event_for_export *)
| Log_start_date | Log_end_date                   (* info, main *)
| Log_bad_start_date | Log_bad_end_date           (* error, main *)
| Log_no_events                                   (* error, main *)
| Log_no_html_dir                                 (* error, main *)
| Log_stage (name : string).                      (* info, main *)

Definition level_of (e : log_entry) : level :=
  match e with
  | Log_git_failed | Log_git_hint | Log_html_failed _ _
  | Log_bad_start_date | Log_bad_end_date | Log_no_events | Log_no_html_dir => ERROR
  | Log_no_events_json _ | Log_invalid_json _ | Log_bad_datetime _ _
  | Log_html_missing _ | Log_invalid_gps _ _ => WARNING
  | _ => INFO
  end.

Definition is_warning (e : log_entry) : bool :=
  match level_of e with WARNING => true | _ => false end.

(** The warnings among the records of a log. *)
Definition warnings (log : list log_entry) : list log_entry := filter is_warning log.

(** A computation that logs: its outcome and the records it emitted. *)
Definition M (A : Type) : Type := outcome A * list log_entry.

Definition ret {A : Type} (a : A) : M A := (Returned a, []).
Definition raise {A : Type} (e : exn) : M A := (Raised e, []).
Definition sys_exit {A : Type} (code : Z) : M A := (Exited code, []).
Definition logger (e : log_entry) : M unit := (Returned tt, [e]).
Definition lift {A : Type} (o : outcome A) : M A := (o, []).

Definition bind {A B : Type} (m : M A) (f : A -> M B) : M B :=
  match m with
  | (Returned a, l1) => let '(o, l2) := f a in (o, l1 ++ l2)
  | (Raised e, l1) => (Raised e, l1)
  | (Exited c, l1) => (Exited c, l1)
  end.

Notation "x <- m ;; k" := (bind m (fun x => k))
  (at level 61, m at next level, right associativity).
Notation "m ;;; k" := (bind m (fun _ => k))
  (at level 61, right associativity).

(** [for x in xs: st = body(st, x)], stopping at the first raise. *)
Fixpoint for_each {A S : Type} (body : S -> A -> M S) (xs : list A) (st : S) : M S :=
  match xs with
  | [] => ret st
  | x :: xs' => st' <- body st x ;; for_each body xs' st'
  end.

(* ===================================================================== *)
(** ** [datetime] *)

(** A [datetime.datetime]; [tzinfo] is the UTC offset in microseconds of an
    aware value and [None] for a naive one. *)
Record datetime : Type := mk_datetime {
  year : Z; month : Z; day : Z;
  hour : Z; minute : Z; second : Z; microsecond : Z;
  tzinfo : option Z
}.

Definition base_fields (d : datetime) : list Z :=
  [year d; month d; day d; hour d; minute d; second d; microsecond d].

Fixpoint lex_compare (a b : list Z) : comparison :=
  match a, b with
  | [], [] => Eq
  | [], _ :: _ => Lt
  | _ :: _, [] => Gt
  | x :: a', y :: b' =>
      match (x ?= y)%Z with Eq => lex_compare a' b' | c => c end
  end.

Definition is_leap (y : Z) : bool :=
  ((y mod 4 =? 0) && (negb (y mod 100 =? 0) || (y mod 400 =? 0)))%Z.

Definition days_before_year (y : Z) : Z :=
  let y := (y - 1)%Z in (y * 365 + y / 4 - y / 100 + y / 400)%Z.

Definition days_before_month (y m : Z) : Z :=
  (nth (Z.to_nat m) [0; 0; 31; 59; 90; 120; 151; 181; 212; 243; 273; 304; 334] 0
   + (if (2 <? m) && is_leap y then 1 else 0))%Z.

(** [datetime.toordinal]: days since 0001-01-01, that day being 1. *)
Definition ymd2ord (y m d : Z) : Z :=
  (days_before_year y + days_before_month y m + d)%Z.

(** The instant of an aware value with offset [off], in microseconds. *)
Definition utc_micros (d : datetime) (off : Z) : Z :=
  (((ymd2ord (year d) (month d) (day d) * 86400
     + hour d * 3600 + minute d * 60 + second d) * 1000000
    + microsecond d) - off)%Z.

(** [datetime._cmp]: two naive values, or two values with the same offset,
    compare by their fields; two aware values by their instants; a naive and
    an aware one do not compare ([TypeError]). *)
Definition dt_cmp (a b : datetime) : outcome comparison :=
  match tzinfo a, tzinfo b with
  | None, None => Returned (lex_compare (base_fields a) (base_fields b))
  | Some oa, Some ob =>
      if (oa =? ob)%Z then Returned (lex_compare (base_fields a) (base_fields b))
      else Returned (utc_micros a oa ?= utc_micros b ob)%Z
  | _, _ => Raised TypeError
  end.

(** [a < b] and [a > b] *)
Definition dt_lt (a b : datetime) : outcome bool :=
  match dt_cmp a b with
  | Returned Lt => Returned true
  | Returned _ => Returned false
  | Raised e => Raised e
  | Exited c => Exited c
  end.

Definition dt_gt (a b : datetime) : outcome bool :=
  match dt_cmp a b with
  | Returned Gt => Returned true
  | Returned _ => Returned false
  | Raised e => Raised e
  | Exited c => Exited c
  end.

(** [d.replace(hour=h, minute=m, second=s)] *)
Definition replace_hms (d : datetime) (h m s : Z) : datetime :=
  mk_datetime (year d) (month d) (day d) h m s (microsecond d) (tzinfo d).

(* ===================================================================== *)
(** ** The outside world *)

(** The library calls of the script.  [py_repr] is [repr] on the values whose
    [str] is their [repr] (floats, lists, dicts); [py_float] and
    [fromisoformat] are [float] and [datetime.fromisoformat] on a string,
    [None] standing for their [ValueError]; [git_log] and [git_show] are the
    two [subprocess.run] calls, returning the captured standard output;
    [path_join] is [/] on paths; [path_exists] is [Path.exists], which
    raises the [OSError] of [os.stat] when it is none of those that mean an
    absent file (a name too long, a directory that may not be searched);
    [read_text] opens and reads a file; [elem] is an lxml element with the
    three operations used on it. *)
Record env : Type := mk_env {
  py_repr : json -> string;
  py_float : string -> option float;
  fromisoformat : string -> option datetime;
  git_log : result string;
  git_show : string -> result string;
  json_loads : string -> result json;
  path_join : string -> string -> string;
  path_exists : string -> result bool;
  read_text : string -> result string;
  elem : Type;
  fromstring : string -> result elem;
  cssselect : elem -> string -> list elem;
  text_content : elem -> string;
  attr_get : elem -> string -> option string
}.

(* ===================================================================== *)
(** ** The functions of the script *)

Section Script.

Variable E : env.

(** [str(v)] *)
Definition py_str (v : json) : string :=
  match v with
  | JNull => "None"
  | JBool true => "True"
  | JBool false => "False"
  | JInt n => str_of_int n
  | JStr s => s
  | JFloat _ | JList _ | JDict _ => py_repr E v
  end.

(** The Swedish bounding box of [parse_gps_string]. *)
Definition lat_in_bounds (lat : float) : bool :=
  (PrimFloat.leb 55.0 lat && PrimFloat.leb lat 70.0)%float.

Definition lon_in_bounds (lon : float) : bool :=
  (PrimFloat.leb 10.0 lon && PrimFloat.leb lon 25.0)%float.

(** [parse_gps_string] on a string. *)
Definition parse_gps_text (s : string) : outcome (float * float) :=
  if (s =? "") || negb (contains comma s) then Raised ValueError
  else
    match split_on comma s with
    | [p0; p1] =>
        match py_float E (strip p0) with
        | None => Raised ValueError
        | Some lat =>
            match py_float E (strip p1) with
            | None => Raised ValueError
            | Some lon =>
                if negb (lat_in_bounds lat) then Raised ValueError
                else if negb (lon_in_bounds lon) then Raised ValueError
                else Returned (lat, lon)
            end
        end
    | _ => Raised ValueError
    end.

Definition is_comma_str (v : json) : bool :=
  match v with JStr s => s =? "," | _ => false end.

(** [parse_gps_string] on whatever the record holds under [gps]: a falsy value
    is rejected by [not gps_str]; [',' in x] is a [TypeError] on a number or
    a boolean; a list or dict that does hold [','] has no [split]. *)
Definition parse_gps_string (gps_str : json) : outcome (float * float) :=
  match gps_str with
  | JStr s => parse_gps_text s
  | JList l =>
      if negb (truthy gps_str) || negb (existsb is_comma_str l) then Raised ValueError
      else Raised AttributeError
  | JDict d =>
      if negb (truthy gps_str) || negb (pd_mem "," d) then Raised ValueError
      else Raised AttributeError
  | JNull | JBool _ | JInt _ | JFloat _ =>
      if negb (truthy gps_str) then Raised ValueError else Raised TypeError
  end.

Definition first_text (l : list (elem E)) : json :=
  match l with
  | x :: _ => JStr (strip (text_content E x))
  | [] => JNull
  end.

(** [extract_html_data]: it raises what [open], [read] and lxml raise, and
    [ValueError] when the content container is absent. *)
Definition extract_html_data (html_path : string) : result (pydict json) :=
  match read_text E html_path with
  | Err e => Err e
  | Ok html_content =>
      match fromstring E html_content with
      | Err e => Err e
      | Ok tree =>
          match cssselect E tree ".event-page.editorial-content" with
          | [] => Err ValueError
          | event_div :: _ =>
              let html_title := first_text (cssselect E event_div "h1") in
              let html_preamble := first_text (cssselect E event_div "p.preamble") in
              let html_body :=
                match cssselect E event_div ".text-body.editorial-html" with
                | body_div :: _ =>
                    JStr (join (String newline EmptyString)
                            (map (fun p => strip (text_content E p))
                                 (cssselect E body_div "p")))
                | [] => JNull
                end in
              let html_published_datetime :=
                match cssselect E event_div "time.date" with
                | t :: _ =>
                    match attr_get E t "datetime" with
                    | Some s => if s =? "" then JNull else JStr s
                    | None => JNull
                    end
                | [] => JNull
                end in
              let html_author :=
                match cssselect E event_div ".published-container span" with
                | _ :: a :: _ => JStr (strip (text_content E a))
                | _ => JNull
                end in
              Ok [("html_title", html_title);
                  ("html_preamble", html_preamble);
                  ("html_body", html_body);
                  ("html_published_datetime", html_published_datetime);
                  ("html_author", html_author);
                  ("html_available", JBool true)]
          end
      end
  end.

(** The lines of [git log] that hold a bar, each cut at its first bar. *)
Definition parse_commit_lines (stdout : string) : list (string * string) :=
  map (split_first bar)
      (filter (contains bar) (split_on newline (strip stdout))).

(** [get_all_commits] *)
Definition get_all_commits : M (list (string * string)) :=
  match git_log E with
  | Ok stdout => ret (parse_commit_lines stdout)
  | Err e =>
      if catches CalledProcessError e then
        logger Log_git_failed ;;; logger Log_git_hint ;;; sys_exit 1
      else raise e
  end.

(** [extract_events_from_commit]: the two [except] clauses catch a failed
    [git show] and a [JSONDecodeError]; anything else propagates. *)
Definition extract_events_from_commit (commit_sha : string) : M (list json) :=
  match git_show E commit_sha with
  | Err e =>
      if catches CalledProcessError e then
        logger (Log_no_events_json (prefix_of 8 commit_sha)) ;;; ret []
      else if catches JSONDecodeError e then
        logger (Log_invalid_json (prefix_of 8 commit_sha)) ;;; ret []
      else raise e
  | Ok stdout =>
      match json_loads E stdout with
      | Err e =>
          if catches CalledProcessError e then
            logger (Log_no_events_json (prefix_of 8 commit_sha)) ;;; ret []
          else if catches JSONDecodeError e then
            logger (Log_invalid_json (prefix_of 8 commit_sha)) ;;; ret []
          else raise e
      | Ok (JList events) => ret events
      | Ok _ => ret []
      end
  end.

(** The identity of a record: [str(event.get('id', ''))]. *)
Definition identity (event : pydict json) : string :=
  py_str (pd_get_default "id" (JStr "") event).

(** The body of the inner loop of [extract_all_events]: an entry that is no
    dict has no [get]. *)
Definition merge_event (events_by_id : pydict (pydict json)) (event : json)
  : M (pydict (pydict json)) :=
  match event with
  | JDict d =>
      let event_id := identity d in
      if event_id =? "" then ret events_by_id
      else ret (pd_set event_id d events_by_id)
  | _ => raise AttributeError
  end.

(** The body of the loop over the commits; the state is [events_by_id] and
    [total_extracted]. *)
Definition merge_commit (st : pydict (pydict json) * nat) (commit : string * string)
  : M (pydict (pydict json) * nat) :=
  events <- extract_events_from_commit (fst commit) ;;
  events_by_id <- for_each merge_event events (fst st) ;;
  ret (events_by_id, (snd st + List.length events)%nat).

(** [start_date and event_dt < start_date] *)
Definition before_start (start_date : option datetime) (event_dt : datetime)
  : outcome bool :=
  match start_date with
  | Some sd => dt_lt event_dt sd
  | None => Returned false
  end.

(** [end_date and event_dt > end_date] *)
Definition after_end (end_date : option datetime) (event_dt : datetime)
  : outcome bool :=
  match end_date with
  | Some ed => dt_gt event_dt ed
  | None => Returned false
  end.

(** The body of the date-filter loop.  Only [ValueError] is caught: the
    [TypeError] of [fromisoformat] on a value that is no string, and of a
    comparison, propagates. *)
Definition filter_event (start_date end_date : option datetime)
    (filtered : pydict (pydict json)) (item : string * pydict json)
  : M (pydict (pydict json)) :=
  let '(event_id, event) := item in
  let event_datetime_str := pd_get_default "datetime" (JStr "") event in
  if negb (truthy event_datetime_str) then ret filtered
  else
    match event_datetime_str with
    | JStr s =>
        match fromisoformat E s with
        | None => logger (Log_bad_datetime event_id s) ;;; ret filtered
        | Some event_dt =>
            early <- lift (before_start start_date event_dt) ;;
            if early then ret filtered
            else
              late <- lift (after_end end_date event_dt) ;;
              if late then ret filtered
              else ret (pd_set event_id event filtered)
        end
    | _ => raise TypeError
    end.

(** The date-filter block of [extract_all_events]. *)
Definition date_filter (start_date end_date : option datetime)
    (events_by_id : pydict (pydict json)) : M (pydict (pydict json)) :=
  filtered <- for_each (filter_event start_date end_date) events_by_id [] ;;
  logger (Log_after_filter (List.length filtered)) ;;;
  ret filtered.

(** The merge stage of [extract_all_events]: everything before the date
    filter. *)
Definition merge_all : M (pydict (pydict json)) :=
  commits <- get_all_commits ;;
  logger (Log_found_commits (List.length commits)) ;;;
  st <- for_each merge_commit commits ([], 0%nat) ;;
  logger (Log_total_extracted (snd st)) ;;;
  logger (Log_unique_events (List.length (fst st))) ;;;
  ret (fst st).

(** [extract_all_events] *)
Definition extract_all_events (start_date end_date : option datetime)
  : M (pydict (pydict json)) :=
  events_by_id <- merge_all ;;
  match start_date, end_date with
  | None, None => ret events_by_id
  | _, _ => date_filter start_date end_date events_by_id
  end.

(** The six assignments of the two failure branches of [enrich_with_html]. *)
Definition set_unavailable (event : pydict json) : pydict json :=
  pd_set "html_author" JNull
    (pd_set "html_published_datetime" JNull
       (pd_set "html_body" JNull
          (pd_set "html_preamble" JNull
             (pd_set "html_title" JNull
                (pd_set "html_available" (JBool false) event))))).

(** [missing_count], [processed_count], [error_count] *)
Record counters : Type := mk_counters {
  missing_count : nat; processed_count : nat; error_count : nat
}.

(** The body of the loop of [enrich_with_html]: the record after the
    in-place update and the counters.  [html_path.exists()] stands outside
    the [try]: what it raises leaves the loop.  [except Exception] catches
    whatever [extract_html_data] raises. *)
Definition enrich_event (html_dir : string) (c : counters)
    (item : string * pydict json) : M (pydict json * counters) :=
  let '(event_id, event) := item in
  let html_path := path_join E html_dir (event_id ++ ".html") in
  match path_exists E html_path with
  | Err e => raise e
  | Ok false =>
      logger (Log_html_missing event_id) ;;;
      ret (set_unavailable event,
           mk_counters (S (missing_count c)) (processed_count c) (error_count c))
  | Ok true =>
      match extract_html_data html_path with
      | Ok html_data =>
          ret (pd_update event html_data,
               mk_counters (missing_count c) (S (processed_count c)) (error_count c))
      | Err e =>
          logger (Log_html_failed event_id e) ;;;
          ret (set_unavailable event,
               mk_counters (missing_count c) (processed_count c) (S (error_count c)))
      end
  end.

(** The loop of [enrich_with_html] over [events.items()]: every record is
    updated where it stands, so the keys and their order stay. *)
Fixpoint enrich_loop (html_dir : string) (items : pydict (pydict json))
    (c : counters) : M (pydict (pydict json) * counters) :=
  match items with
  | [] => ret ([], c)
  | item :: rest =>
      r <- enrich_event html_dir c item ;;
      rs <- enrich_loop html_dir rest (snd r) ;;
      ret ((fst item, fst r) :: fst rs, snd rs)
  end.

(** [enrich_with_html] *)
Definition enrich_with_html (events : pydict (pydict json)) (html_dir : string)
  : M (pydict (pydict json)) :=
  r <- enrich_loop html_dir events (mk_counters 0 0 0) ;;
  logger (Log_html_summary (processed_count (snd r)) (missing_count (snd r))
            (error_count (snd r))) ;;;
  ret (fst r).

(** The narrative keys, the marker key last. *)
Definition narrative_fields : list string :=
  ["html_title"; "html_preamble"; "html_body"; "html_published_datetime";
   "html_author"].

Definition marker_key : string := "html_available".

(** [flattened['latitude'] = lat; flattened['longitude'] = lon] *)
Definition set_coordinates (lat lon : json) (flattened : pydict json) : pydict json :=
  pd_set "longitude" lon (pd_set "latitude" lat flattened).

(** The last block of [flatten_event_for_export]. *)
Definition add_html_fields (event flattened : pydict json) : pydict json :=
  if pd_mem marker_key event then
    pd_set "html_available" (pd_get_default "html_available" (JBool false) event)
      (pd_set "html_author" (pd_get_default "html_author" JNull event)
         (pd_set "html_published_datetime"
            (pd_get_default "html_published_datetime" JNull event)
            (pd_set "html_body" (pd_get_default "html_body" JNull event)
               (pd_set "html_preamble" (pd_get_default "html_preamble" JNull event)
                  (pd_set "html_title" (pd_get_default "html_title" JNull event)
                     flattened)))))
  else flattened.

(** [flatten_event_for_export]: a [location] that is no dict has no [get];
    of what [parse_gps_string] raises only [ValueError] is caught. *)
Definition flatten_event_for_export (event : pydict json) : M (pydict json) :=
  let flattened :=
    [("event_id", JStr (py_str (pd_get_default "id" (JStr "") event)));
     ("datetime", pd_get_default "datetime" (JStr "") event);
     ("name", pd_get_default "name" (JStr "") event);
     ("summary", pd_get_default "summary" (JStr "") event);
     ("url", pd_get_default "url" (JStr "") event);
     ("type", pd_get_default "type" (JStr "") event)] in
  match pd_get_default "location" (JDict []) event with
  | JDict location =>
      let flattened :=
        pd_set "location_name" (pd_get_default "name" (JStr "") location) flattened in
      let gps_str := pd_get_default "gps" (JStr "") location in
      flattened <-
        (if truthy gps_str then
           match parse_gps_string gps_str with
           | Returned (lat, lon) =>
               ret (set_coordinates (JFloat lat) (JFloat lon) flattened)
           | Raised e =>
               if catches ValueError e then
                 logger (Log_invalid_gps (identity event) e) ;;;
                 ret (set_coordinates JNull JNull flattened)
               else raise e
           | Exited c => sys_exit c
           end
         else ret (set_coordinates JNull JNull flattened)) ;;
      ret (add_html_fields event flattened)
  | _ => raise AttributeError
  end.

(** The command-line arguments [main] reads (the output path apart). *)
Record cli_args : Type := mk_args {
  arg_start_date : option string;
  arg_end_date : option string;
  arg_include_html : bool;
  arg_html_dir : string
}.

(** [--start-date]: midnight of the day given. *)
Definition parse_start_date (a : option string) : M (option datetime) :=
  match a with
  | None => ret None
  | Some s =>
      if s =? "" then ret None
      else match fromisoformat E s with
           | Some d => logger Log_start_date ;;; ret (Some (replace_hms d 0 0 0))
           | None => logger Log_bad_start_date ;;; sys_exit 1
           end
  end.

(** [--end-date]: the last second of the day given. *)
Definition parse_end_date (a : option string) : M (option datetime) :=
  match a with
  | None => ret None
  | Some s =>
      if s =? "" then ret None
      else match fromisoformat E s with
           | Some d => logger Log_end_date ;;; ret (Some (replace_hms d 23 59 59))
           | None => logger Log_bad_end_date ;;; sys_exit 1
           end
  end.

(** [[flatten_event_for_export(e) for e in events_by_id.values()]] *)
Fixpoint flatten_all (events : list (pydict json)) : M (list (pydict json)) :=
  match events with
  | [] => ret []
  | e :: rest =>
      f <- flatten_event_for_export e ;;
      fs <- flatten_all rest ;;
      ret (f :: fs)
  end.

(** [main] up to the list handed to the export writer. *)
Definition main (args : cli_args) : M (list (pydict json)) :=
  start_date <- parse_start_date (arg_start_date args) ;;
  end_date <- parse_end_date (arg_end_date args) ;;
  logger (Log_stage "git archaeology") ;;;
  events_by_id <- extract_all_events start_date end_date ;;
  match events_by_id with
  | [] => logger Log_no_events ;;; sys_exit 1
  | _ :: _ =>
      events_by_id <-
        (if arg_include_html args then
           match path_exists E (arg_html_dir args) with
           | Err e => raise e
           | Ok false => logger Log_no_html_dir ;;; sys_exit 1
           | Ok true =>
               logger (Log_stage "HTML enrichment") ;;;
               enrich_with_html events_by_id (arg_html_dir args)
           end
         else ret events_by_id) ;;
      logger (Log_stage "flattening") ;;;
      flatten_all (pd_values events_by_id)
  end.

End Script.

(* ===================================================================== *)
(** ** Sample worlds

    Concrete instances of [env], for running the script on examples: a
    repository given by tables, [float] and [datetime.fromisoformat] on the
    plain shapes that occur in the examples. *)

Definition digit_of (c : ascii) : option Z :=
  let n := nat_of_ascii c in
  if (48 <=? n)%nat && (n <=? 57)%nat then Some (Z.of_nat n - 48)%Z else None.

Fixpoint digits_value (acc : Z) (s : string) : option Z :=
  match s with
  | EmptyString => Some acc
  | String c s' =>
      match digit_of c with
      | Some d => digits_value (10 * acc + d)%Z s'
      | None => None
      end
  end.

(** A non-empty run of decimal digits. *)
Definition number_of (s : string) : option Z :=
  if s =? "" then None else digits_value 0 s.

Definition float_of_Z (n : Z) : float := PrimFloat.of_uint63 (Uint63.of_Z n).

(** The quotient of two integers that binary64 holds exactly is correctly
    rounded, as [float] rounds the decimal numeral. *)
Definition decimal_quotient (mantissa : Z) (digits : nat) : option float :=
  if (mantissa <? 2 ^ 53)%Z && (digits <=? 22)%nat
  then Some (float_of_Z mantissa / float_of_Z (10 ^ Z.of_nat digits))%float
  else None.

Definition unsigned_decimal (s : string) : option float :=
  match split_on "."%char s with
  | [i] => match number_of i with
           | Some n => decimal_quotient n 0
           | None => None
           end
  | [i; f] =>
      match number_of i, number_of f with
      | Some n, Some m =>
          decimal_quotient (n * 10 ^ Z.of_nat (String.length f) + m) (String.length f)
      | _, _ => None
      end
  | _ => None
  end.

(** [float] on a plain decimal numeral ([62.63227], [-3], [200.0]) of at most
    fifteen digits; other numerals are outside this sample. *)
Definition decimal_float (s : string) : option float :=
  match s with
  | String "-"%char s' =>
      match unsigned_decimal s' with
      | Some f => Some (PrimFloat.opp f)
      | None => None
      end
  | _ => unsigned_decimal s
  end.

Definition days_in_month (y m : Z) : Z :=
  (nth (Z.to_nat m) [0; 31; 28; 31; 30; 31; 30; 31; 31; 30; 31; 30; 31] 0
   + (if (m =? 2) && is_leap y then 1 else 0))%Z.

Definition iso_date (s : string) : option (Z * Z * Z) :=
  match number_of (substring 0 4 s), number_of (substring 5 2 s),
        number_of (substring 8 2 s) with
  | Some y, Some m, Some d =>
      if (substring 4 1 s =? "-") && (substring 7 1 s =? "-")
         && (1 <=? y)%Z && (1 <=? m)%Z && (m <=? 12)%Z
         && (1 <=? d)%Z && (d <=? days_in_month y m)%Z
      then Some (y, m, d) else None
  | _, _, _ => None
  end.

(** [HH:MM:SS] *)
Definition iso_time (s : string) : option (Z * Z * Z) :=
  match number_of (substring 0 2 s), number_of (substring 3 2 s),
        number_of (substring 6 2 s) with
  | Some h, Some m, Some sec =>
      if (substring 2 1 s =? ":") && (substring 5 1 s =? ":")
         && (h <=? 23)%Z && (m <=? 59)%Z && (sec <=? 59)%Z
      then Some (h, m, sec) else None
  | _, _, _ => None
  end.

(** [+HH:MM] or [-HH:MM], in microseconds. *)
Definition iso_offset (s : string) : option Z :=
  match number_of (substring 1 2 s), number_of (substring 4 2 s) with
  | Some h, Some m =>
      if (substring 3 1 s =? ":") && (h <=? 23)%Z && (m <=? 59)%Z then
        if substring 0 1 s =? "+" then Some ((h * 3600 + m * 60) * 1000000)%Z
        else if substring 0 1 s =? "-" then Some (- ((h * 3600 + m * 60) * 1000000))%Z
        else None
      else None
  | _, _ => None
  end.

(** [datetime.fromisoformat] on three shapes it accepts: [YYYY-MM-DD],
    [YYYY-MM-DDxHH:MM:SS] and [YYYY-MM-DDxHH:MM:SS+HH:MM] ([x] any
    character); other strings are outside this sample. *)
Definition iso_datetime (s : string) : option datetime :=
  match String.length s, iso_date (substring 0 10 s) with
  | 10%nat, Some (y, m, d) => Some (mk_datetime y m d 0 0 0 0 None)
  | 19%nat, Some (y, m, d) =>
      match iso_time (substring 11 8 s) with
      | Some (h, mi, sec) => Some (mk_datetime y m d h mi sec 0 None)
      | None => None
      end
  | 25%nat, Some (y, m, d) =>
      match iso_time (substring 11 8 s), iso_offset (substring 19 6 s) with
      | Some (h, mi, sec), Some off => Some (mk_datetime y m d h mi sec 0 (Some off))
      | _, _ => None
      end
  | _, _ => None
  end.

(** A parsed page: its text, its attributes and, per selector, the elements
    the selector matches below it. *)
Inductive page : Type :=
| Page (text : string) (attrs : pydict string) (matches : list (string * list page)).

Definition page_text (p : page) : string := let 'Page t _ _ := p in t.
Definition page_attr (p : page) (k : string) : option string :=
  let 'Page _ a _ := p in pd_get k a.
Definition page_select (p : page) (selector : string) : list page :=
  let 'Page _ _ m := p in
  match pd_get selector m with Some l => l | None => [] end.

(** A repository and a document store, as tables. *)
Record tables : Type := mk_tables {
  t_log : result string;                 (* what [git log] prints *)
  t_blobs : pydict string;               (* commit -> events.json there *)
  t_json : pydict json;                  (* text -> what it parses to *)
  t_paths : list string;                 (* the paths that exist *)
  t_files : pydict string;               (* path -> content *)
  t_pages : pydict page                  (* content -> parsed tree *)
}.

Definition repr_unused (v : json) : string := "<repr>".

(** The longest file name the file system takes, in bytes; [os.stat] fails
    with [ENAMETOOLONG] on a path with a longer component. *)
Definition name_max : nat := 255.

Definition table_env (t : tables) : env :=
  mk_env
    repr_unused
    decimal_float
    iso_datetime
    (t_log t)
    (fun sha => match pd_get sha (t_blobs t) with
                | Some text => Ok text
                | None => Err CalledProcessError
                end)
    (fun text => match pd_get text (t_json t) with
                 | Some v => Ok v
                 | None => Err JSONDecodeError
                 end)
    (fun dir name => (dir ++ "/" ++ name)%string)
    (fun path =>
       if existsb (fun name => (name_max <? String.length name)%nat)
                  (split_on "/"%char path)
       then Err OSError
       else Ok (existsb (String.eqb path) (t_paths t)))
    (fun path => match pd_get path (t_files t) with
                 | Some text => Ok text
                 | None => Err FileNotFoundError
                 end)
    page
    (fun text => match pd_get text (t_pages t) with
                 | Some p => Ok p
                 | None => Err ParserError
                 end)
    page_select
    page_text
    page_attr.

Definition quoted (s : string) : string :=
  (String (ascii_of_nat 34) s ++ String (ascii_of_nat 34) EmptyString)%string.

(** The JSON text of a value (strings without escapes, floats apart). *)
Fixpoint json_text (v : json) : string :=
  match v with
  | JNull => "null"
  | JBool true => "true"
  | JBool false => "false"
  | JInt n => str_of_int n
  | JFloat _ => "NaN"
  | JStr s => quoted s
  | JList l => ("[" ++ join ", " (map json_text l) ++ "]")%string
  | JDict d =>
      ("{" ++ join ", " (map (fun kv => quoted (fst kv) ++ ": " ++ json_text (snd kv)) d)
           ++ "}")%string
  end.

Definition lines (l : list string) : string := join (String newline EmptyString) l.

(** *** A history of six commits *)

Definition event_123_A : pydict json :=
  [("id", JInt 123); ("datetime", JStr "2024-03-01T10:00:00"); ("name", JStr "A");
   ("location", JDict [("name", JStr "Sundsvall"); ("gps", JStr "62.63227,17.940871")])].

Definition event_123_B : pydict json :=
  [("id", JStr "123"); ("datetime", JStr "2024-03-01T10:00:00"); ("name", JStr "B");
   ("location", JDict [("name", JStr "Sundsvall"); ("gps", JStr "62.63227,17.940871")])].

Definition event_456 : pydict json :=
  [("id", JInt 456); ("datetime", JStr "2024-12-31T23:59:59"); ("name", JStr "C");
   ("location", JDict [("name", JStr "Offshore"); ("gps", JStr "62.6,200.0")])].

Definition event_789 : pydict json :=
  [("id", JInt 789); ("datetime", JStr "2024-01-01T00:00:00"); ("name", JStr "D")].

Definition event_no_id : pydict json := [("name", JStr "stray")].

Definition snapshot_1 : json :=
  JList [JDict event_123_A; JDict event_456; JDict event_no_id].
Definition snapshot_2 : json := JList [JDict event_456; JDict event_789].
Definition snapshot_3 : json := JList [JDict event_123_B; JDict event_456].
Definition not_a_list : json := JDict [("events", JList [])].

Definition title_page : page := Page " Trafikolycka, Sundsvall " [] [].

Definition body_page : page :=
  Page "" [] [("p", [Page "En bil har krockat. " [] []; Page " Ingen skadad." [] []])].

Definition time_page : page := Page "" [("datetime", "2024-03-01T10:05:00+01:00")] [].

Definition event_div_page : page :=
  Page "" []
    [("h1", [title_page]);
     (".text-body.editorial-html", [body_page]);
     ("time.date", [time_page]);
     (".published-container span", [Page "Text av" [] []; Page " Polisen " [] []])].

Definition good_page : page :=
  Page "" [] [(".event-page.editorial-content", [event_div_page])].

Definition bare_page : page := Page "404" [] [].

(** Commits [c1], [c3] and [c6] hold lists of records; [c2] is truncated,
    [c4] holds an object, [c5] cannot be fetched.  The document of 123 is
    well formed, that of 456 lacks the content container, 789 has none. *)
Definition history : tables :=
  mk_tables
    (Ok (lines ["c1|2024-03-01T10:01:00+01:00"; "c2|2024-03-01T10:06:00+01:00";
                "c3|2024-03-01T10:11:00+01:00"; "c4|2024-03-01T10:16:00+01:00";
                "c5|2024-03-01T10:21:00+01:00"; "c6|2024-03-01T10:26:00+01:00"]))
    [("c1", json_text snapshot_1); ("c2", "[{"); ("c3", json_text snapshot_2);
     ("c4", json_text not_a_list); ("c6", json_text snapshot_3)]
    (map (fun v => (json_text v, v)) [snapshot_1; snapshot_2; not_a_list; snapshot_3])
    ["html"; "html/123.html"; "html/456.html"]
    [("html/123.html", "<event 123>"); ("html/456.html", "<not found>")]
    [("<event 123>", good_page); ("<not found>", bare_page)].

(** The commits of [history] and what each contributes to the merge. *)
Definition history_commits : list (string * string) :=
  [("c1", "2024-03-01T10:01:00+01:00"); ("c2", "2024-03-01T10:06:00+01:00");
   ("c3", "2024-03-01T10:11:00+01:00"); ("c4", "2024-03-01T10:16:00+01:00");
   ("c5", "2024-03-01T10:21:00+01:00"); ("c6", "2024-03-01T10:26:00+01:00")].

Definition history_snapshots : list (list (pydict json)) :=
  [[event_123_A; event_456; event_no_id]; []; [event_456; event_789];
   []; []; [event_123_B; event_456]].

(** *** A snapshot with an entry that is no object *)

Definition snapshot_stray : json := JList [JDict event_789; JInt 1].

Definition stray_history : tables :=
  mk_tables
    (Ok (lines ["c1|2024-03-01T10:01:00+01:00"; "c2|2024-03-01T10:06:00+01:00";
                "c3|2024-03-01T10:11:00+01:00"]))
    [("c1", json_text snapshot_1); ("c2", json_text snapshot_stray);
     ("c3", json_text snapshot_3)]
    (map (fun v => (json_text v, v)) [snapshot_1; snapshot_stray; snapshot_3])
    [] [] [].

(** *** A record with a UTC offset, a record without a timestamp *)

Definition event_unparsable : pydict json :=
  [("id", JInt 8); ("datetime", JStr "yesterday"); ("name", JStr "G")].

Definition from_2024 : cli_args := mk_args (Some "2024-01-01") None false "html".

Definition event_aware : pydict json :=
  [("id", JInt 1); ("datetime", JStr "2024-06-15T12:00:00+02:00"); ("name", JStr "E")].

Definition event_undated : pydict json := [("id", JInt 7); ("name", JStr "F")].

Definition one_snapshot (events : list (pydict json)) : tables :=
  mk_tables
    (Ok "c1|2024-03-01T10:01:00+01:00")
    [("c1", json_text (JList (map JDict events)))]
    [(json_text (JList (map JDict events)), JList (map JDict events))]
    [] [] [].

(** *** A snapshot that is no UTF-8 text

    The world [E] with the content of commit [sha] cut in the middle of a
    character that takes two bytes: [subprocess.run] with [text=True] raises
    [UnicodeDecodeError] when it decodes the output of [git show]. *)
Definition cut_in_character (sha : string) (E : env) : env :=
  mk_env (py_repr E) (py_float E) (fromisoformat E) (git_log E)
    (fun commit_sha =>
       if commit_sha =? sha then Err UnicodeDecodeError else git_show E commit_sha)
    (json_loads E) (path_join E) (path_exists E) (read_text E)
    (elem E) (fromstring E) (cssselect E) (text_content E) (attr_get E).

(** *** A no-break space, U+00A0 *)

Definition no_break_space : string :=
  String (ascii_of_nat 194) (String (ascii_of_nat 160) EmptyString).

(** *** A stored record that carries the narrative keys *)

Definition event_marked : pydict json :=
  [("id", JInt 5); ("datetime", JStr "2024-05-05T05:05:05"); ("name", JStr "H");
   ("html_title", JStr "Rubrik"); ("html_available", JBool true)].

(** *** A record whose identity makes a file name of more than 255 bytes *)

Fixpoint repeat_string (n : nat) (s : string) : string :=
  match n with
  | O => EmptyString
  | S n' => (s ++ repeat_string n' s)%string
  end.

Definition long_id : string := repeat_string 30 "0123456789".

Definition event_long_id : pydict json :=
  [("id", JStr long_id); ("datetime", JStr "2024-02-02T02:02:02"); ("name", JStr "L")].

Definition no_filter : cli_args := mk_args None None false "html".
Definition with_html : cli_args := mk_args None None true "html".
Definition year_2024 : cli_args :=
  mk_args (Some "2024-01-01") (Some "2024-12-31") false "html".

(* ===================================================================== *)
(** ** Notions used in the statements *)

(** The merge loop on records that are objects, as a fold. *)
Definition merge_record (E : env) (m : pydict (pydict json)) (d : pydict json)
  : pydict (pydict json) :=
  if identity E d =? "" then m else pd_set (identity E d) d m.

(** Keys are identities, and no key is empty. *)
Definition keyed_by_identity (E : env) (m : pydict (pydict json)) : Prop :=
  forall k d, In (k, d) m -> k = identity E d /\ k <> "".

(** A coordinate string of the form [<float>,<float>] inside the bounding
    box: one comma, both sides numbers after stripping, both in bounds. *)
Definition gps_well_formed (E : env) (s : string) (lat lon : float) : Prop :=
  exists a b : string,
    s = (a ++ String comma b)%string /\
    contains comma a = false /\ contains comma b = false /\
    py_float E (strip a) = Some lat /\ py_float E (strip b) = Some lon /\
    lat_in_bounds lat = true /\ lon_in_bounds lon = true.

(** Latitude and longitude of a flat record: both numbers inside the box, or
    both [None]. *)
Definition coordinates_consistent (flat : pydict json) : Prop :=
  (exists lat lon : float,
      pd_get "latitude" flat = Some (JFloat lat) /\
      pd_get "longitude" flat = Some (JFloat lon) /\
      lat_in_bounds lat = true /\ lon_in_bounds lon = true)
  \/ (pd_get "latitude" flat = Some JNull /\ pd_get "longitude" flat = Some JNull).

(** A record whose narrative is unavailable: the flag is [False] and the
    five fields are [None]. *)
Definition unavailable (event : pydict json) : Prop :=
  pd_get marker_key event = Some (JBool false) /\
  Forall (fun k => pd_get k event = Some JNull) narrative_fields.

(** What the date filter does with one record: keep it, skip it without a
    word, skip it with a warning that quotes its timestamp, or raise. *)
Inductive verdict : Type :=
| Keep
| Drop_silently
| Drop_with_warning (s : string)
| Abort (e : exn).

(** The two comparisons of the filter ([dt_lt] and [dt_gt] return or raise,
    they never exit). *)
Definition verdict_of_bounds (start_date end_date : option datetime)
    (event_dt : datetime) : verdict :=
  match before_start start_date event_dt with
  | Returned true => Drop_silently
  | Returned false =>
      match after_end end_date event_dt with
      | Returned true => Drop_silently
      | Returned false => Keep
      | Raised e => Abort e
      | Exited _ => Abort TypeError
      end
  | Raised e => Abort e
  | Exited _ => Abort TypeError
  end.

Definition classify (E : env) (start_date end_date : option datetime)
    (event : pydict json) : verdict :=
  let v := pd_get_default "datetime" (JStr "") event in
  if negb (truthy v) then Drop_silently
  else match v with
       | JStr s =>
           match fromisoformat E s with
           | None => Drop_with_warning s
           | Some event_dt => verdict_of_bounds start_date end_date event_dt
           end
       | _ => Abort TypeError
       end.

Definition is_abort (v : verdict) : bool :=
  match v with Abort _ => true | _ => false end.

Definition is_keep (v : verdict) : bool :=
  match v with Keep => true | _ => false end.

(** The warning the date filter logs for one record, if any. *)
Definition filter_warning (E : env) (start_date end_date : option datetime)
    (item : string * pydict json) : list log_entry :=
  match classify E start_date end_date (snd item) with
  | Drop_with_warning s => [Log_bad_datetime (fst item) s]
  | _ => []
  end.

(** [lower <= dt <= upper] between values without offset. *)
Definition within (lower upper dt : datetime) : bool :=
  match lex_compare (base_fields dt) (base_fields lower) with
  | Lt => false
  | _ => match lex_compare (base_fields dt) (base_fields upper) with
         | Gt => false
         | _ => true
         end
  end.

Definition is_bad_datetime (e : log_entry) : bool :=
  match e with Log_bad_datetime _ _ => true | _ => false end.

(** What the date filter does to its result for one record, as a fold step. *)
Definition keep_item (E : env) (start_date end_date : option datetime)
    (filtered : pydict (pydict json)) (item : string * pydict json)
  : pydict (pydict json) :=
  if is_keep (classify E start_date end_date (snd item))
  then pd_set (fst item) (snd item) filtered else filtered.

(** A record of some snapshot of the repository. *)
Definition in_some_snapshot (E : env) (d : pydict json) : Prop :=
  exists sha events l,
    extract_events_from_commit E sha = (Returned events, l) /\ In (JDict d) events.

Definition is_dict (v : json) : bool :=
  match v with JDict _ => true | _ => false end.

(** A commit the merge loop copes with: the fetch fails, the content is no
    JSON, or it is JSON and, if a list, a list of objects. *)
Definition commit_handled (E : env) (sha : string) : Prop :=
  git_show E sha = Err CalledProcessError
  \/ exists content,
       git_show E sha = Ok content /\
       (json_loads E content = Err JSONDecodeError
        \/ exists v, json_loads E content = Ok v /\
                     forall l, v = JList l -> forallb is_dict l = true).

(* ===================================================================== *)
(** ** The export step *)

(** [c.lower()] on an ASCII letter; the other characters are left as they
    are, which cannot make one of the three extensions below out of a
    string that [str.lower] would not (none of them holds a letter that a
    character outside ASCII lowers to). *)
Definition lower_char (c : ascii) : ascii :=
  let n := nat_of_ascii c in
  if (65 <=? n)%nat && (n <=? 90)%nat then ascii_of_nat (n + 32) else c.

Fixpoint lower (s : string) : string :=
  match s with
  | EmptyString => EmptyString
  | String c s' => String (lower_char c) (lower s')
  end.



(** The text [export_to_jsonl] writes: [json.dumps(event)] and a newline
    for every event, [dumps] standing for [json.dumps]. *)
Definition jsonl_text (dumps : pydict json -> string) (events : list (pydict json))
  : string :=
  String.concat EmptyString
    (map (fun event => (dumps event ++ String newline EmptyString)%string) events).

(* ===================================================================== *)
(** ** More notions used in the statements *)

(** A line of [git log --format=%H|%aI]. *)
Definition commit_line (c : string * string) : string :=
  (fst c ++ String bar (snd c))%string.

(** Some character of [s] is whitespace. *)
Fixpoint has_space (s : string) : bool :=
  match s with
  | EmptyString => false
  | String _ s' => negb (space_prefix s =? 0)%nat || has_space s'
  end.

(** [html_path.exists()] returns for the document of an entry. *)
Definition probed (E : env) (html_dir : string) (item : string * pydict json) : Prop :=
  exists found, path_exists E (path_join E html_dir (fst item ++ ".html")) = Ok found.

(** A hash and a date as [git log] prints them: no whitespace in either,
    no bar in the hash. *)
Definition clean_commit (c : string * string) : Prop :=
  has_space (fst c) = false /\ has_space (snd c) = false
  /\ contains bar (fst c) = false.

(** The strings of a list in the order of their first occurrence. *)
Definition first_seen (l : list string) : list string :=
  fold_left (fun acc k => if existsb (String.eqb k) acc then acc else acc ++ [k]) l [].

(** The identities of a list of records, the empty ones left out. *)
Definition identities (E : env) (ds : list (pydict json)) : list string :=
  filter (fun k => negb (k =? "")) (map (identity E) ds).

Definition is_available (event : pydict json) : bool :=
  match pd_get marker_key event with
  | Some (JBool true) => true
  | _ => false
  end.

(** What the date filter keeps of a mapping, as a sublist. *)
Definition kept (E : env) (start_date end_date : option datetime)
    (events : pydict (pydict json)) : pydict (pydict json) :=
  filter (fun kv => is_keep (classify E start_date end_date (snd kv))) events.

(** The six columns [flatten_event_for_export] starts from. *)
Definition first_columns (E : env) (event : pydict json) : pydict json :=
  [("event_id", JStr (identity E event));
   ("datetime", pd_get_default "datetime" (JStr "") event);
   ("name", pd_get_default "name" (JStr "") event);
   ("summary", pd_get_default "summary" (JStr "") event);
   ("url", pd_get_default "url" (JStr "") event);
   ("type", pd_get_default "type" (JStr "") event)].

(** The nine columns of every flat record. *)
Definition base_columns : list string :=
  ["event_id"; "datetime"; "name"; "summary"; "url"; "type"; "location_name";
   "latitude"; "longitude"].

(* ===================================================================== *)
(** ** Dictionaries *)

Section Dictionaries.

Context {V : Type}.
Implicit Types (d : pydict V) (k : string) (v : V).

Lemma pd_get_set_eq k v d : pd_get k (pd_set k v d) = Some v.
Proof.
  induction d as [|[k' v'] d IH]; simpl.
  - now rewrite String.eqb_refl.
  - destruct (String.eqb k' k) eqn:Hk; simpl.
    + now rewrite String.eqb_refl.
    + now rewrite Hk.
Qed.

Lemma pd_get_set_neq k k' v d : k <> k' -> pd_get k' (pd_set k v d) = pd_get k' d.
Proof.
  intros Hne. induction d as [|[k0 v0] d IH]; simpl.
  - destruct (String.eqb_spec k k'); [contradiction | reflexivity].
  - destruct (String.eqb_spec k0 k) as [->|Hk0]; simpl.
    + destruct (String.eqb_spec k k'); [contradiction | reflexivity].
    + now rewrite IH.
Qed.

Lemma pd_keys_set k v d k' :
  In k' (pd_keys (pd_set k v d)) <-> k' = k \/ In k' (pd_keys d).
Proof.
  unfold pd_keys. induction d as [|[k0 v0] d IH]; simpl.
  - intuition.
  - destruct (String.eqb_spec k0 k) as [->|Hk0]; simpl.
    + intuition.
    + rewrite IH. intuition.
Qed.

Lemma pd_set_NoDup k v d : NoDup (pd_keys d) -> NoDup (pd_keys (pd_set k v d)).
Proof.
  unfold pd_keys. induction d as [|[k0 v0] d IH]; simpl; intros Hnd.
  - constructor; [intros [] | constructor].
  - inversion Hnd as [|? ? Hnotin Hnd']; subst.
    destruct (String.eqb_spec k0 k) as [->|Hk0]; simpl.
    + now constructor.
    + constructor; [|now apply IH].
      intros Hin. apply (pd_keys_set k v d k0) in Hin.
      destruct Hin as [->|Hin]; [now apply Hk0 | now apply Hnotin].
Qed.

Lemma pd_get_In k v d : pd_get k d = Some v -> In (k, v) d.
Proof.
  induction d as [|[k0 v0] d IH]; simpl; [discriminate|].
  destruct (String.eqb_spec k0 k) as [->|Hk0]; intros H.
  - injection H as ->. now left.
  - right. now apply IH.
Qed.

Lemma pd_get_None k d : pd_get k d = None <-> ~ In k (pd_keys d).
Proof.
  unfold pd_keys. induction d as [|[k0 v0] d IH]; simpl.
  - intuition.
  - destruct (String.eqb_spec k0 k) as [->|Hk0].
    + split; [discriminate | intros H; exfalso; apply H; now left].
    + rewrite IH. intuition.
Qed.

Lemma pd_get_NoDup k v d : NoDup (pd_keys d) -> In (k, v) d -> pd_get k d = Some v.
Proof.
  unfold pd_keys. induction d as [|[k0 v0] d IH]; simpl; intros Hnd Hin; [easy|].
  inversion Hnd as [|? ? Hnotin Hnd']; subst.
  destruct Hin as [Heq|Hin].
  - injection Heq as -> ->. now rewrite String.eqb_refl.
  - destruct (String.eqb_spec k0 k) as [->|Hk0]; [|now apply IH].
    exfalso. apply Hnotin. now apply (in_map fst) in Hin.
Qed.

Lemma count_key_absent k d : ~ In k (pd_keys d) -> count_key k d = 0%nat.
Proof.
  unfold count_key, pd_keys. induction d as [|[k0 v0] d IH]; simpl; intros H; [easy|].
  destruct (String.eqb_spec k0 k) as [->|Hk0]; [exfalso; apply H; now left|].
  apply IH. intros Hin. apply H. now right.
Qed.

Lemma count_key_NoDup k d :
  NoDup (pd_keys d) -> In k (pd_keys d) -> count_key k d = 1%nat.
Proof.
  unfold pd_keys. induction d as [|[k0 v0] d IH]; simpl; intros Hnd Hin; [easy|].
  inversion Hnd as [|? ? Hnotin Hnd']; subst.
  unfold count_key in *. simpl.
  destruct (String.eqb_spec k0 k) as [->|Hk0]; simpl.
  - f_equal. now apply count_key_absent.
  - destruct Hin as [Heq|Hin]; [contradiction | now apply IH].
Qed.

Lemma pd_mem_set k v d k' :
  pd_mem k' (pd_set k v d) = String.eqb k k' || pd_mem k' d.
Proof.
  unfold pd_mem. destruct (String.eqb_spec k k') as [->|Hne]; simpl.
  - now rewrite pd_get_set_eq.
  - now rewrite pd_get_set_neq.
Qed.

End Dictionaries.

(* ===================================================================== *)
(** ** Splitting at commas *)

Lemma split_on_cons sep s : exists p ps, split_on sep s = p :: ps.
Proof.
  induction s as [|c s IH]; simpl; [now eexists _, _|].
  destruct (Ascii.eqb c sep); [now eexists _, _|].
  destruct IH as (p & ps & ->). now eexists _, _.
Qed.

Lemma split_on_one sep s a :
  split_on sep s = [a] -> s = a /\ contains sep s = false.
Proof.
  revert a. induction s as [|c s IH]; simpl; intros a H.
  - now injection H as <-.
  - destruct (Ascii.eqb c sep) eqn:Hc.
    + destruct (split_on_cons sep s) as (p & ps & Hs). rewrite Hs in H. discriminate.
    + destruct (split_on sep s) as [|p ps] eqn:Hs.
      * destruct (split_on_cons sep s) as (p & ps & Hs'). congruence.
      * injection H as <- ->. destruct (IH p eq_refl) as [-> ->]. now split.
Qed.

Lemma split_on_none sep s : contains sep s = false -> split_on sep s = [s].
Proof.
  induction s as [|c s IH]; simpl; [easy|]. intros H.
  apply orb_false_iff in H as [-> H]. now rewrite (IH H).
Qed.

Lemma split_on_two sep s a b :
  split_on sep s = [a; b] ->
  s = (a ++ String sep b)%string /\ contains sep a = false /\ contains sep b = false.
Proof.
  revert a. induction s as [|c s IH]; simpl; intros a H; [discriminate|].
  destruct (Ascii.eqb_spec c sep) as [->|Hc].
  - injection H as <- H. apply split_on_one in H as [-> H]. now repeat split.
  - destruct (split_on sep s) as [|p ps] eqn:Hs; [discriminate|].
    injection H as <- ->. destruct (IH p eq_refl) as (-> & Ha & Hb).
    repeat split; simpl; [|assumption].
    rewrite Ha. destruct (Ascii.eqb_spec c sep); [contradiction | reflexivity].
Qed.

Lemma split_on_join sep a b :
  contains sep a = false -> contains sep b = false ->
  split_on sep (a ++ String sep b) = [a; b].
Proof.
  intros Ha Hb. induction a as [|c a IH]; simpl in *.
  - rewrite Ascii.eqb_refl. now rewrite split_on_none.
  - apply orb_false_iff in Ha as [-> Ha]. now rewrite (IH Ha).
Qed.

Lemma contains_join sep a b : contains sep (a ++ String sep b) = true.
Proof.
  induction a as [|c a IH]; simpl.
  - now rewrite Ascii.eqb_refl.
  - rewrite IH. apply orb_true_r.
Qed.

(* ===================================================================== *)
(** ** Coordinates *)

Section Coordinates.

Variable E : env.

Lemma parse_gps_text_complete s lat lon :
  gps_well_formed E s lat lon -> parse_gps_text E s = Returned (lat, lon).
Proof.
  intros (a & b & -> & Ha & Hb & Hlat & Hlon & Hblat & Hblon).
  unfold parse_gps_text.
  rewrite contains_join, (split_on_join comma a b Ha Hb), Hlat, Hlon, Hblat, Hblon.
  destruct a; reflexivity.
Qed.

Lemma parse_gps_text_sound s lat lon :
  parse_gps_text E s = Returned (lat, lon) -> gps_well_formed E s lat lon.
Proof.
  unfold parse_gps_text.
  destruct ((s =? "") || negb (contains comma s)); [discriminate|].
  destruct (split_on comma s) as [|p0 [|p1 [|p2 ps]]] eqn:Hs; try discriminate.
  destruct (py_float E (strip p0)) as [lat0|] eqn:Hlat; [|discriminate].
  destruct (py_float E (strip p1)) as [lon0|] eqn:Hlon; [|discriminate].
  destruct (lat_in_bounds lat0) eqn:Hblat; [|discriminate].
  destruct (lon_in_bounds lon0) eqn:Hblon; [|discriminate].
  simpl. intros H. injection H as <- <-.
  apply split_on_two in Hs as (-> & Ha & Hb).
  exists p0, p1. now repeat split.
Qed.

Lemma parse_gps_text_raises s :
  (exists lat lon, parse_gps_text E s = Returned (lat, lon))
  \/ parse_gps_text E s = Raised ValueError.
Proof.
  unfold parse_gps_text.
  destruct ((s =? "") || negb (contains comma s)); [now right|].
  destruct (split_on comma s) as [|p0 [|p1 [|p2 ps]]]; try now right.
  destruct (py_float E (strip p0)); [|now right].
  destruct (py_float E (strip p1)); [|now right].
  destruct (lat_in_bounds f); [|now right].
  destruct (lon_in_bounds f0); [|now right].
  left. now eexists _, _.
Qed.

Lemma parse_gps_string_bounds v lat lon :
  parse_gps_string E v = Returned (lat, lon) ->
  lat_in_bounds lat = true /\ lon_in_bounds lon = true.
Proof.
  destruct v; simpl; intros H;
    repeat match type of H with
           | (if ?c then _ else _) = _ => destruct c; try discriminate
           end; try discriminate.
  apply parse_gps_text_sound in H as (a & b & _ & _ & _ & _ & _ & ? & ?). now split.
Qed.

Lemma latitude_of_flat event base la lo :
  pd_get "latitude" (add_html_fields event (set_coordinates la lo base)) = Some la.
Proof.
  unfold add_html_fields, set_coordinates.
  destruct (pd_mem marker_key event);
    rewrite ?pd_get_set_neq by discriminate; apply pd_get_set_eq.
Qed.

Lemma longitude_of_flat event base la lo :
  pd_get "longitude" (add_html_fields event (set_coordinates la lo base)) = Some lo.
Proof.
  unfold add_html_fields, set_coordinates.
  destruct (pd_mem marker_key event);
    rewrite ?pd_get_set_neq by discriminate; apply pd_get_set_eq.
Qed.

Lemma flat_records_consistent event flat log :
  flatten_event_for_export E event = (Returned flat, log) ->
  coordinates_consistent flat.
Proof.
  unfold flatten_event_for_export.
  destruct (pd_get_default "location" (JDict []) event) as [| | | | | |location];
    try discriminate.
  set (base := pd_set "location_name" _ _).
  destruct (truthy (pd_get_default "gps" (JStr "") location)).
  - destruct (parse_gps_string E _) as [[lat lon]|e|c] eqn:Hp.
    + simpl. intros H. injection H as <- _.
      apply parse_gps_string_bounds in Hp as [Hlat Hlon].
      left. exists lat, lon.
      now rewrite latitude_of_flat, longitude_of_flat.
    + destruct (catches ValueError e); simpl; [|discriminate].
      intros H. injection H as <- _. right.
      now rewrite latitude_of_flat, longitude_of_flat.
    + discriminate.
  - simpl. intros H. injection H as <- _. right.
    now rewrite latitude_of_flat, longitude_of_flat.
Qed.

End Coordinates.

(** C2.  For a record whose [location] holds a coordinate string [s],
    [flatten_event_for_export] returns, and the flat record has the parsed
    latitude and longitude when [s] is [<float>,<float>] (one comma, both
    sides numbers after stripping) inside the box 55..70 by 10..25, and
    [None] for both otherwise.  Every flat record the function returns, for
    whatever record, has both coordinates inside the box or both [None]. *)
Theorem flatten_coordinates (E : env) :
  (forall (event location : pydict json) (s : string),
      pd_get_default "location" (JDict []) event = JDict location ->
      pd_get_default "gps" (JStr "") location = JStr s ->
      exists flat log,
        flatten_event_for_export E event = (Returned flat, log) /\
        (forall lat lon, gps_well_formed E s lat lon ->
           pd_get "latitude" flat = Some (JFloat lat) /\
           pd_get "longitude" flat = Some (JFloat lon)) /\
        ((forall lat lon, ~ gps_well_formed E s lat lon) ->
           pd_get "latitude" flat = Some JNull /\
           pd_get "longitude" flat = Some JNull))
  /\ (forall (event flat : pydict json) (log : list log_entry),
        flatten_event_for_export E event = (Returned flat, log) ->
        coordinates_consistent flat).
Proof.
  split; [|apply flat_records_consistent].
  intros event location s Hloc Hgps.
  unfold flatten_event_for_export. rewrite Hloc, Hgps.
  set (base := pd_set "location_name" _ _).
  destruct (truthy (JStr s)) eqn:Hs.
  - simpl parse_gps_string.
    destruct (parse_gps_text_raises E s) as [(lat & lon & Hp)|Hp]; rewrite Hp; simpl.
    + eexists _, _. split; [reflexivity|].
      rewrite latitude_of_flat, longitude_of_flat. split.
      * intros lat' lon' Hwf. apply parse_gps_text_complete in Hwf.
        rewrite Hwf in Hp. injection Hp as -> ->. now split.
      * intros Hnone. exfalso. apply (Hnone lat lon).
        now apply parse_gps_text_sound.
    + eexists _, _. split; [reflexivity|].
      rewrite latitude_of_flat, longitude_of_flat. split; [|now split].
      intros lat lon Hwf. apply parse_gps_text_complete in Hwf. congruence.
  - simpl. eexists _, _. split; [reflexivity|].
    rewrite latitude_of_flat, longitude_of_flat. split; [|now split].
    intros lat lon (a & b & -> & _). destruct a; discriminate.
Qed.

Lemma flatten_coordinates_witness :
  exists flat log,
    flatten_event_for_export (table_env history) event_123_B = (Returned flat, log) /\
    pd_get "latitude" flat = Some (JFloat 62.63227) /\
    pd_get "longitude" flat = Some (JFloat 17.940871).
Proof.
  destruct (proj1 (flatten_coordinates (table_env history)) event_123_B
              [("name", JStr "Sundsvall"); ("gps", JStr "62.63227,17.940871")]
              "62.63227,17.940871" eq_refl eq_refl)
    as (flat & log & Hflat & Hin & _).
  exists flat, log. split; [exact Hflat|]. apply Hin.
  exists "62.63227", "17.940871". repeat split; reflexivity.
Defined.

(** The second coordinate string of the specification's scenario: the
    longitude is outside the box, both coordinates are [None]. *)
Example flatten_out_of_bounds :
  exists flat,
    flatten_event_for_export (table_env history) event_456
      = (Returned flat, [Log_invalid_gps "456" ValueError]) /\
    pd_get "latitude" flat = Some JNull /\ pd_get "longitude" flat = Some JNull.
Proof. eexists. repeat split; reflexivity. Qed.

(* ===================================================================== *)
(** ** Loops *)

Lemma bind_ret {A B : Type} (a : A) (f : A -> M B) : bind (ret a) f = f a.
Proof. unfold bind, ret. now destruct (f a). Qed.

Lemma bind_returned {A B : Type} (m : M A) (f : A -> M B) (b : B) (log : list log_entry) :
  bind m f = (Returned b, log) ->
  exists a l1 l2, m = (Returned a, l1) /\ f a = (Returned b, l2) /\ log = l1 ++ l2.
Proof.
  destruct m as [[a| |] l1]; simpl; try discriminate.
  destruct (f a) as [o l2] eqn:Hf. intros H. injection H as -> <-.
  now exists a, l1, l2.
Qed.

(** A property of the loop state that every returning iteration keeps holds
    when the loop returns. *)
Lemma for_each_invariant {A S : Type} (P : S -> Prop) (body : S -> A -> M S)
    (xs : list A) :
  (forall s x s' l, In x xs -> P s -> body s x = (Returned s', l) -> P s') ->
  forall st st' log,
    P st -> for_each body xs st = (Returned st', log) -> P st'.
Proof.
  induction xs as [|x xs IH]; simpl; intros Hstep st st' log Hst Hrun.
  - now injection Hrun as <- _.
  - apply bind_returned in Hrun as (s1 & l1 & l2 & Hx & Hrest & _).
    apply (IH (fun s y s' l Hin => Hstep s y s' l (or_intror Hin)) s1 st' l2);
      [|exact Hrest].
    apply (Hstep st x s1 l1); auto.
Qed.

(* ===================================================================== *)
(** ** The merge stage *)

Section Merge.

Variable E : env.



Lemma merge_event_dict (m : pydict (pydict json)) (d : pydict json) :
  merge_event E m (JDict d) = ret (merge_record E m d).
Proof. unfold merge_event, merge_record. now destruct (identity E d =? ""). Qed.

Lemma for_each_merge_dicts (ds : list (pydict json)) (m : pydict (pydict json)) :
  for_each (merge_event E) (map JDict ds) m = ret (fold_left (merge_record E) ds m).
Proof.
  revert m. induction ds as [|d ds IH]; intros m; cbn [for_each map fold_left];
    [reflexivity|].
  now rewrite merge_event_dict, bind_ret.
Qed.

Lemma pd_set_In {V : Type} (k : string) (v : V) (d : pydict V) (k' : string) (v' : V) :
  In (k', v') (pd_set k v d) -> (k', v') = (k, v) \/ In (k', v') d.
Proof.
  induction d as [|[k0 v0] d IH]; simpl.
  - intros [H|[]]. now left.
  - destruct (String.eqb k0 k); simpl; intuition.
Qed.

Lemma merge_record_keyed m d : keyed_by_identity E m -> keyed_by_identity E (merge_record E m d).
Proof.
  unfold merge_record. intros Hm.
  destruct (String.eqb_spec (identity E d) "") as [He|Hne]; [exact Hm|].
  intros k d' Hin. apply pd_set_In in Hin as [Heq|Hin]; [|now apply Hm].
  injection Heq as -> ->. now split.
Qed.

Lemma merge_record_NoDup m d :
  NoDup (pd_keys m) -> NoDup (pd_keys (merge_record E m d)).
Proof.
  unfold merge_record. destruct (identity E d =? ""); [easy | apply pd_set_NoDup].
Qed.

Lemma merge_records_NoDup ds m :
  NoDup (pd_keys m) -> NoDup (pd_keys (fold_left (merge_record E) ds m)).
Proof.
  revert m. induction ds as [|d ds IH]; intros m Hm; simpl; [exact Hm|].
  apply IH. now apply merge_record_NoDup.
Qed.

Lemma merge_records_others (I : string) ds m :
  Forall (fun e => identity E e <> I) ds ->
  pd_get I (fold_left (merge_record E) ds m) = pd_get I m.
Proof.
  revert m. induction ds as [|d ds IH]; intros m Hds; simpl; [reflexivity|].
  inversion Hds as [|? ? Hd Hrest]; subst. rewrite (IH _ Hrest).
  unfold merge_record. destruct (identity E d =? ""); [reflexivity|].
  now apply pd_get_set_neq.
Qed.

(** The last record with identity [I] is the one the fold keeps. *)
Lemma merge_records_last (I : string) l1 r l2 m :
  identity E r = I -> I <> "" ->
  Forall (fun e => identity E e <> I) l2 ->
  pd_get I (fold_left (merge_record E) (l1 ++ r :: l2) m) = Some r.
Proof.
  intros HI Hne Hl2. rewrite fold_left_app. simpl.
  rewrite (merge_records_others I l2 _ Hl2).
  unfold merge_record. rewrite HI.
  destruct (String.eqb_spec I ""); [contradiction | apply pd_get_set_eq].
Qed.

Lemma merge_commits_fold commits (snapshots : list (list (pydict json))) :
  Forall2 (fun c snap => fst (extract_events_from_commit E (fst c))
                         = Returned (map JDict snap)) commits snapshots ->
  forall st, exists log,
    for_each (merge_commit E) commits st
    = (Returned (fold_left (merge_record E) (List.concat snapshots) (fst st),
                 (snd st + List.length (List.concat snapshots))%nat), log).
Proof.
  induction 1 as [|c snap commits snapshots Hc _ IH]; intros st; simpl.
  - exists []. unfold ret. now rewrite Nat.add_0_r, <- surjective_pairing.
  - unfold merge_commit at 1.
    destruct (extract_events_from_commit E (fst c)) as [o l0]. simpl in Hc. subst o.
    simpl. rewrite for_each_merge_dicts. simpl.
    destruct (IH (fold_left (merge_record E) snap (fst st),
                  (snd st + List.length (map JDict snap))%nat)) as [log Hlog].
    rewrite Hlog. eexists. f_equal. f_equal. simpl.
    now rewrite fold_left_app, length_app, length_map, Nat.add_assoc.
Qed.

Lemma merge_commit_keyed (st st' : pydict (pydict json) * nat) c l :
  keyed_by_identity E (fst st) /\ NoDup (pd_keys (fst st)) ->
  merge_commit E st c = (Returned st', l) ->
  keyed_by_identity E (fst st') /\ NoDup (pd_keys (fst st')).
Proof.
  intros Hst Hrun. unfold merge_commit in Hrun.
  apply bind_returned in Hrun as (events & l1 & l2 & _ & Hrun & _).
  apply bind_returned in Hrun as (m' & l3 & l4 & Hloop & Hret & _).
  injection Hret as <- _. simpl.
  apply (for_each_invariant
           (fun m => keyed_by_identity E m /\ NoDup (pd_keys m))
           (merge_event E) events) with (st := fst st) (log := l3); auto.
  intros m x m1 lx _ [Hk Hnd] Hx. destruct x; try discriminate.
  rewrite merge_event_dict in Hx. injection Hx as <- _.
  split; [now apply merge_record_keyed | now apply merge_record_NoDup].
Qed.

Lemma merge_all_keyed merged log :
  merge_all E = (Returned merged, log) ->
  keyed_by_identity E merged /\ NoDup (pd_keys merged).
Proof.
  unfold merge_all. intros Hrun.
  apply bind_returned in Hrun as (commits & l1 & l2 & _ & Hrun & _).
  apply bind_returned in Hrun as ([] & l3 & l4 & _ & Hrun & _).
  apply bind_returned in Hrun as (st & l5 & l6 & Hloop & Hrun & _).
  apply bind_returned in Hrun as ([] & l7 & l8 & _ & Hrun & _).
  apply bind_returned in Hrun as ([] & l9 & l10 & _ & Hrun & _).
  injection Hrun as <- _.
  apply (for_each_invariant
           (fun st => keyed_by_identity E (fst st) /\ NoDup (pd_keys (fst st)))
           (merge_commit E) commits) with (st := ([], 0%nat)) (log := l5); auto.
  - intros s c s' l _. apply merge_commit_keyed.
  - split; [intros k d [] | constructor].
Qed.

Lemma extract_all_events_unfiltered :
  extract_all_events E None None = merge_all E.
Proof.
  unfold extract_all_events. destruct (merge_all E) as [[m| |] l]; simpl; try reflexivity.
  now rewrite app_nil_r.
Qed.

End Merge.

(** C1.  When the history can be listed and every snapshot is a list of
    objects, [extract_all_events] without a date filter returns a mapping in
    which every identity [I] (non-empty) that occurs in some snapshot has
    exactly one record, and that record is the one the last snapshot holding
    [I] gives for it: [snap] is that snapshot (none after it, [post], holds
    [I]) and [r] the last record of [snap] with identity [I]. *)
Theorem merge_last_write_wins (E : env) (commits : list (string * string))
    (snapshots : list (list (pydict json))) (log0 : list log_entry) :
  get_all_commits E = (Returned commits, log0) ->
  Forall2 (fun c snap => fst (extract_events_from_commit E (fst c))
                         = Returned (map JDict snap)) commits snapshots ->
  exists merged log,
    extract_all_events E None None = (Returned merged, log) /\
    forall (I : string) (pre : list (list (pydict json))) (snap : list (pydict json))
           (post : list (list (pydict json))) (a : list (pydict json))
           (r : pydict json) (b : list (pydict json)),
      snapshots = pre ++ snap :: post -> snap = a ++ r :: b ->
      identity E r = I -> I <> "" ->
      Forall (Forall (fun e => identity E e <> I)) post ->
      Forall (fun e => identity E e <> I) b ->
      pd_get I merged = Some r /\ count_key I merged = 1%nat.
Proof.
  intros Hcommits Hsnaps.
  rewrite extract_all_events_unfiltered. unfold merge_all. rewrite Hcommits.
  destruct (merge_commits_fold E commits snapshots Hsnaps ([], 0%nat)) as [l Hl].
  cbn [bind logger]. rewrite Hl. cbn [bind logger fst snd ret].
  eexists _, _. split; [reflexivity|].
  intros I pre snap post a r b -> -> HI Hne Hpost Hb.
  assert (Hget : pd_get I (fold_left (merge_record E)
                             (List.concat (pre ++ (a ++ r :: b) :: post)) [])
                 = Some r).
  { rewrite concat_app. cbn [List.concat]. rewrite <- app_assoc, app_assoc.
    cbn [app]. rewrite <- app_assoc. cbn [app]. rewrite app_assoc.
    apply merge_records_last; auto.
    apply Forall_app. split; [exact Hb | now apply Forall_concat]. }
  split; [exact Hget|].
  apply count_key_NoDup.
  - apply merge_records_NoDup. constructor.
  - apply pd_get_In in Hget. now apply (in_map fst) in Hget.
Qed.

Lemma merge_last_write_wins_witness :
  exists merged log,
    extract_all_events (table_env history) None None = (Returned merged, log) /\
    pd_get "123" merged = Some event_123_B /\ count_key "123" merged = 1%nat.
Proof.
  destruct (merge_last_write_wins (table_env history)
              [("c1", "2024-03-01T10:01:00+01:00"); ("c2", "2024-03-01T10:06:00+01:00");
               ("c3", "2024-03-01T10:11:00+01:00"); ("c4", "2024-03-01T10:16:00+01:00");
               ("c5", "2024-03-01T10:21:00+01:00"); ("c6", "2024-03-01T10:26:00+01:00")]
              [[event_123_A; event_456; event_no_id]; []; [event_456; event_789];
               []; []; [event_123_B; event_456]]
              [] eq_refl)
    as (merged & log & Hrun & Hlast).
  - repeat constructor.
  - exists merged, log. split; [exact Hrun|].
    apply (Hlast "123"
             [[event_123_A; event_456; event_no_id]; []; [event_456; event_789]; []; []]
             [event_123_B; event_456] [] [] event_123_B [event_456]);
      try reflexivity.
    + discriminate.
    + constructor.
    + repeat constructor. discriminate.
Defined.



(** X24.  What [extract_events_from_commit] does cope with: when the
    content of a snapshot is fetched and is no JSON ([json.loads] raises
    [JSONDecodeError]: empty, truncated, invalid), or is JSON but no list,
    it returns the empty list.  The first case logs one warning, the second
    logs nothing. *)
Theorem snapshot_parser_tolerant (E : env) (commit_sha content : string) :
  git_show E commit_sha = Ok content ->
  (json_loads E content = Err JSONDecodeError ->
     extract_events_from_commit E commit_sha
     = (Returned [], [Log_invalid_json (prefix_of 8 commit_sha)]))
  /\ (forall v, json_loads E content = Ok v -> (forall l, v <> JList l) ->
        extract_events_from_commit E commit_sha = (Returned [], [])).
Proof.
  intros Hshow. unfold extract_events_from_commit. rewrite Hshow. split.
  - now intros ->.
  - intros v -> Hv. destruct v; try reflexivity. now destruct (Hv l).
Qed.

Lemma snapshot_parser_tolerant_witness :
  extract_events_from_commit (table_env history) "c2"
    = (Returned [], [Log_invalid_json "c2"])
  /\ extract_events_from_commit (table_env history) "c4" = (Returned [], []).
Proof.
  split.
  - apply (proj1 (snapshot_parser_tolerant (table_env history) "c2" "[{" eq_refl)).
    reflexivity.
  - apply (proj2 (snapshot_parser_tolerant (table_env history) "c4"
                    (json_text not_a_list) eq_refl) not_a_list).
    + reflexivity.
    + discriminate.
Defined.

(** C4.  A snapshot whose content does not parse is not always answered
    with the empty list.  Here the content of [c2] is cut in the middle of
    a character, so it is no UTF-8 text: decoding the output of [git show]
    raises [UnicodeDecodeError], a [ValueError] that is neither of the two
    classes [extract_events_from_commit] catches.  The function raises, and
    so does the run, before the snapshots after [c2] are read. *)
Theorem cut_snapshot_raises :
  extract_events_from_commit (cut_in_character "c2" (table_env history)) "c2"
  = (Raised UnicodeDecodeError, [])
  /\ main (cut_in_character "c2" (table_env history)) no_filter
     = (Raised UnicodeDecodeError, [Log_stage "git archaeology"; Log_found_commits 6]).
Proof. split; reflexivity. Qed.

(* ===================================================================== *)
(** ** Enrichment *)

Section Enrichment.

Variable E : env.

Lemma set_unavailable_unavailable (event : pydict json) :
  unavailable (set_unavailable event).
Proof.
  unfold unavailable, set_unavailable, marker_key, narrative_fields. split.
  - rewrite !pd_get_set_neq by discriminate. apply pd_get_set_eq.
  - repeat constructor;
      rewrite ?pd_get_set_neq by discriminate; apply pd_get_set_eq.
Qed.

(** What [extract_html_data] returns has the six keys, the flag [True]. *)
Lemma extract_html_data_shape (html_path : string) (data : pydict json) :
  extract_html_data E html_path = Ok data ->
  exists t p b d a,
    data = [("html_title", t); ("html_preamble", p); ("html_body", b);
            ("html_published_datetime", d); ("html_author", a);
            ("html_available", JBool true)].
Proof.
  unfold extract_html_data.
  destruct (read_text E html_path); [|discriminate].
  destruct (fromstring E a); [|discriminate].
  destruct (cssselect E a0 ".event-page.editorial-content"); [discriminate|].
  intros H. injection H as <-. now eexists _, _, _, _, _.
Qed.

Lemma update_available (event data : pydict json) (html_path : string) :
  extract_html_data E html_path = Ok data ->
  pd_get marker_key (pd_update event data) = Some (JBool true).
Proof.
  intros H. apply extract_html_data_shape in H as (t & p & b & d & a & ->).
  unfold pd_update, marker_key. cbn [fold_left fst snd]. apply pd_get_set_eq.
Qed.

(** The three ways an iteration of the loop returns. *)
Lemma enrich_event_returned (html_dir : string) (c : counters)
    (event_id : string) (event : pydict json)
    (r : pydict json * counters) (l : list log_entry) :
  enrich_event E html_dir c (event_id, event) = (Returned r, l) ->
  let html_path := path_join E html_dir (event_id ++ ".html") in
  (path_exists E html_path = Ok false /\
   r = (set_unavailable event,
        mk_counters (S (missing_count c)) (processed_count c) (error_count c)) /\
   l = [Log_html_missing event_id])
  \/ (exists e,
        path_exists E html_path = Ok true /\
        extract_html_data E html_path = Err e /\
        r = (set_unavailable event,
             mk_counters (missing_count c) (processed_count c) (S (error_count c))) /\
        l = [Log_html_failed event_id e])
  \/ (exists data,
        path_exists E html_path = Ok true /\
        extract_html_data E html_path = Ok data /\
        r = (pd_update event data,
             mk_counters (missing_count c) (S (processed_count c)) (error_count c)) /\
        l = []).
Proof.
  cbn zeta. unfold enrich_event.
  destruct (path_exists E (path_join E html_dir (event_id ++ ".html")))
    as [[|]|e0]; [| |discriminate].
  - destruct (extract_html_data E (path_join E html_dir (event_id ++ ".html")))
      as [data|e]; cbn [bind logger ret app]; intros H; injection H as <- <-.
    + right. right. now exists data.
    + right. left. now exists e.
  - cbn [bind logger ret app]. intros H. injection H as <- <-. now left.
Qed.

(** The record an iteration leaves, in each of its three branches. *)
Lemma enrich_event_record (html_dir : string) (c : counters)
    (event_id : string) (event : pydict json)
    (r : pydict json * counters) (l : list log_entry) :
  enrich_event E html_dir c (event_id, event) = (Returned r, l) ->
  let html_path := path_join E html_dir (event_id ++ ".html") in
  (path_exists E html_path = Ok false -> fst r = set_unavailable event) /\
  (forall e, path_exists E html_path = Ok true ->
             extract_html_data E html_path = Err e ->
             fst r = set_unavailable event) /\
  (forall data, path_exists E html_path = Ok true ->
                extract_html_data E html_path = Ok data ->
                fst r = pd_update event data).
Proof.
  intros H. cbn zeta.
  destruct (enrich_event_returned _ _ _ _ _ _ H)
    as [(Hp & -> & _)|[(e & Hp & Hx & -> & _)|(data & Hp & Hx & -> & _)]];
    rewrite Hp; repeat split; intros; cbn [fst]; congruence.
Qed.

Lemma enrich_event_flag (html_dir : string) (c : counters) (item : string * pydict json)
    (r : pydict json * counters) (l : list log_entry) :
  enrich_event E html_dir c item = (Returned r, l) ->
  pd_get marker_key (fst r) = Some (JBool true) \/ unavailable (fst r).
Proof.
  destruct item as [event_id event]. intros H.
  destruct (enrich_event_returned _ _ _ _ _ _ H)
    as [(Hp & -> & _)|[(e & Hp & Hx & -> & _)|(data & Hp & Hx & -> & _)]]; cbn [fst].
  - right. apply set_unavailable_unavailable.
  - right. apply set_unavailable_unavailable.
  - left. now apply (update_available _ _ _ Hx).
Qed.

(** An iteration returns exactly when [exists()] does. *)
Lemma enrich_event_returns (html_dir : string) (c : counters)
    (item : string * pydict json) :
  probed E html_dir item <->
  exists r l, enrich_event E html_dir c item = (Returned r, l).
Proof.
  destruct item as [event_id event]. unfold probed, enrich_event. cbn [fst].
  destruct (path_exists E (path_join E html_dir (event_id ++ ".html")))
    as [[|]|e0].
  - split; [intros _|intros _; now eexists].
    destruct (extract_html_data E _); now eexists _, _.
  - split; [intros _; now eexists _, _|intros _; now eexists].
  - split; [intros [found H]; discriminate H|intros (r & l & H); discriminate H].
Qed.

(** What an iteration raises is what [exists()] raised; it never exits. *)
Lemma enrich_event_raised (html_dir : string) (c : counters)
    (item : string * pydict json) (e : exn) :
  path_exists E (path_join E html_dir (fst item ++ ".html")) = Err e ->
  enrich_event E html_dir c item = (Raised e, []).
Proof.
  destruct item as [event_id event]. unfold enrich_event. cbn [fst].
  now intros ->.
Qed.

Lemma enrich_loop_cons (html_dir : string) (item : string * pydict json)
    (rest : pydict (pydict json)) (c : counters)
    (r : pydict (pydict json) * counters) (l : list log_entry) :
  enrich_loop E html_dir (item :: rest) c = (Returned r, l) ->
  exists event' c' l1 rest' l2,
    enrich_event E html_dir c item = (Returned (event', c'), l1) /\
    enrich_loop E html_dir rest c' = (Returned (rest', snd r), l2) /\
    fst r = (fst item, event') :: rest' /\ l = (l1 ++ l2)%list.
Proof.
  cbn [enrich_loop]. intros H.
  apply bind_returned in H as ([event' c'] & l1 & l2 & Hev & H & ->).
  apply bind_returned in H as ([rest' c''] & l3 & l4 & Hrest & H & ->).
  injection H as <- <-. cbn [fst snd] in *.
  exists event', c', l1, rest', l3. rewrite app_nil_r. now repeat split.
Qed.

(** The loop relates every entry to the entry that stands in its place
    afterwards. *)
Lemma enrich_loop_Forall2 (html_dir : string)
    (R : string * pydict json -> string * pydict json -> Prop) :
  (forall c item r l, enrich_event E html_dir c item = (Returned r, l) ->
                      R item (fst item, fst r)) ->
  forall items c r l,
    enrich_loop E html_dir items c = (Returned r, l) -> Forall2 R items (fst r).
Proof.
  intros HR. induction items as [|item items IH]; intros c r l Hrun.
  - injection Hrun as <- _. constructor.
  - apply enrich_loop_cons in Hrun
      as (event' & c' & l1 & rest' & l2 & Hev & Hrest & -> & _).
    constructor.
    + exact (HR _ _ _ _ Hev).
    + exact (IH _ _ _ Hrest).
Qed.

(** A returning [enrich_with_html]: its loop returned, and the summary
    closes the log. *)
Lemma enrich_with_html_returned (events events' : pydict (pydict json))
    (html_dir : string) (log : list log_entry) :
  enrich_with_html E events html_dir = (Returned events', log) ->
  exists c l,
    enrich_loop E html_dir events (mk_counters 0 0 0) = (Returned (events', c), l) /\
    log = (l ++ [Log_html_summary (processed_count c) (missing_count c)
                   (error_count c)])%list.
Proof.
  unfold enrich_with_html. intros H.
  apply bind_returned in H as ([items c] & l1 & l2 & Hloop & H & ->).
  apply bind_returned in H as ([] & l3 & l4 & Hlog & H & ->).
  injection Hlog as <-. injection H as <- <-. cbn [fst snd].
  exists c, l1. now split.
Qed.

Lemma enrich_with_html_Forall2 (html_dir : string)
    (R : string * pydict json -> string * pydict json -> Prop) :
  (forall c item r l, enrich_event E html_dir c item = (Returned r, l) ->
                      R item (fst item, fst r)) ->
  forall events events' log,
    enrich_with_html E events html_dir = (Returned events', log) ->
    Forall2 R events events'.
Proof.
  intros HR events events' log Hrun.
  apply enrich_with_html_returned in Hrun as (c & l & Hloop & _).
  exact (enrich_loop_Forall2 html_dir R HR _ _ _ _ Hloop).
Qed.

Lemma enrich_loop_returns (html_dir : string) (items : pydict (pydict json)) :
  Forall (probed E html_dir) items ->
  forall c, exists r l, enrich_loop E html_dir items c = (Returned r, l).
Proof.
  induction 1 as [|item items Hitem _ IH]; intros c; [now eexists _, _|].
  cbn [enrich_loop].
  apply (enrich_event_returns html_dir c) in Hitem as (r & l & ->).
  destruct (IH (snd r)) as (rs & l' & Hrest).
  cbn [bind]. rewrite Hrest. cbn [bind ret]. now eexists _, _.
Qed.

(** [enrich_with_html] returns when [exists()] returns for the document of
    every record. *)
Lemma enrich_with_html_returns (events : pydict (pydict json)) (html_dir : string) :
  Forall (probed E html_dir) events ->
  exists events' log, enrich_with_html E events html_dir = (Returned events', log).
Proof.
  intros Hall. unfold enrich_with_html.
  destruct (enrich_loop_returns html_dir events Hall (mk_counters 0 0 0))
    as (r & l & ->).
  cbn [bind logger ret]. now eexists _, _.
Qed.

Lemma Forall2_keys {A B : Type} (l : list (string * A)) (l' : list (string * B)) :
  Forall2 (fun x y => fst y = fst x) l l' -> map fst l' = map fst l.
Proof. induction 1; simpl; congruence. Qed.

Lemma Forall2_transfer {A B : Type} (R : A -> B -> Prop) (P : A -> Prop)
    (Q : B -> Prop) (l : list A) (l' : list B) :
  Forall P l -> Forall2 R l l' -> (forall a b, P a -> R a b -> Q b) -> Forall Q l'.
Proof.
  intros HP HR Hstep. induction HR; inversion HP; subst; constructor; eauto.
Qed.

Lemma Forall2_right {A B : Type} (P : B -> Prop) (l : list A) (l' : list B) :
  Forall2 (fun _ y => P y) l l' -> Forall P l'.
Proof. induction 1; constructor; auto. Qed.

End Enrichment.

(** C3.  [enrich_with_html] returns when [html_path.exists()] returns for
    the document of every record.  In the mapping it returns, the record
    that stands for each input record has [html_available] false and the
    five narrative fields [None] when its document does not exist or
    [extract_html_data] raises, and [html_available] true when
    [extract_html_data] returns.  No record of the result has
    [html_available] false and a narrative field that is not [None]. *)
Theorem enrich_availability (E : env) (events : pydict (pydict json))
    (html_dir : string) :
  (Forall (probed E html_dir) events ->
   exists events' log, enrich_with_html E events html_dir = (Returned events', log))
  /\ (forall events' log,
        enrich_with_html E events html_dir = (Returned events', log) ->
        Forall2 (fun item item' =>
                   fst item' = fst item /\
                   let html_path := path_join E html_dir (fst item ++ ".html") in
                   (path_exists E html_path = Ok false -> unavailable (snd item')) /\
                   (forall e, path_exists E html_path = Ok true ->
                              extract_html_data E html_path = Err e ->
                              unavailable (snd item')) /\
                   (forall data, path_exists E html_path = Ok true ->
                                 extract_html_data E html_path = Ok data ->
                                 pd_get marker_key (snd item') = Some (JBool true)))
                events events' /\
        Forall (fun item' =>
                  pd_get marker_key (snd item') = Some (JBool false) ->
                  Forall (fun k => pd_get k (snd item') = Some JNull) narrative_fields)
               events').
Proof.
  split; [apply enrich_with_html_returns|].
  intros events' log Hrun. split.
  - refine (enrich_with_html_Forall2 E html_dir _ _ _ _ _ Hrun).
    intros c [event_id event] r l Hev. cbn [fst snd].
    destruct (enrich_event_record E _ _ _ _ _ _ Hev) as (Hmiss & Herr & Hok).
    split; [reflexivity|]. cbn zeta. split; [|split].
    + intros Hp. rewrite (Hmiss Hp). apply set_unavailable_unavailable.
    + intros e Hp Hx. rewrite (Herr e Hp Hx). apply set_unavailable_unavailable.
    + intros data Hp Hx. rewrite (Hok data Hp Hx). now apply (update_available E _ _ _ Hx).
  - apply (Forall2_right _ events).
    refine (enrich_with_html_Forall2 E html_dir _ _ _ _ _ Hrun).
    intros c item r l Hev. cbn [snd].
    destruct (enrich_event_flag E _ _ _ _ _ Hev) as [Htrue|[_ Hnull]].
    + rewrite Htrue. discriminate.
    + intros _. exact Hnull.
Qed.

Lemma enrich_availability_witness :
  exists events' log r123 r789,
    enrich_with_html (table_env history) [("123", event_123_B); ("789", event_789)] "html"
      = (Returned events', log) /\
    events' = [("123", r123); ("789", r789)] /\
    pd_get marker_key r123 = Some (JBool true) /\ unavailable r789.
Proof.
  destruct (enrich_availability (table_env history)
              [("123", event_123_B); ("789", event_789)] "html")
    as (Hreturns & Hrecords).
  destruct Hreturns as (events' & log & Hrun).
  { apply Forall_cons; [exists true; reflexivity|].
    apply Forall_cons; [exists false; reflexivity|]. apply Forall_nil. }
  destruct (Hrecords events' log Hrun) as (Hrel & _).
  inversion Hrel as [|x1 [k1 r1] l1 l1' (Hk1 & _ & _ & Hok) Hrel1]; subst.
  inversion Hrel1 as [|x2 [k2 r2] l2 l2' (Hk2 & Hmiss & _) Hrel2]; subst.
  inversion Hrel2; subst. cbn [fst snd] in *. subst k1 k2.
  exists [("123", r1); ("789", r2)], log, r1, r2.
  split; [exact Hrun|]. split; [reflexivity|]. split.
  - apply (Hok [("html_title", JStr "Trafikolycka, Sundsvall");
                ("html_preamble", JNull);
                ("html_body", JStr (lines ["En bil har krockat."; "Ingen skadad."]));
                ("html_published_datetime", JStr "2024-03-01T10:05:00+01:00");
                ("html_author", JStr "Polisen");
                ("html_available", JBool true)]); reflexivity.
  - apply Hmiss. reflexivity.
Defined.

(** C10.  [enrich_with_html] returns when [html_path.exists()] returns for
    the document of every record; the mapping it returns has the keys of
    its input, in the same order, and every record in it has the key
    [html_available], with a boolean. *)
Theorem enrich_preserves_identities (E : env) (events : pydict (pydict json))
    (html_dir : string) :
  (Forall (probed E html_dir) events ->
   exists events' log, enrich_with_html E events html_dir = (Returned events', log))
  /\ (forall events' log,
        enrich_with_html E events html_dir = (Returned events', log) ->
        pd_keys events' = pd_keys events /\
        Forall (fun item' => exists b : bool,
                    pd_get marker_key (snd item') = Some (JBool b)) events').
Proof.
  split; [apply enrich_with_html_returns|].
  intros events' log Hrun. split.
  - apply Forall2_keys.
    refine (enrich_with_html_Forall2 E html_dir _ _ _ _ _ Hrun). reflexivity.
  - apply (Forall2_right _ events).
    refine (enrich_with_html_Forall2 E html_dir _ _ _ _ _ Hrun).
    intros c item r l Hev. cbn [snd].
    destruct (enrich_event_flag E _ _ _ _ _ Hev) as [Htrue|[Hfalse _]];
      eexists; eassumption.
Qed.

Lemma enrich_preserves_identities_witness :
  exists events' log,
    enrich_with_html (table_env history)
      [("123", event_123_B); ("456", event_456); ("789", event_789)] "html"
    = (Returned events', log) /\
    pd_keys events' = ["123"; "456"; "789"].
Proof.
  destruct (enrich_preserves_identities (table_env history)
              [("123", event_123_B); ("456", event_456); ("789", event_789)] "html")
    as (Hreturns & Hkeys).
  destruct Hreturns as (events' & log & Hrun).
  { apply Forall_cons; [exists true; reflexivity|].
    apply Forall_cons; [exists true; reflexivity|].
    apply Forall_cons; [exists false; reflexivity|]. apply Forall_nil. }
  exists events', log. split; [exact Hrun|].
  exact (proj1 (Hkeys events' log Hrun)).
Defined.

(* ===================================================================== *)
(** ** The date filter *)

Section DateFilter.

Variable E : env.
Variables start_date end_date : option datetime.

Lemma dt_cmp_raises (a b : datetime) :
  (exists c, dt_cmp a b = Returned c) \/ dt_cmp a b = Raised TypeError.
Proof.
  unfold dt_cmp. destruct (tzinfo a), (tzinfo b); try (now right).
  - destruct (z =? z0)%Z; left; now eexists.
  - left. now eexists.
Qed.

(** One iteration of the filter, by the verdict on its record. *)
Lemma filter_event_verdict (filtered : pydict (pydict json))
    (event_id : string) (event : pydict json) :
  filter_event E start_date end_date filtered (event_id, event)
  = match classify E start_date end_date event with
    | Keep => ret (pd_set event_id event filtered)
    | Drop_silently => ret filtered
    | Drop_with_warning s => (Returned filtered, [Log_bad_datetime event_id s])
    | Abort e => raise e
    end.
Proof.
  unfold filter_event, classify.
  destruct (truthy (pd_get_default "datetime" (JStr "") event)); cbn [negb];
    [|reflexivity].
  destruct (pd_get_default "datetime" (JStr "") event); try reflexivity.
  destruct (fromisoformat E s) as [event_dt|]; [|reflexivity].
  unfold verdict_of_bounds, before_start, after_end, dt_lt, dt_gt.
  destruct start_date as [sd|], end_date as [ed|];
    repeat match goal with
           | |- context [dt_cmp ?a ?b] =>
               let c := fresh "c" in let H := fresh "H" in
               destruct (dt_cmp_raises a b) as [[c H]|H]; rewrite H; clear H;
               [destruct c|]
           end; reflexivity.
Qed.

Lemma for_each_filter (events filtered : pydict (pydict json)) :
  Forall (fun kv => is_abort (classify E start_date end_date (snd kv)) = false) events ->
  for_each (filter_event E start_date end_date) events filtered
  = (Returned (fold_left (keep_item E start_date end_date) events filtered),
     flat_map (filter_warning E start_date end_date) events).
Proof.
  revert filtered. induction events as [|[event_id event] events IH];
    intros filtered Hok; [reflexivity|].
  inversion Hok as [|? ? Hhead Htail]; subst. cbn [snd] in Hhead.
  cbn [for_each flat_map fold_left]. rewrite filter_event_verdict.
  unfold keep_item at 2, filter_warning at 1. cbn [fst snd].
  destruct (classify E start_date end_date event); try discriminate;
    cbn [is_keep bind ret]; rewrite (IH _ Htail); reflexivity.
Qed.

Lemma date_filter_returns (events : pydict (pydict json)) :
  Forall (fun kv => is_abort (classify E start_date end_date (snd kv)) = false) events ->
  date_filter E start_date end_date events
  = (Returned (fold_left (keep_item E start_date end_date) events []),
     flat_map (filter_warning E start_date end_date) events
     ++ [Log_after_filter
           (List.length (fold_left (keep_item E start_date end_date) events []))]).
Proof.
  intros Hok. unfold date_filter. rewrite (for_each_filter events [] Hok). reflexivity.
Qed.

(** A key of the filter's result is a key it started from or the key of a
    record it kept. *)
Lemma kept_keys (events filtered : pydict (pydict json)) (k : string) :
  In k (pd_keys (fold_left (keep_item E start_date end_date) events filtered)) ->
  In k (pd_keys filtered)
  \/ exists event, In (k, event) events
                   /\ classify E start_date end_date event = Keep.
Proof.
  revert filtered. induction events as [|[event_id event] events IH];
    intros filtered Hin; [now left|].
  cbn [fold_left] in Hin. apply IH in Hin as [Hin|(ev & Hin & Hk)].
  - unfold keep_item in Hin. cbn [fst snd] in Hin.
    destruct (classify E start_date end_date event) eqn:Hc; cbn [is_keep] in Hin;
      try (now left).
    apply pd_keys_set in Hin as [->|Hin]; [|now left].
    right. exists event. split; [now left | exact Hc].
  - right. exists ev. split; [now right | exact Hk].
Qed.

Lemma dropped_absent (events : pydict (pydict json)) (event_id : string)
    (event : pydict json) :
  NoDup (pd_keys events) -> In (event_id, event) events ->
  classify E start_date end_date event <> Keep ->
  pd_get event_id (fold_left (keep_item E start_date end_date) events []) = None.
Proof.
  intros Hnd Hin Hdrop. apply pd_get_None. intros Hkey.
  apply kept_keys in Hkey as [[]|(ev & Hin' & Hkeep)].
  apply (pd_get_NoDup _ _ _ Hnd) in Hin, Hin'. congruence.
Qed.

Lemma warning_logged (events : pydict (pydict json)) (event_id s : string) :
  In (Log_bad_datetime event_id s)
     (flat_map (filter_warning E start_date end_date) events)
  <-> exists event, In (event_id, event) events
                    /\ classify E start_date end_date event = Drop_with_warning s.
Proof.
  rewrite in_flat_map. split.
  - intros ([k ev] & Hin & Hw). unfold filter_warning in Hw. cbn [fst snd] in Hw.
    destruct (classify E start_date end_date ev) eqn:Hc; try now destruct Hw.
    destruct Hw as [Heq|[]]. injection Heq as -> ->. now exists ev.
  - intros (ev & Hin & Hc). exists (event_id, ev). split; [exact Hin|].
    unfold filter_warning. cbn [fst snd]. rewrite Hc. now left.
Qed.

Lemma classify_falsy (event : pydict json) :
  truthy (pd_get_default "datetime" (JStr "") event) = false ->
  classify E start_date end_date event = Drop_silently.
Proof. unfold classify. now intros ->. Qed.

Lemma classify_unparsable (event : pydict json) (s : string) :
  pd_get "datetime" event = Some (JStr s) -> s <> "" -> fromisoformat E s = None ->
  classify E start_date end_date event = Drop_with_warning s.
Proof.
  intros Hget Hs Hparse. unfold classify, pd_get_default. rewrite Hget. cbn [truthy].
  destruct (String.eqb_spec s ""); [contradiction|]. cbn [negb]. now rewrite Hparse.
Qed.

(** A bound without offset and a timestamp with one do not compare. *)
Lemma classify_naive_bound_aware_record (event : pydict json) (s : string)
    (event_dt sd : datetime) (off : Z) :
  start_date = Some sd -> tzinfo sd = None ->
  pd_get "datetime" event = Some (JStr s) -> s <> "" ->
  fromisoformat E s = Some event_dt -> tzinfo event_dt = Some off ->
  classify E start_date end_date event = Abort TypeError.
Proof.
  intros -> Hsd Hget Hs Hparse Hoff. unfold classify, pd_get_default. rewrite Hget.
  cbn [truthy]. destruct (String.eqb_spec s ""); [contradiction|]. cbn [negb].
  rewrite Hparse. unfold verdict_of_bounds, before_start, dt_lt, dt_cmp.
  now rewrite Hoff, Hsd.
Qed.

End DateFilter.

(* ===================================================================== *)
(** ** What the merge stage logs *)

Section MergeLog.

Variable E : env.
Variable P : log_entry -> Prop.

Lemma bind_log {A B : Type} (m : M A) (f : A -> M B) :
  Forall P (snd m) -> (forall a, Forall P (snd (f a))) -> Forall P (snd (bind m f)).
Proof.
  intros Hm Hf. destruct m as [[a| |] l]; cbn [bind snd] in *; try exact Hm.
  specialize (Hf a). destruct (f a) as [o l2]. cbn [snd] in *.
  apply Forall_app. now split.
Qed.

Lemma for_each_log {A S : Type} (body : S -> A -> M S) (xs : list A) :
  (forall s x, Forall P (snd (body s x))) ->
  forall st, Forall P (snd (for_each body xs st)).
Proof.
  intros Hbody. induction xs as [|x xs IH]; intros st; cbn [for_each].
  - constructor.
  - apply bind_log; auto.
Qed.

Hypothesis P_git_failed : P Log_git_failed.
Hypothesis P_git_hint : P Log_git_hint.
Hypothesis P_no_events_json : forall sha8, P (Log_no_events_json sha8).
Hypothesis P_invalid_json : forall sha8, P (Log_invalid_json sha8).
Hypothesis P_found_commits : forall n, P (Log_found_commits n).
Hypothesis P_total_extracted : forall n, P (Log_total_extracted n).
Hypothesis P_unique_events : forall n, P (Log_unique_events n).

Lemma extract_events_from_commit_log (sha : string) :
  Forall P (snd (extract_events_from_commit E sha)).
Proof.
  unfold extract_events_from_commit.
  destruct (git_show E sha) as [stdout|e].
  - destruct (json_loads E stdout) as [v|e].
    + destruct v; constructor.
    + destruct e; cbn; repeat constructor; auto.
  - destruct e; cbn; repeat constructor; auto.
Qed.

Lemma merge_all_log : Forall P (snd (merge_all E)).
Proof.
  unfold merge_all. apply bind_log.
  - unfold get_all_commits. destruct (git_log E) as [stdout|e]; [constructor|].
    destruct e; cbn; repeat constructor; auto.
  - intros commits. apply bind_log; [repeat constructor; auto|]. intros _.
    apply bind_log.
    + apply for_each_log. intros st c. unfold merge_commit.
      apply bind_log; [apply extract_events_from_commit_log|]. intros events.
      apply bind_log; [|constructor].
      apply for_each_log. intros m x. destruct x; try constructor.
      cbn. destruct (identity E d =? ""); constructor.
    + intros st. repeat (apply bind_log; [repeat constructor; auto|]; intros _).
      constructor.
Qed.

End MergeLog.

(** The merge stage logs nothing about timestamps. *)
Lemma merge_all_no_datetime_warning (E : env) (o : outcome (pydict (pydict json)))
    (log : list log_entry) (event_id s : string) :
  merge_all E = (o, log) -> ~ In (Log_bad_datetime event_id s) log.
Proof.
  intros Hrun Hin.
  assert (H : Forall (fun e => is_bad_datetime e = false) (snd (merge_all E)))
    by (apply merge_all_log; reflexivity).
  rewrite Hrun in H. cbn [snd] in H. rewrite Forall_forall in H.
  now apply H in Hin.
Qed.

(** C7 (amended).  With a date filter, when the filter raises on no record,
    [extract_all_events] returns, and a merged record whose [datetime] is
    absent, empty or otherwise falsy is not in the result and no warning
    names it, while a record whose [datetime] is a string that
    [fromisoformat] rejects is not in the result and one warning names it,
    with the string. *)
Theorem undated_records_dropped (E : env) (start_date end_date : option datetime)
    (events : pydict (pydict json)) (log0 : list log_entry)
    (event_id : string) (event : pydict json) :
  merge_all E = (Returned events, log0) ->
  start_date <> None \/ end_date <> None ->
  Forall (fun kv => is_abort (classify E start_date end_date (snd kv)) = false) events ->
  In (event_id, event) events ->
  exists filtered log,
    extract_all_events E start_date end_date = (Returned filtered, log) /\
    (truthy (pd_get_default "datetime" (JStr "") event) = false ->
       pd_get event_id filtered = None /\
       forall s, ~ In (Log_bad_datetime event_id s) log) /\
    (forall s, pd_get "datetime" event = Some (JStr s) -> s <> "" ->
       fromisoformat E s = None ->
       pd_get event_id filtered = None /\ In (Log_bad_datetime event_id s) log).
Proof.
  intros Hmerge Hactive Hok Hin.
  destruct (merge_all_keyed E events log0 Hmerge) as [_ Hnd].
  assert (Hrun : extract_all_events E start_date end_date
                 = bind (Returned events, log0)
                     (fun m => date_filter E start_date end_date m)).
  { unfold extract_all_events. rewrite Hmerge.
    destruct start_date, end_date; try reflexivity. now destruct Hactive. }
  rewrite Hrun. cbn [bind].
  rewrite (date_filter_returns E start_date end_date events Hok).
  eexists _, _. split; [reflexivity|]. split.
  - intros Hfalsy. pose proof (classify_falsy E start_date end_date event Hfalsy) as Hc.
    split; [apply (dropped_absent E start_date end_date events event_id event);
            auto; congruence|].
    intros s Hlog. apply in_app_or in Hlog as [Hlog|Hlog];
      [now apply (merge_all_no_datetime_warning E _ _ event_id s Hmerge)|].
    apply in_app_or in Hlog as [Hlog|[Hlog|[]]]; [|discriminate].
    apply warning_logged in Hlog as (ev & Hin' & Hc').
    apply (pd_get_NoDup _ _ _ Hnd) in Hin, Hin'. congruence.
  - intros s Hget Hs Hparse.
    pose proof (classify_unparsable E start_date end_date event s Hget Hs Hparse) as Hc.
    split; [apply (dropped_absent E start_date end_date events event_id event);
            auto; congruence|].
    apply in_or_app. right. apply in_or_app. left.
    apply warning_logged. now exists event.
Qed.

Lemma undated_records_dropped_witness :
  exists filtered log,
    extract_all_events
      (table_env (one_snapshot [event_undated; event_unparsable; event_789]))
      (Some (mk_datetime 2024 1 1 0 0 0 0 None)) None
    = (Returned filtered, log) /\
    pd_get "8" filtered = None /\ In (Log_bad_datetime "8" "yesterday") log.
Proof.
  destruct (undated_records_dropped
              (table_env (one_snapshot [event_undated; event_unparsable; event_789]))
              (Some (mk_datetime 2024 1 1 0 0 0 0 None)) None
              [("7", event_undated); ("8", event_unparsable); ("789", event_789)]
              [Log_found_commits 1; Log_total_extracted 3; Log_unique_events 3]
              "8" event_unparsable)
    as (filtered & log & Hrun & _ & Hwarn).
  - reflexivity.
  - left. discriminate.
  - repeat constructor.
  - right. left. reflexivity.
  - exists filtered, log. split; [exact Hrun|].
    apply (Hwarn "yesterday"); [reflexivity | discriminate | reflexivity].
Defined.

(** C7 as stated fails: with [--start-date 2024-01-01], the record 7, which
    has no [datetime], is dropped and the log holds no warning. *)
Lemma undated_record_dropped_silently :
  main (table_env (one_snapshot [event_undated; event_789])) from_2024
  = (Returned
       [[("event_id", JStr "789"); ("datetime", JStr "2024-01-01T00:00:00");
         ("name", JStr "D"); ("summary", JStr ""); ("url", JStr "");
         ("type", JStr ""); ("location_name", JStr "");
         ("latitude", JNull); ("longitude", JNull)]],
     [Log_start_date; Log_stage "git archaeology"; Log_found_commits 1;
      Log_total_extracted 2; Log_unique_events 2; Log_after_filter 1;
      Log_stage "flattening"])
  /\ warnings (snd (main (table_env (one_snapshot [event_undated; event_789]))
                      from_2024)) = [].
Proof. split; reflexivity. Qed.

(** C5.  With the bounds [main] builds from [--start-date 2024-01-01] and
    [--end-date 2024-12-31], which carry no offset, a record stamped
    [2024-06-15T12:00:00+02:00], inside the year, is not retained: comparing
    it with the lower bound raises [TypeError], which
    [extract_all_events] does not catch, and the run stops. *)
Theorem year_filter_aware_record :
  main (table_env (one_snapshot [event_aware])) year_2024
  = (Raised TypeError,
     [Log_start_date; Log_end_date; Log_stage "git archaeology";
      Log_found_commits 1; Log_total_extracted 1; Log_unique_events 1]).
Proof. reflexivity. Qed.

(** Records without offset on the two boundaries of the year, 789 at
    [2024-01-01T00:00:00] and 456 at [2024-12-31T23:59:59], are retained. *)
Example year_filter_naive_boundaries :
  exists filtered log,
    extract_all_events (table_env history)
      (Some (mk_datetime 2024 1 1 0 0 0 0 None))
      (Some (mk_datetime 2024 12 31 23 59 59 0 None))
    = (Returned filtered, log) /\
    pd_get "789" filtered = Some event_789 /\ pd_get "456" filtered = Some event_456.
Proof. eexists _, _. repeat split; reflexivity. Qed.

(* ===================================================================== *)
(** ** Narrative columns *)

Section Columns.

Variable E : env.

Lemma flatten_columns (event flat : pydict json) (log : list log_entry) (k : string) :
  flatten_event_for_export E event = (Returned flat, log) ->
  In k (marker_key :: narrative_fields) ->
  pd_mem k flat = pd_mem marker_key event.
Proof.
  unfold flatten_event_for_export.
  destruct (pd_get_default "location" (JDict []) event) as [| | | | | |location];
    try discriminate.
  intros Hrun Hk.
  assert (Hflat : exists la lo, flat = add_html_fields event
            (set_coordinates la lo
               (pd_set "location_name" (pd_get_default "name" (JStr "") location)
                  [("event_id", JStr (py_str E (pd_get_default "id" (JStr "") event)));
                   ("datetime", pd_get_default "datetime" (JStr "") event);
                   ("name", pd_get_default "name" (JStr "") event);
                   ("summary", pd_get_default "summary" (JStr "") event);
                   ("url", pd_get_default "url" (JStr "") event);
                   ("type", pd_get_default "type" (JStr "") event)]))).
  { destruct (truthy (pd_get_default "gps" (JStr "") location)).
    - destruct (parse_gps_string E _) as [[lat lon]|e|c]; [| |discriminate].
      + injection Hrun as <- _. now eexists _, _.
      + destruct (catches ValueError e); [|discriminate].
        injection Hrun as <- _. now eexists _, _.
    - injection Hrun as <- _. now eexists _, _. }
  destruct Hflat as (la & lo & ->). clear Hrun.
  unfold add_html_fields, set_coordinates.
  destruct (pd_mem marker_key event);
    cbn in Hk; repeat (destruct Hk as [<-|Hk]; [rewrite !pd_mem_set; reflexivity|]);
    destruct Hk.
Qed.

Lemma flatten_all_returned (events flats : list (pydict json)) (log : list log_entry) :
  flatten_all E events = (Returned flats, log) ->
  Forall2 (fun event flat =>
             exists l, flatten_event_for_export E event = (Returned flat, l))
          events flats.
Proof.
  revert flats log. induction events as [|event events IH]; intros flats log Hrun.
  - injection Hrun as <- _. constructor.
  - cbn [flatten_all] in Hrun.
    apply bind_returned in Hrun as (flat & l1 & l2 & Hflat & Hrun & _).
    apply bind_returned in Hrun as (rest & l3 & l4 & Hrest & Hret & _).
    injection Hret as <- _. constructor; [now exists l1 | now apply (IH rest l3)].
Qed.

Lemma enrich_marks_every_record (events events' : pydict (pydict json))
    (html_dir : string) (log : list log_entry) :
  enrich_with_html E events html_dir = (Returned events', log) ->
  Forall (fun item' => exists b : bool,
              pd_get marker_key (snd item') = Some (JBool b)) events'.
Proof.
  intros Hrun. apply (Forall2_right _ events).
  refine (enrich_with_html_Forall2 E html_dir _ _ _ _ _ Hrun).
  intros c item r l Hev. cbn [snd].
  destruct (enrich_event_flag E _ _ _ _ _ Hev) as [H|[H _]]; eexists; exact H.
Qed.

(** What a returned flat record is made of. *)
Lemma flatten_returned_form (event flat : pydict json) (log : list log_entry) :
  flatten_event_for_export E event = (Returned flat, log) ->
  exists location la lo,
    pd_get_default "location" (JDict []) event = JDict location /\
    flat = add_html_fields event
             (set_coordinates la lo
                (pd_set "location_name" (pd_get_default "name" (JStr "") location)
                   (first_columns E event))).
Proof.
  unfold flatten_event_for_export, first_columns, identity.
  destruct (pd_get_default "location" (JDict []) event) as [| | | | | |location];
    try discriminate.
  intros Hrun. exists location.
  destruct (truthy (pd_get_default "gps" (JStr "") location)).
  - destruct (parse_gps_string E _) as [[lat lon]|e|c]; [| |discriminate].
    + injection Hrun as <- _. now eexists _, _.
    + destruct (catches ValueError e); [|discriminate].
      injection Hrun as <- _. now eexists _, _.
  - injection Hrun as <- _. now eexists _, _.
Qed.

(** The narrative columns of a flat record hold what the record holds. *)
Lemma flat_narrative_values (event flat : pydict json) (log : list log_entry) :
  flatten_event_for_export E event = (Returned flat, log) ->
  pd_mem marker_key event = true ->
  (forall k, In k narrative_fields -> pd_get k flat = Some (pd_get_default k JNull event))
  /\ pd_get marker_key flat = Some (pd_get_default marker_key (JBool false) event).
Proof.
  intros Hrun Hmark.
  apply flatten_returned_form in Hrun as (location & la & lo & _ & ->).
  unfold add_html_fields. rewrite Hmark. split.
  - intros k Hk. cbn in Hk.
    repeat (destruct Hk as [<-|Hk];
            [rewrite ?pd_get_set_neq by discriminate; apply pd_get_set_eq|]).
    destruct Hk.
  - apply pd_get_set_eq.
Qed.

Lemma flat_marker_value (event flat : pydict json) (log : list log_entry) :
  flatten_event_for_export E event = (Returned flat, log) ->
  pd_mem marker_key event = true ->
  pd_get marker_key flat = pd_get marker_key event.
Proof.
  intros Hrun Hmark.
  rewrite (proj2 (flat_narrative_values event flat log Hrun Hmark)).
  unfold pd_mem, pd_get_default in *. now destruct (pd_get marker_key event).
Qed.

Lemma Forall_pd_set {V : Type} (P : string * V -> Prop) (k : string) (v : V)
    (d : pydict V) :
  Forall P d -> P (k, v) -> Forall P (pd_set k v d).
Proof.
  intros Hd Hkv. rewrite Forall_forall in *. intros [k' v'] Hin.
  apply pd_set_In in Hin as [->|Hin]; auto.
Qed.

(** Every record of the merged mapping is a record of some snapshot. *)
Lemma merge_all_values (merged : pydict (pydict json)) (log : list log_entry) :
  merge_all E = (Returned merged, log) ->
  Forall (fun kv => in_some_snapshot E (snd kv)) merged.
Proof.
  unfold merge_all. intros Hrun.
  apply bind_returned in Hrun as (commits & l1 & l2 & _ & Hrun & _).
  apply bind_returned in Hrun as ([] & l3 & l4 & _ & Hrun & _).
  apply bind_returned in Hrun as (st & l5 & l6 & Hloop & Hrun & _).
  apply bind_returned in Hrun as ([] & l7 & l8 & _ & Hrun & _).
  apply bind_returned in Hrun as ([] & l9 & l10 & _ & Hrun & _).
  injection Hrun as <- _.
  apply (for_each_invariant
           (fun st => Forall (fun kv => in_some_snapshot E (snd kv)) (fst st))
           (merge_commit E) commits) with (st := ([], 0%nat)) (log := l5);
    [|constructor|exact Hloop].
  intros s c s' l _ Hs Hc. unfold merge_commit in Hc.
  apply bind_returned in Hc as (events & la & lb & Hevents & Hc & _).
  apply bind_returned in Hc as (m' & lc & ld & Hinner & Hret & _).
  injection Hret as <- _. cbn [fst].
  apply (for_each_invariant
           (fun m => Forall (fun kv => in_some_snapshot E (snd kv)) m)
           (merge_event E) events) with (st := fst s) (log := lc);
    [|exact Hs|exact Hinner].
  intros m x m1 lx Hx Hm Hstep. destruct x; try discriminate.
  rewrite merge_event_dict in Hstep. injection Hstep as <- _.
  unfold merge_record. destruct (identity E d =? ""); [exact Hm|].
  apply Forall_pd_set; [exact Hm|]. cbn [snd]. now exists (fst c), events, la.
Qed.

Lemma date_filter_values (start_date end_date : option datetime)
    (P : string * pydict json -> Prop)
    (events filtered : pydict (pydict json)) (log : list log_entry) :
  Forall P events ->
  date_filter E start_date end_date events = (Returned filtered, log) ->
  Forall P filtered.
Proof.
  intros Hevents Hrun. unfold date_filter in Hrun.
  apply bind_returned in Hrun as (acc & l1 & l2 & Hloop & Hrun & _).
  apply bind_returned in Hrun as ([] & l3 & l4 & _ & Hret & _).
  injection Hret as <- _.
  apply (for_each_invariant (Forall P) (filter_event E start_date end_date) events)
    with (st := []) (log := l1); [|constructor|exact Hloop].
  intros m [event_id event] m1 lx Hx Hm Hstep.
  rewrite filter_event_verdict in Hstep.
  destruct (classify E start_date end_date event); try discriminate;
    injection Hstep as <- _; [|exact Hm|exact Hm].
  apply Forall_pd_set; [exact Hm|].
  rewrite Forall_forall in Hevents. now apply Hevents.
Qed.

Lemma extract_all_events_values (start_date end_date : option datetime)
    (events : pydict (pydict json)) (log : list log_entry) :
  extract_all_events E start_date end_date = (Returned events, log) ->
  Forall (fun kv => in_some_snapshot E (snd kv)) events.
Proof.
  unfold extract_all_events. intros Hrun.
  apply bind_returned in Hrun as (merged & l1 & l2 & Hmerge & Hrun & _).
  apply merge_all_values in Hmerge.
  destruct start_date, end_date;
    try (now eapply date_filter_values; [exact Hmerge | exact Hrun]).
  now injection Hrun as <- _.
Qed.

(** The stages a returning [main] went through. *)
Lemma main_returned (args : cli_args) (flats : list (pydict json))
    (log : list log_entry) :
  main E args = (Returned flats, log) ->
  exists start_date end_date events events' l1 l2,
    extract_all_events E start_date end_date = (Returned events, l1) /\
    (if arg_include_html args
     then exists l, enrich_with_html E events (arg_html_dir args) = (Returned events', l)
     else events' = events) /\
    flatten_all E (pd_values events') = (Returned flats, l2).
Proof.
  unfold main. intros Hrun.
  apply bind_returned in Hrun as (start_date & l1 & l2 & _ & Hrun & _).
  apply bind_returned in Hrun as (end_date & l3 & l4 & _ & Hrun & _).
  apply bind_returned in Hrun as ([] & l5 & l6 & _ & Hrun & _).
  apply bind_returned in Hrun as (events & l7 & l8 & Hextract & Hrun & _).
  destruct events as [|item events]; [discriminate|].
  apply bind_returned in Hrun as (events' & l9 & l10 & Henrich & Hrun & _).
  apply bind_returned in Hrun as ([] & l11 & l12 & _ & Hflat & _).
  exists start_date, end_date, (item :: events), events', l7, l12.
  split; [exact Hextract|]. split; [|exact Hflat].
  destruct (arg_include_html args).
  - destruct (path_exists E (arg_html_dir args)) as [[|]|e]; try discriminate.
    apply bind_returned in Henrich as ([] & la & lb & _ & Henrich & _).
    now exists lb.
  - now injection Henrich as <- _.
Qed.

End Columns.

(** C9.  A flat record that [flatten_event_for_export] returns holds each of
    the five narrative keys and [html_available] exactly when the record it
    was made from holds the key [html_available], and then with the values
    of that record ([None] for a narrative key the record lacks).  A run
    with [--include-html] exports every record with the six columns, the
    flag a boolean, since enrichment sets the key on every record.  A run
    without it sets the key on no record: every record it exports is the
    flat record of a record as a snapshot holds it, and has the six columns
    exactly when that stored record holds the key itself; so it exports
    every record without them when no record of a snapshot holds the key. *)
Theorem narrative_columns (E : env) :
  (forall (event flat : pydict json) (log : list log_entry),
      flatten_event_for_export E event = (Returned flat, log) ->
      (forall k, In k (marker_key :: narrative_fields) ->
                 pd_mem k flat = pd_mem marker_key event)
      /\ (pd_mem marker_key event = true ->
          pd_get marker_key flat = pd_get marker_key event /\
          forall k, In k narrative_fields ->
                    pd_get k flat = Some (pd_get_default k JNull event)))
  /\ (forall (args : cli_args) (flats : list (pydict json)) (log : list log_entry),
        arg_include_html args = true ->
        main E args = (Returned flats, log) ->
        Forall (fun flat =>
                  (forall k, In k (marker_key :: narrative_fields) ->
                             pd_mem k flat = true)
                  /\ exists b : bool, pd_get marker_key flat = Some (JBool b)) flats)
  /\ (forall (args : cli_args) (flats : list (pydict json)) (log : list log_entry),
        arg_include_html args = false ->
        main E args = (Returned flats, log) ->
        Forall (fun flat => exists d l,
                    in_some_snapshot E d /\
                    flatten_event_for_export E d = (Returned flat, l) /\
                    forall k, In k (marker_key :: narrative_fields) ->
                              pd_mem k flat = pd_mem marker_key d) flats)
  /\ (forall (args : cli_args) (flats : list (pydict json)) (log : list log_entry),
        arg_include_html args = false ->
        (forall d, in_some_snapshot E d -> pd_mem marker_key d = false) ->
        main E args = (Returned flats, log) ->
        Forall (fun flat => forall k, In k (marker_key :: narrative_fields) ->
                                      pd_mem k flat = false) flats).
Proof.
  assert (Hplain : forall (args : cli_args) (flats : list (pydict json))
                          (log : list log_entry),
             arg_include_html args = false ->
             main E args = (Returned flats, log) ->
             Forall (fun flat => exists d l,
                         in_some_snapshot E d /\
                         flatten_event_for_export E d = (Returned flat, l) /\
                         forall k, In k (marker_key :: narrative_fields) ->
                                   pd_mem k flat = pd_mem marker_key d) flats).
  { intros args flats log Hhtml Hrun.
    apply main_returned in Hrun
      as (sd & ed & events & events' & l1 & l2 & Hextract & Henrich & Hflat).
    rewrite Hhtml in Henrich. subst events'.
    apply extract_all_events_values in Hextract.
    apply flatten_all_returned in Hflat.
    assert (Hall : Forall (in_some_snapshot E) (pd_values events))
      by (unfold pd_values; apply Forall_map; exact Hextract).
    apply (Forall2_transfer _ _ _ _ _ Hall Hflat).
    intros event flat Hsnap [lf Hf]. exists event, lf.
    split; [exact Hsnap|]. split; [exact Hf|].
    intros k Hk. exact (flatten_columns E event flat lf k Hf Hk). }
  split; [|split; [|split; [exact Hplain|]]].
  - intros event flat log Hrun. split.
    + intros k Hk. exact (flatten_columns E event flat log k Hrun Hk).
    + intros Hmark. split.
      * exact (flat_marker_value E event flat log Hrun Hmark).
      * exact (proj1 (flat_narrative_values E event flat log Hrun Hmark)).
  - intros args flats log Hhtml Hrun.
    apply main_returned in Hrun
      as (sd & ed & events & events' & l1 & l2 & _ & Henrich & Hflat).
    rewrite Hhtml in Henrich. destruct Henrich as [l Henrich].
    apply enrich_marks_every_record in Henrich.
    apply flatten_all_returned in Hflat.
    assert (Hall : Forall (fun ev => exists b : bool,
                               pd_get marker_key ev = Some (JBool b))
                          (pd_values events'))
      by (unfold pd_values; apply Forall_map; exact Henrich).
    apply (Forall2_transfer _ _ _ _ _ Hall Hflat).
    intros event flat [b Hb] [lf Hf].
    assert (Hmark : pd_mem marker_key event = true)
      by (unfold pd_mem; now rewrite Hb).
    split.
    + intros k Hk. now rewrite (flatten_columns E event flat lf k Hf Hk).
    + exists b. now rewrite (flat_marker_value E event flat lf Hf Hmark).
  - intros args flats log Hhtml Hraw Hrun.
    refine (Forall_impl _ _ (Hplain args flats log Hhtml Hrun)).
    intros flat (d & l & Hsnap & _ & Hcols) k Hk. rewrite (Hcols k Hk).
    now apply Hraw.
Qed.

(** No record of the sample history holds the key [html_available]. *)
Lemma history_records_unmarked (d : pydict json) :
  in_some_snapshot (table_env history) d -> pd_mem marker_key d = false.
Proof.
  intros (sha & events & l & Hrun & Hin).
  unfold extract_events_from_commit in Hrun. cbn -[String.eqb json_text] in Hrun.
  repeat match type of Hrun with
         | context [String.eqb ?a sha] => destruct (String.eqb a sha)
         end;
    vm_compute in Hrun; injection Hrun as <- _;
    repeat (destruct Hin as [Hin|Hin]; [injection Hin as <-; reflexivity|]);
    destruct Hin.
Qed.

Lemma narrative_columns_witness :
  (exists flats log,
      main (table_env history) with_html = (Returned flats, log) /\
      Forall (fun flat => pd_mem "html_body" flat = true) flats)
  /\ (exists flats log,
        main (table_env history) no_filter = (Returned flats, log) /\
        Forall (fun flat => pd_mem "html_body" flat = false) flats).
Proof.
  destruct (narrative_columns (table_env history)) as (_ & Hwith & _ & Hwithout).
  split.
  - eexists _, _. split; [reflexivity|].
    refine (Forall_impl _ _ (Hwith with_html _ _ eq_refl eq_refl)).
    intros flat [Hflat _]. apply Hflat. cbn. tauto.
  - eexists _, _. split; [reflexivity|].
    refine (Forall_impl _ _
              (Hwithout no_filter _ _ eq_refl history_records_unmarked eq_refl)).
    intros flat Hflat. apply Hflat. cbn. tauto.
Defined.

(** C9 as stated fails: a run without [--include-html], on a repository
    whose stored record carries the key [html_available], exports the
    record with the six narrative columns. *)
Lemma stored_marker_exported :
  main (table_env (one_snapshot [event_marked])) no_filter
  = (Returned
       [[("event_id", JStr "5"); ("datetime", JStr "2024-05-05T05:05:05");
         ("name", JStr "H"); ("summary", JStr ""); ("url", JStr "");
         ("type", JStr ""); ("location_name", JStr "");
         ("latitude", JNull); ("longitude", JNull);
         ("html_title", JStr "Rubrik"); ("html_preamble", JNull);
         ("html_body", JNull); ("html_published_datetime", JNull);
         ("html_author", JNull); ("html_available", JBool true)]],
     [Log_stage "git archaeology"; Log_found_commits 1;
      Log_total_extracted 1; Log_unique_events 1; Log_stage "flattening"]).
Proof. reflexivity. Qed.

(* ===================================================================== *)
(** ** Failures of one unit *)

Section Isolation.

Variable E : env.

Lemma dicts_of (l : list json) :
  forallb is_dict l = true -> exists ds, l = map JDict ds.
Proof.
  induction l as [|v l IH]; cbn [forallb]; intros H.
  - now exists [].
  - apply andb_prop in H as [Hv Hl]. destruct (IH Hl) as [ds ->].
    destruct v; try discriminate. now exists (d :: ds).
Qed.

(** A handled commit contributes a list of objects, an empty one when its
    fetch or its parse fails. *)
Lemma commit_handled_snapshot (sha : string) :
  commit_handled E sha ->
  exists snap, fst (extract_events_from_commit E sha) = Returned (map JDict snap).
Proof.
  unfold commit_handled, extract_events_from_commit.
  intros [->|(content & -> & [->|(v & -> & Hv)])]; try (now exists []).
  destruct v; try (now exists []).
  destruct (dicts_of l (Hv l eq_refl)) as [ds ->]. now exists ds.
Qed.

Lemma Forall_exists_Forall2 {A B : Type} (R : A -> B -> Prop) (l : list A) :
  Forall (fun a => exists b, R a b) l -> exists l', Forall2 R l l'.
Proof.
  induction 1 as [|a l [b Hab] _ [l' IH]].
  - now exists [].
  - exists (b :: l'). now constructor.
Qed.

(** X3.  The merge stage returns when every commit is handled: a failed
    fetch, a failed parse, content that is no list and records without identity stop
    nothing. *)
Lemma handled_failures_isolated (commits : list (string * string))
    (log0 : list log_entry) :
  get_all_commits E = (Returned commits, log0) ->
  Forall (fun c => commit_handled E (fst c)) commits ->
  exists merged log, merge_all E = (Returned merged, log).
Proof.
  intros Hcommits Hhandled.
  assert (Hsnaps : exists snapshots,
             Forall2 (fun c snap => fst (extract_events_from_commit E (fst c))
                                    = Returned (map JDict snap)) commits snapshots).
  { apply Forall_exists_Forall2.
    apply (Forall_impl _ (fun c => commit_handled_snapshot (fst c)) Hhandled). }
  destruct Hsnaps as [snapshots Hsnaps].
  destruct (merge_commits_fold E commits snapshots Hsnaps ([], 0%nat)) as [l Hl].
  unfold merge_all. rewrite Hcommits. cbn [bind logger]. rewrite Hl.
  cbn [bind logger fst snd ret]. now eexists _, _.
Qed.

(** X4.  An entry that is no object stops the loop over a snapshot with
    [AttributeError], whatever follows it. *)
Lemma merge_stops_at_stray_entry (ds : list (pydict json)) (v : json)
    (rest : list json) (m : pydict (pydict json)) :
  is_dict v = false ->
  for_each (merge_event E) (map JDict ds ++ v :: rest) m = (Raised AttributeError, []).
Proof.
  intros Hv. revert m. induction ds as [|d ds IH]; intros m; cbn [map app for_each].
  - now destruct v.
  - now rewrite merge_event_dict, bind_ret.
Qed.

End Isolation.

(** C6.  A snapshot that holds an entry that is no object (here [c2], whose
    content is a list of one record and the number 1) is not skipped: the
    merge loop raises [AttributeError] on the entry, nothing catches it, and
    the run stops before the snapshot after it is read. *)
Theorem stray_entry_aborts :
  extract_events_from_commit (table_env stray_history) "c2"
  = (Returned [JDict event_789; JInt 1], [])
  /\ main (table_env stray_history) no_filter
     = (Raised AttributeError, [Log_stage "git archaeology"; Log_found_commits 3]).
Proof. split; reflexivity. Qed.

(** The failures the script does handle, in one run: a truncated snapshot, a
    snapshot that is no list, a failed fetch, a record without identity, a
    document without content container and an absent document. *)
Example handled_failures_run :
  exists flats,
    main (table_env history) with_html
    = (Returned flats,
       [Log_stage "git archaeology"; Log_found_commits 6; Log_invalid_json "c2";
        Log_no_events_json "c5"; Log_total_extracted 7; Log_unique_events 3;
        Log_stage "HTML enrichment"; Log_html_failed "456" ValueError;
        Log_html_missing "789"; Log_html_summary 1 1 1;
        Log_stage "flattening"; Log_invalid_gps "456" ValueError])
    /\ List.length flats = 3%nat.
Proof. eexists. split; reflexivity. Qed.

(* ===================================================================== *)
(** ** Further properties of the date filter and of the merge stage *)

Lemma lex_compare_refl (a : list Z) : lex_compare a a = Eq.
Proof. induction a as [|x a IH]; simpl; [reflexivity|]. now rewrite Z.compare_refl. Qed.

Lemma lex_compare_antisym (a b : list Z) :
  lex_compare a b = CompOpp (lex_compare b a).
Proof.
  revert b. induction a as [|x a IH]; intros [|y b]; simpl; try reflexivity.
  rewrite (Z.compare_antisym y x). destruct (y ?= x)%Z; simpl; auto.
Qed.

(** X1.  A lower bound without offset and a record whose timestamp has one:
    the iteration of the date filter raises [TypeError]. *)
Lemma filter_event_naive_bound_aware_record (E : env) (end_date : option datetime)
    (filtered : pydict (pydict json)) (event_id : string) (event : pydict json)
    (s : string) (event_dt sd : datetime) (off : Z) :
  tzinfo sd = None ->
  pd_get "datetime" event = Some (JStr s) -> s <> "" ->
  fromisoformat E s = Some event_dt -> tzinfo event_dt = Some off ->
  filter_event E (Some sd) end_date filtered (event_id, event) = (Raised TypeError, []).
Proof.
  intros Hsd Hget Hs Hparse Hoff. rewrite filter_event_verdict.
  now rewrite (classify_naive_bound_aware_record E (Some sd) end_date event s
                 event_dt sd off eq_refl Hsd Hget Hs Hparse Hoff).
Qed.

Lemma filter_event_naive_bound_aware_record_witness :
  filter_event (table_env (one_snapshot [event_aware]))
    (Some (mk_datetime 2024 1 1 0 0 0 0 None))
    (Some (mk_datetime 2024 12 31 23 59 59 0 None)) [] ("1", event_aware)
  = (Raised TypeError, []).
Proof.
  apply (filter_event_naive_bound_aware_record
           (table_env (one_snapshot [event_aware])) _ [] "1" event_aware
           "2024-06-15T12:00:00+02:00"
           (mk_datetime 2024 6 15 12 0 0 0 (Some 7200000000%Z))
           (mk_datetime 2024 1 1 0 0 0 0 None) 7200000000%Z);
    try reflexivity.
  discriminate.
Defined.

(** X2.  Between bounds and a timestamp that all lack an offset, the iteration
    keeps the record exactly when the timestamp lies from the lower bound to
    the upper bound; a timestamp equal to either bound lies there. *)
Lemma filter_event_naive_inclusive (E : env) (filtered : pydict (pydict json))
    (event_id : string) (event : pydict json) (s : string)
    (event_dt sd ed : datetime) :
  tzinfo sd = None -> tzinfo ed = None -> tzinfo event_dt = None ->
  pd_get "datetime" event = Some (JStr s) -> s <> "" ->
  fromisoformat E s = Some event_dt ->
  filter_event E (Some sd) (Some ed) filtered (event_id, event)
  = ret (if within sd ed event_dt then pd_set event_id event filtered else filtered)
  /\ (lex_compare (base_fields sd) (base_fields ed) <> Gt ->
      within sd ed sd = true /\ within sd ed ed = true).
Proof.
  intros Hsd Hed Hdt Hget Hs Hparse. split.
  - unfold filter_event, pd_get_default. rewrite Hget. cbn [truthy].
    destruct (String.eqb_spec s ""); [contradiction|]. cbn [negb]. rewrite Hparse.
    unfold before_start, after_end, dt_lt, dt_gt, dt_cmp, within.
    rewrite Hdt, Hsd, Hed.
    destruct (lex_compare (base_fields event_dt) (base_fields sd));
      destruct (lex_compare (base_fields event_dt) (base_fields ed)); reflexivity.
  - intros Hle. unfold within.
    rewrite !lex_compare_refl, (lex_compare_antisym (base_fields ed) (base_fields sd)).
    destruct (lex_compare (base_fields sd) (base_fields ed));
      try contradiction; now split.
Qed.

Lemma filter_event_naive_inclusive_witness :
  filter_event (table_env history)
    (Some (mk_datetime 2024 1 1 0 0 0 0 None))
    (Some (mk_datetime 2024 12 31 23 59 59 0 None)) [] ("456", event_456)
  = ret [("456", event_456)].
Proof.
  apply (proj1 (filter_event_naive_inclusive (table_env history) [] "456" event_456
                  "2024-12-31T23:59:59"
                  (mk_datetime 2024 12 31 23 59 59 0 None)
                  (mk_datetime 2024 1 1 0 0 0 0 None)
                  (mk_datetime 2024 12 31 23 59 59 0 None)
                  eq_refl eq_refl eq_refl eq_refl
                  ltac:(discriminate) eq_refl)).
Defined.

Lemma handled_failures_isolated_witness :
  exists merged log, merge_all (table_env history) = (Returned merged, log).
Proof.
  apply (handled_failures_isolated (table_env history)
           [("c1", "2024-03-01T10:01:00+01:00"); ("c2", "2024-03-01T10:06:00+01:00");
            ("c3", "2024-03-01T10:11:00+01:00"); ("c4", "2024-03-01T10:16:00+01:00");
            ("c5", "2024-03-01T10:21:00+01:00"); ("c6", "2024-03-01T10:26:00+01:00")]
           [] eq_refl).
  repeat apply Forall_cons; try apply Forall_nil; unfold commit_handled; cbn [fst].
  - right. exists (json_text snapshot_1). split; [reflexivity|]. right.
    exists snapshot_1. split; [reflexivity|]. intros l H. now injection H as <-.
  - right. exists "[{". split; [reflexivity|]. now left.
  - right. exists (json_text snapshot_2). split; [reflexivity|]. right.
    exists snapshot_2. split; [reflexivity|]. intros l H. now injection H as <-.
  - right. exists (json_text not_a_list). split; [reflexivity|]. right.
    exists not_a_list. split; [reflexivity|]. intros l H. discriminate.
  - now left.
  - right. exists (json_text snapshot_3). split; [reflexivity|]. right.
    exists snapshot_3. split; [reflexivity|]. intros l H. now injection H as <-.
Defined.

Lemma merge_stops_at_stray_entry_witness :
  for_each (merge_event (table_env stray_history)) [JDict event_789; JInt 1] []
  = (Raised AttributeError, []).
Proof.
  apply (merge_stops_at_stray_entry (table_env stray_history) [event_789] (JInt 1) [] []).
  reflexivity.
Defined.

(* ===================================================================== *)
(** ** Listing the commits *)

Lemma append_assoc (a b c : string) : ((a ++ b) ++ c = a ++ (b ++ c))%string.
Proof. induction a as [|x a IH]; cbn [append]; [reflexivity | now rewrite IH]. Qed.

Lemma append_nil_r (a : string) : (a ++ "")%string = a.
Proof. induction a as [|x a IH]; cbn [append]; [reflexivity | now rewrite IH]. Qed.

Ltac compare_bytes :=
  repeat (match goal with
          | |- context [Nat.eqb ?a ?b] => destruct (Nat.eqb_spec a b)
          | |- context [Nat.leb ?a ?b] => destruct (Nat.leb_spec a b)
          end; cbn [andb orb]);
  intros; try discriminate; try lia.

(** The bytes of a whitespace character: one ASCII byte, or a lead byte
    followed by continuation bytes. *)
Lemma is_space_byte (c : ascii) : is_space c = true -> (nat_of_ascii c < 128)%nat.
Proof.
  unfold is_space. generalize (nat_of_ascii c). intros n. cbn zeta. compare_bytes.
Qed.

Lemma is_space2_bytes (c0 c1 : ascii) :
  is_space2 c0 c1 = true ->
  (nat_of_ascii c0 = 194 /\ 128 <= nat_of_ascii c1 < 192)%nat.
Proof.
  unfold is_space2. generalize (nat_of_ascii c0) (nat_of_ascii c1).
  intros n0 n1. cbn zeta. compare_bytes.
Qed.

Lemma is_space3_bytes (c0 c1 c2 : ascii) :
  is_space3 c0 c1 c2 = true ->
  (225 <= nat_of_ascii c0 <= 227 /\ 128 <= nat_of_ascii c1 < 192
   /\ 128 <= nat_of_ascii c2 < 192)%nat.
Proof.
  unfold is_space3.
  generalize (nat_of_ascii c0) (nat_of_ascii c1) (nat_of_ascii c2).
  intros n0 n1 n2. cbn zeta. compare_bytes.
Qed.

Ltac split_tests :=
  repeat match goal with
         | |- context [if ?b then _ else _] => let H := fresh "Ht" in destruct b eqn:H
         end.

Ltac byte_facts :=
  repeat match goal with
         | H : is_space _ = true |- _ => apply is_space_byte in H
         | H : is_space2 _ _ = true |- _ => apply is_space2_bytes in H
         | H : is_space3 _ _ _ = true |- _ => apply is_space3_bytes in H
         end.

Ltac close_tests :=
  split_tests; intros; try discriminate; try reflexivity; try congruence;
  byte_facts; try lia.

(** An ASCII character that is no whitespace starts no whitespace
    character. *)
Lemma space_prefix_ascii (c : ascii) (u : string) :
  (nat_of_ascii c < 128)%nat -> is_space c = false -> space_prefix (String c u) = 0%nat.
Proof.
  intros Hc Hs. destruct u as [|u1 [|u2 u]]; cbn [space_prefix]; rewrite Hs; close_tests.
Qed.

(** Text that starts with no whitespace character still does when a byte
    that continues no character is put behind it. *)
Lemma space_prefix_app (a : string) (c : ascii) (u : string) :
  space_prefix a = 0%nat -> a <> "" ->
  (nat_of_ascii c < 128 \/ 192 <= nat_of_ascii c)%nat ->
  space_prefix (a ++ String c u) = 0%nat.
Proof.
  intros Ha Hne Hc. destruct a as [|x [|y [|z a]]]; [contradiction| | |];
    destruct u as [|u1 u]; cbn [append space_prefix] in *; revert Ha; close_tests.
Qed.

Lemma lstrip_none (s : string) : space_prefix s = 0%nat -> lstrip s = s.
Proof.
  destruct s as [|c0 [|c1 [|c2 s]]]; cbn [space_prefix lstrip]; close_tests.
Qed.

Lemma has_space_head (s : string) : has_space s = false -> space_prefix s = 0%nat.
Proof.
  destruct s as [|c s]; [reflexivity|]. cbn [has_space]. intros H.
  apply orb_false_iff in H as [H _]. now apply negb_false_iff, Nat.eqb_eq in H.
Qed.

Lemma has_space_tail (c : ascii) (s : string) :
  has_space (String c s) = false -> has_space s = false.
Proof. cbn [has_space]. intros H. now apply orb_false_iff in H as [_ H]. Qed.

Lemma space_prefix_barrier (a : string) (c : ascii) (u : string) :
  has_space a = false -> (nat_of_ascii c < 128)%nat -> is_space c = false ->
  space_prefix (a ++ String c u) = 0%nat.
Proof.
  intros Ha Hc Hs. destruct a as [|x a].
  - now apply space_prefix_ascii.
  - apply space_prefix_app; [now apply has_space_head | discriminate | now left].
Qed.

Lemma rstrip_no_space (s : string) : has_space s = false -> rstrip s = s.
Proof.
  induction s as [|c s IH]; [reflexivity|]. intros H.
  pose proof (has_space_head _ H) as Hh. apply has_space_tail in H.
  cbn [rstrip]. rewrite (IH H).
  destruct s as [|c1 [|c2 [|c3 s]]]; cbn [space_prefix] in Hh; revert Hh; close_tests.
Qed.

(** Behind an ASCII character that is no whitespace, text without
    whitespace is left as it is, whatever stands before. *)
Lemma rstrip_barrier (a : string) (c : ascii) (d : string) :
  (nat_of_ascii c < 128)%nat -> is_space c = false -> has_space d = false ->
  rstrip (a ++ String c d) = (a ++ String c d)%string.
Proof.
  intros Hc Hs Hd. induction a as [|x a IH]; cbn [append].
  - cbn [rstrip]. rewrite (rstrip_no_space d Hd).
    destruct d as [|d1 [|d2 [|d3 d]]]; rewrite ?Hs; close_tests.
  - cbn [rstrip]. rewrite IH.
    destruct a as [|y [|z a]]; cbn [append].
    + destruct d as [|d1 [|d2 d]]; close_tests.
    + destruct d as [|d1 d]; close_tests.
    + destruct a; reflexivity.
Qed.

Lemma rstrip_space_end (s : string) (c : ascii) :
  is_space c = true -> rstrip (s ++ String c "") = rstrip s.
Proof.
  intros Hc. induction s as [|x s IH]; cbn [append rstrip].
  - now rewrite Hc.
  - now rewrite IH.
Qed.

Lemma no_space_no_newline (s : string) :
  has_space s = false -> contains newline s = false.
Proof.
  induction s as [|c s IH]; [reflexivity|]. intros H.
  pose proof (has_space_head _ H) as Hh. apply has_space_tail in H.
  cbn [contains]. rewrite (IH H), orb_false_r.
  destruct (Ascii.eqb_spec c newline) as [->|]; [|reflexivity].
  destruct s; discriminate Hh.
Qed.

Lemma contains_app (c : ascii) (a b : string) :
  contains c (a ++ b) = contains c a || contains c b.
Proof.
  induction a as [|x a IH]; cbn [append contains]; [reflexivity|].
  now rewrite IH, orb_assoc.
Qed.

Lemma split_on_app_sep (sep : ascii) (a b : string) :
  contains sep a = false ->
  split_on sep (a ++ String sep b) = a :: split_on sep b.
Proof.
  intros Ha. induction a as [|c a IH]; cbn [append split_on contains] in *.
  - now rewrite Ascii.eqb_refl.
  - apply orb_false_iff in Ha as [-> Ha]. now rewrite (IH Ha).
Qed.

Lemma split_first_join (sep : ascii) (a b : string) :
  contains sep a = false -> split_first sep (a ++ String sep b) = (a, b).
Proof.
  intros Ha. induction a as [|c a IH]; cbn [append split_first contains] in *.
  - now rewrite Ascii.eqb_refl.
  - apply orb_false_iff in Ha as [-> Ha]. now rewrite (IH Ha).
Qed.

(** [split(sep, 1)] on a string that holds the separator: the two parts
    give the string back, and the first holds no separator. *)
Lemma split_first_spec (sep : ascii) (s : string) :
  contains sep s = true ->
  s = (fst (split_first sep s) ++ String sep (snd (split_first sep s)))%string
  /\ contains sep (fst (split_first sep s)) = false.
Proof.
  induction s as [|c s IH]; cbn [contains split_first]; [discriminate|].
  destruct (Ascii.eqb_spec c sep) as [->|Hc]; cbn [orb].
  - now split.
  - intros Hs. destruct (IH Hs) as [Heq Hno].
    destruct (split_first sep s) as [a b]. cbn [fst snd append contains] in *.
    split; [now rewrite <- Heq|].
    rewrite Hno. destruct (Ascii.eqb_spec c sep); [contradiction | reflexivity].
Qed.

Lemma bar_plain : (nat_of_ascii bar < 128)%nat /\ is_space bar = false.
Proof. split; [apply Nat.ltb_lt|]; reflexivity. Qed.

Lemma commit_line_no_newline (c : string * string) :
  clean_commit c -> contains newline (commit_line c) = false.
Proof.
  intros (Hs & Hd & _). unfold commit_line.
  rewrite contains_app. cbn [contains].
  now rewrite (no_space_no_newline _ Hs), (no_space_no_newline _ Hd).
Qed.

Lemma join_cons (sep p q : string) (ps : list string) :
  join sep (p :: q :: ps) = (p ++ sep ++ join sep (q :: ps))%string.
Proof. reflexivity. Qed.

(** The lines of clean commits, joined: the text starts with a hash and a
    bar, and ends with a bar and a date. *)
Lemma join_lines_clean (commits : list (string * string)) :
  commits <> [] -> Forall clean_commit commits ->
  (exists h u, lines (map commit_line commits) = (h ++ String bar u)%string
               /\ has_space h = false)
  /\ (exists a d, lines (map commit_line commits) = (a ++ String bar d)%string
                  /\ has_space d = false).
Proof.
  unfold lines. induction commits as [|c commits IH]; [easy|]. intros _ Hall.
  apply Forall_cons_iff in Hall as [(Hs & Hd & _) Hrest].
  destruct commits as [|c' commits].
  - cbn [map join]. unfold commit_line. split; now eexists _, _.
  - destruct (IH ltac:(discriminate) Hrest) as (_ & a & d & Hjoin & Hdate).
    cbn [map] in *. rewrite join_cons, Hjoin. unfold commit_line. split.
    + exists (fst c). eexists. split; [|exact Hs].
      rewrite append_assoc. cbn [append]. reflexivity.
    + exists (fst c ++ String bar (snd c) ++ String newline a)%string, d.
      split; [|exact Hdate].
      rewrite !append_assoc. cbn [append]. reflexivity.
Qed.

Lemma split_lines (ls : list string) :
  ls <> [] -> Forall (fun l => contains newline l = false) ls ->
  split_on newline (lines ls) = ls.
Proof.
  unfold lines. induction ls as [|l ls IH]; [easy|]. intros _ Hall.
  inversion Hall as [|? ? Hl Hrest]; subst.
  destruct ls as [|l' ls]; cbn [join].
  - now apply split_on_none.
  - cbn [append]. rewrite (split_on_app_sep newline l _ Hl).
    f_equal. now apply IH.
Qed.

Lemma cut_commit_lines (commits : list (string * string)) :
  Forall clean_commit commits ->
  map (split_first bar) (filter (contains bar) (map commit_line commits)) = commits.
Proof.
  induction 1 as [|c cs (Hs & Hd & Hb) _ IH]; [reflexivity|].
  cbn [map filter]. unfold commit_line at 1. rewrite contains_join.
  cbn [map]. unfold commit_line at 1. rewrite (split_first_join bar _ _ Hb).
  rewrite <- surjective_pairing. now f_equal.
Qed.

(** X5.  On the output of [git log] for a list of commits, one line
    [hash|date] each and a final newline, hashes and dates without
    whitespace and hashes without bar, [get_all_commits] returns these
    commits, in order, and logs nothing. *)
Theorem get_all_commits_round_trip (E : env) (commits : list (string * string)) :
  Forall clean_commit commits ->
  git_log E = Ok (lines (map commit_line commits) ++ String newline "")%string ->
  get_all_commits E = (Returned commits, []).
Proof.
  intros Hall Hlog. unfold get_all_commits, parse_commit_lines. rewrite Hlog.
  unfold ret. do 2 f_equal.
  destruct commits as [|c commits]; [reflexivity|].
  destruct (join_lines_clean (c :: commits) ltac:(discriminate) Hall)
    as ((h & u & Hhead & Hh) & (a & d & Htail & Hd)).
  destruct bar_plain as [Hbar Hbar'].
  assert (Hstrip : strip (lines (map commit_line (c :: commits)) ++ String newline "")
                   = lines (map commit_line (c :: commits))).
  { unfold strip. rewrite lstrip_none.
    - rewrite rstrip_space_end by reflexivity. rewrite Htail.
      now apply rstrip_barrier.
    - rewrite Hhead, append_assoc. cbn [append]. now apply space_prefix_barrier. }
  rewrite Hstrip, split_lines.
  - now apply cut_commit_lines.
  - discriminate.
  - apply Forall_map. refine (Forall_impl _ _ Hall).
    intros c0 Hc0. now apply commit_line_no_newline.
Qed.

Lemma get_all_commits_round_trip_witness :
  get_all_commits
    (table_env (mk_tables
       (Ok (lines (map commit_line
                     [("4f2a9c", "2024-03-01T10:01:00+01:00");
                      ("b81e07", "2024-03-01T10:06:00+01:00")])
            ++ String newline "")%string) [] [] [] [] []))
  = (Returned [("4f2a9c", "2024-03-01T10:01:00+01:00");
               ("b81e07", "2024-03-01T10:06:00+01:00")], []).
Proof.
  apply get_all_commits_round_trip; [|reflexivity].
  repeat constructor.
Defined.

(** X6.  When [git log] fails, [get_all_commits] logs two errors and leaves
    through [sys.exit(1)].  When it succeeds, nothing is logged, and every
    commit returned is a line of the stripped output cut at its first bar:
    the hash holds no bar, hash, bar and date give the line back; a line
    without bar gives no commit. *)
Theorem get_all_commits_outcomes (E : env) :
  (git_log E = Err CalledProcessError ->
   get_all_commits E = (Exited 1, [Log_git_failed; Log_git_hint]))
  /\ (forall stdout, git_log E = Ok stdout ->
        exists commits,
          get_all_commits E = (Returned commits, []) /\
          map commit_line commits
          = filter (contains bar) (split_on newline (strip stdout)) /\
          Forall (fun c => contains bar (fst c) = false) commits).
Proof.
  unfold get_all_commits, parse_commit_lines. split; [now intros ->|].
  intros stdout ->. eexists. split; [reflexivity|].
  induction (split_on newline (strip stdout)) as [|l ls [IHmap IHall]];
    [now split|].
  cbn [filter]. destruct (contains bar l) eqn:Hl; [|now split].
  destruct (split_first_spec bar l Hl) as [Heq Hno]. cbn [map]. split.
  - unfold commit_line at 1. now rewrite <- Heq, IHmap.
  - now constructor.
Qed.

Lemma get_all_commits_outcomes_witness :
  get_all_commits (table_env (mk_tables (Err CalledProcessError) [] [] [] [] []))
    = (Exited 1, [Log_git_failed; Log_git_hint])
  /\ exists commits,
       get_all_commits (table_env history) = (Returned commits, []) /\
       Forall (fun c => contains bar (fst c) = false) commits.
Proof.
  split.
  - apply (proj1 (get_all_commits_outcomes
                    (table_env (mk_tables (Err CalledProcessError) [] [] [] [] [])))).
    reflexivity.
  - destruct (proj2 (get_all_commits_outcomes (table_env history)) _ eq_refl)
      as (commits & Hrun & _ & Hall).
    exists commits. split; [exact Hrun | exact Hall].
Defined.

(* ===================================================================== *)
(** ** Order and size of the merged mapping *)

Lemma pd_keys_set_cases {V : Type} (k : string) (v : V) (d : pydict V) :
  pd_keys (pd_set k v d)
  = if existsb (String.eqb k) (pd_keys d) then pd_keys d else pd_keys d ++ [k].
Proof.
  unfold pd_keys. induction d as [|[k' v'] d IH]; cbn [pd_set map existsb fst];
    [reflexivity|].
  rewrite (String.eqb_sym k k').
  destruct (String.eqb_spec k' k) as [->|Hne]; cbn [map orb fst]; [reflexivity|].
  rewrite IH. now destruct (existsb (String.eqb k) (map fst d)).
Qed.

Lemma pd_set_length {V : Type} (k : string) (v : V) (d : pydict V) :
  (List.length (pd_set k v d) <= S (List.length d))%nat.
Proof.
  induction d as [|[k' v'] d IH]; cbn [pd_set List.length]; [lia|].
  destruct (String.eqb k' k); cbn [List.length]; lia.
Qed.

Section MergedMapping.

Variable E : env.

Lemma merge_records_keys (ds : list (pydict json)) (m : pydict (pydict json)) :
  pd_keys (fold_left (merge_record E) ds m)
  = fold_left (fun acc k => if existsb (String.eqb k) acc then acc else acc ++ [k])
      (identities E ds) (pd_keys m).
Proof.
  unfold identities. revert m.
  induction ds as [|d ds IH]; intros m; cbn [fold_left map filter]; [reflexivity|].
  rewrite IH. unfold merge_record.
  destruct (identity E d =? ""); cbn [negb fold_left]; [reflexivity|].
  now rewrite pd_keys_set_cases.
Qed.

Lemma merge_records_length (ds : list (pydict json)) (m : pydict (pydict json)) :
  (List.length (fold_left (merge_record E) ds m) <= List.length m + List.length ds)%nat.
Proof.
  revert m. induction ds as [|d ds IH]; intros m; cbn [fold_left List.length]; [lia|].
  specialize (IH (merge_record E m d)).
  assert (List.length (merge_record E m d) <= S (List.length m))%nat; [|lia].
  unfold merge_record. destruct (identity E d =? ""); [lia | apply pd_set_length].
Qed.

(** The run of the merge stage on snapshots that are lists of objects. *)
Lemma merge_all_run (commits : list (string * string))
    (snapshots : list (list (pydict json))) (log0 : list log_entry) :
  get_all_commits E = (Returned commits, log0) ->
  Forall2 (fun c snap => fst (extract_events_from_commit E (fst c))
                         = Returned (map JDict snap)) commits snapshots ->
  exists l,
    extract_all_events E None None
    = (Returned (fold_left (merge_record E) (List.concat snapshots) []),
       (log0 ++ Log_found_commits (List.length commits) :: l)
       ++ [Log_total_extracted (List.length (List.concat snapshots));
           Log_unique_events
             (List.length (fold_left (merge_record E) (List.concat snapshots) []))]).
Proof.
  intros Hcommits Hsnaps.
  rewrite extract_all_events_unfiltered. unfold merge_all. rewrite Hcommits.
  destruct (merge_commits_fold E commits snapshots Hsnaps ([], 0%nat)) as [l Hl].
  cbn [bind logger]. rewrite Hl. cbn [bind logger fst snd ret].
  exists l. f_equal. cbn [app Nat.add]. now rewrite <- app_assoc.
Qed.

End MergedMapping.

(** X7.  On a history whose snapshots are lists of objects,
    [extract_all_events] without date filter ends its log with the two
    counts: the number of records of all snapshots together, and the number
    of entries of the mapping it returns; the second is at most the
    first. *)
Theorem merge_counts (E : env) (commits : list (string * string))
    (snapshots : list (list (pydict json))) (log0 : list log_entry) :
  get_all_commits E = (Returned commits, log0) ->
  Forall2 (fun c snap => fst (extract_events_from_commit E (fst c))
                         = Returned (map JDict snap)) commits snapshots ->
  exists merged log,
    extract_all_events E None None
    = (Returned merged,
       log ++ [Log_total_extracted (List.length (List.concat snapshots));
               Log_unique_events (List.length merged)]) /\
    (List.length merged <= List.length (List.concat snapshots))%nat.
Proof.
  intros Hcommits Hsnaps.
  destruct (merge_all_run E commits snapshots log0 Hcommits Hsnaps) as [l Hrun].
  eexists _, _. split; [exact Hrun|].
  apply (merge_records_length E (List.concat snapshots) []).
Qed.

(** X8.  On a history whose snapshots are lists of objects, the keys of the
    mapping [extract_all_events] returns are the non-empty identities of the
    records, each once, in the order in which they first occur in the
    history: a later version replaces the record and keeps its place. *)
Theorem merge_key_order (E : env) (commits : list (string * string))
    (snapshots : list (list (pydict json))) (log0 : list log_entry) :
  get_all_commits E = (Returned commits, log0) ->
  Forall2 (fun c snap => fst (extract_events_from_commit E (fst c))
                         = Returned (map JDict snap)) commits snapshots ->
  exists merged log,
    extract_all_events E None None = (Returned merged, log) /\
    pd_keys merged = first_seen (identities E (List.concat snapshots)).
Proof.
  intros Hcommits Hsnaps.
  destruct (merge_all_run E commits snapshots log0 Hcommits Hsnaps) as [l Hrun].
  eexists _, _. split; [exact Hrun|].
  apply (merge_records_keys E (List.concat snapshots) []).
Qed.

Lemma merge_counts_witness :
  exists merged log,
    extract_all_events (table_env history) None None
    = (Returned merged, log ++ [Log_total_extracted 7; Log_unique_events (List.length merged)])
    /\ (List.length merged <= 7)%nat.
Proof.
  apply (merge_counts (table_env history) history_commits history_snapshots []
           eq_refl).
  repeat constructor.
Defined.

Lemma merge_key_order_witness :
  exists merged log,
    extract_all_events (table_env history) None None = (Returned merged, log)
    /\ pd_keys merged = ["123"; "456"; "789"].
Proof.
  apply (merge_key_order (table_env history) history_commits history_snapshots []
           eq_refl).
  repeat constructor.
Defined.

(* ===================================================================== *)
(** ** The date filter as a sublist *)

Lemma pd_set_fresh {V : Type} (k : string) (v : V) (d : pydict V) :
  ~ In k (pd_keys d) -> pd_set k v d = d ++ [(k, v)].
Proof.
  unfold pd_keys. induction d as [|[k0 v0] d IH]; cbn [pd_set map app]; intros H;
    [reflexivity|].
  destruct (String.eqb_spec k0 k) as [->|Hk0]; [exfalso; apply H; now left|].
  f_equal. apply IH. intros Hin. apply H. now right.
Qed.

Lemma fold_keep_sublist (E : env) (start_date end_date : option datetime)
    (events acc : pydict (pydict json)) :
  NoDup (pd_keys events) ->
  (forall k, In k (pd_keys events) -> ~ In k (pd_keys acc)) ->
  fold_left (keep_item E start_date end_date) events acc
  = acc ++ kept E start_date end_date events.
Proof.
  unfold kept. revert acc.
  induction events as [|[k ev] events IH]; intros acc Hnd Hfresh;
    cbn [fold_left filter]; [now rewrite app_nil_r|].
  unfold pd_keys in Hnd. cbn [map fst] in Hnd.
  inversion Hnd as [|? ? Hk Hnd']; subst.
  unfold keep_item at 2. cbn [fst snd].
  destruct (is_keep (classify E start_date end_date ev)).
  - rewrite pd_set_fresh by (apply Hfresh; now left).
    rewrite IH; [now rewrite <- app_assoc | exact Hnd'|].
    intros k' Hk' Hin. unfold pd_keys in Hin. rewrite map_app in Hin.
    apply in_app_or in Hin as [Hin|[<-|[]]].
    + apply (Hfresh k'); [now right | exact Hin].
    + now apply Hk.
  - apply IH; [exact Hnd'|]. intros k' Hk'. apply Hfresh. now right.
Qed.

(** X9.  With a date filter that raises on no record, [extract_all_events]
    returns the entries of the merged mapping that the filter keeps, as
    they are and in the order of the merged mapping: it adds no entry,
    changes none and moves none. *)
Theorem date_filter_sublist (E : env) (start_date end_date : option datetime)
    (events : pydict (pydict json)) (log0 : list log_entry) :
  merge_all E = (Returned events, log0) ->
  start_date <> None \/ end_date <> None ->
  Forall (fun kv => is_abort (classify E start_date end_date (snd kv)) = false) events ->
  exists log,
    extract_all_events E start_date end_date
    = (Returned (kept E start_date end_date events), log).
Proof.
  intros Hmerge Hactive Hok.
  destruct (merge_all_keyed E events log0 Hmerge) as [_ Hnd].
  assert (Hrun : extract_all_events E start_date end_date
                 = bind (Returned events, log0)
                     (fun m => date_filter E start_date end_date m)).
  { unfold extract_all_events. rewrite Hmerge.
    destruct start_date, end_date; try reflexivity. now destruct Hactive. }
  rewrite Hrun. cbn [bind].
  rewrite (date_filter_returns E start_date end_date events Hok).
  rewrite (fold_keep_sublist E start_date end_date events [] Hnd (fun _ _ H => H)).
  now eexists.
Qed.

Lemma date_filter_sublist_witness :
  exists log,
    extract_all_events (table_env history)
      (Some (mk_datetime 2024 1 1 0 0 0 0 None))
      (Some (mk_datetime 2024 6 30 23 59 59 0 None))
    = (Returned [("123", event_123_B); ("789", event_789)], log).
Proof.
  apply (date_filter_sublist (table_env history)
           (Some (mk_datetime 2024 1 1 0 0 0 0 None))
           (Some (mk_datetime 2024 6 30 23 59 59 0 None))
           [("123", event_123_B); ("456", event_456); ("789", event_789)]
           [Log_found_commits 6; Log_invalid_json "c2"; Log_no_events_json "c5";
            Log_total_extracted 7; Log_unique_events 3]
           eq_refl).
  - left. discriminate.
  - repeat constructor.
Defined.

(* ===================================================================== *)
(** ** More on enrichment *)

Lemma pd_set_same {V : Type} (k : string) (v : V) (d : pydict V) :
  pd_get k d = Some v -> pd_set k v d = d.
Proof.
  induction d as [|[k' v'] d IH]; cbn [pd_get pd_set]; [discriminate|].
  destruct (String.eqb_spec k' k) as [->|Hne]; intros H.
  - now injection H as ->.
  - now rewrite (IH H).
Qed.

Section EnrichmentMore.

Variable E : env.

Lemma set_unavailable_fixed (event : pydict json) :
  unavailable event -> set_unavailable event = event.
Proof.
  intros [Hflag Hnull]. unfold narrative_fields in Hnull.
  inversion Hnull as [|? ? Ht H1]; subst. inversion H1 as [|? ? Hp H2]; subst.
  inversion H2 as [|? ? Hb H3]; subst. inversion H3 as [|? ? Hd H4]; subst.
  inversion H4 as [|? ? Ha _]; subst.
  unfold set_unavailable, marker_key in *.
  rewrite (pd_set_same _ _ _ Hflag), (pd_set_same _ _ _ Ht), (pd_set_same _ _ _ Hp),
    (pd_set_same _ _ _ Hb), (pd_set_same _ _ _ Hd).
  now apply pd_set_same.
Qed.

Lemma set_unavailable_not_available (event : pydict json) :
  is_available (set_unavailable event) = false.
Proof.
  unfold is_available. now rewrite (proj1 (set_unavailable_unavailable event)).
Qed.

Lemma update_is_available (event data : pydict json) (html_path : string) :
  extract_html_data E html_path = Ok data ->
  is_available (pd_update event data) = true.
Proof.
  intros Hx. unfold is_available. now rewrite (update_available E _ _ _ Hx).
Qed.

Lemma set_unavailable_frame (event : pydict json) (k : string) :
  ~ In k (marker_key :: narrative_fields) ->
  pd_get k (set_unavailable event) = pd_get k event.
Proof.
  intros Hk. unfold set_unavailable.
  rewrite !pd_get_set_neq; [reflexivity | |  | | | |];
    intros <-; apply Hk; cbn; tauto.
Qed.

Lemma update_frame (event data : pydict json) (html_path k : string) :
  extract_html_data E html_path = Ok data ->
  ~ In k (marker_key :: narrative_fields) ->
  pd_get k (pd_update event data) = pd_get k event.
Proof.
  intros H Hk. apply extract_html_data_shape in H as (t & p & b & d & a & ->).
  unfold pd_update. cbn [fold_left fst snd].
  rewrite !pd_get_set_neq; [reflexivity | |  | | | |];
    intros <-; apply Hk; cbn; tauto.
Qed.

Lemma update_fixed (event data : pydict json) (html_path : string) :
  extract_html_data E html_path = Ok data ->
  pd_update (pd_update event data) data = pd_update event data.
Proof.
  intros H. apply extract_html_data_shape in H as (t & p & b & d & a & ->).
  unfold pd_update. cbn [fold_left fst snd].
  match goal with |- _ = ?R => set (Y := R) end.
  assert (Ht : pd_get "html_title" Y = Some t)
    by (unfold Y; rewrite !pd_get_set_neq by discriminate; apply pd_get_set_eq).
  assert (Hp : pd_get "html_preamble" Y = Some p)
    by (unfold Y; rewrite !pd_get_set_neq by discriminate; apply pd_get_set_eq).
  assert (Hb : pd_get "html_body" Y = Some b)
    by (unfold Y; rewrite !pd_get_set_neq by discriminate; apply pd_get_set_eq).
  assert (Hd : pd_get "html_published_datetime" Y = Some d)
    by (unfold Y; rewrite !pd_get_set_neq by discriminate; apply pd_get_set_eq).
  assert (Ha : pd_get "html_author" Y = Some a)
    by (unfold Y; rewrite !pd_get_set_neq by discriminate; apply pd_get_set_eq).
  assert (Hf : pd_get "html_available" Y = Some (JBool true))
    by (unfold Y; apply pd_get_set_eq).
  clearbody Y.
  rewrite (pd_set_same _ _ _ Ht), (pd_set_same _ _ _ Hp), (pd_set_same _ _ _ Hb),
    (pd_set_same _ _ _ Hd), (pd_set_same _ _ _ Ha).
  now apply pd_set_same.
Qed.

(** A second pass of the loop body over a record it has treated changes
    nothing. *)
Lemma enrich_event_fixed (html_dir : string) (c c' : counters)
    (event_id : string) (event : pydict json)
    (r : pydict json * counters) (l : list log_entry) :
  enrich_event E html_dir c (event_id, event) = (Returned r, l) ->
  exists c2 l2,
    enrich_event E html_dir c' (event_id, fst r) = (Returned (fst r, c2), l2).
Proof.
  intros H.
  destruct (enrich_event_returned E _ _ _ _ _ _ H)
    as [(Hp & -> & _)|[(e & Hp & Hx & -> & _)|(data & Hp & Hx & -> & _)]];
    cbn [fst]; unfold enrich_event; rewrite Hp; try rewrite Hx;
    cbn [bind logger ret app].
  - rewrite set_unavailable_fixed by apply set_unavailable_unavailable.
    now eexists _, _.
  - rewrite set_unavailable_fixed by apply set_unavailable_unavailable.
    now eexists _, _.
  - rewrite (update_fixed _ _ _ Hx). now eexists _, _.
Qed.

Lemma enrich_loop_fixed (html_dir : string) (items : pydict (pydict json))
    (c : counters) (r : pydict (pydict json) * counters) (l : list log_entry) :
  enrich_loop E html_dir items c = (Returned r, l) ->
  forall c', exists c2 l2,
      enrich_loop E html_dir (fst r) c' = (Returned (fst r, c2), l2).
Proof.
  revert c r l. induction items as [|[event_id event] items IH]; intros c r l Hrun c'.
  - injection Hrun as <- _. now eexists _, _.
  - apply enrich_loop_cons in Hrun
      as (event' & c1 & l1 & rest' & l2 & Hev & Hrest & -> & _).
    destruct (enrich_event_fixed html_dir c c' _ _ _ _ Hev) as (c2 & l3 & Hev2).
    destruct (IH _ _ _ Hrest c2) as (c3 & l4 & Hrest2).
    cbn [fst snd] in *. cbn [enrich_loop]. rewrite Hev2. cbn [bind snd].
    rewrite Hrest2. cbn [bind ret fst snd]. now eexists _, _.
Qed.

(** The counters and the log of the loop. *)
Lemma enrich_loop_counts (html_dir : string) (items items' : pydict (pydict json))
    (c c' : counters) (l : list log_entry) :
  enrich_loop E html_dir items c = (Returned (items', c'), l) ->
  processed_count c'
  = (processed_count c
     + List.length (filter (fun kv => is_available (snd kv)) items'))%nat
  /\ (missing_count c' + error_count c'
      = missing_count c + error_count c
        + List.length (filter (fun kv => negb (is_available (snd kv))) items'))%nat
  /\ (missing_count c' + error_count c'
      = missing_count c + error_count c + List.length l)%nat
  /\ List.length items' = List.length items.
Proof.
  revert c items' c' l.
  induction items as [|[event_id event] items IH]; intros c items' c' l Hrun.
  - injection Hrun as <- <- <-. cbn. lia.
  - apply enrich_loop_cons in Hrun
      as (event' & c1 & l1 & rest' & l2 & Hev & Hrest & Hitems & ->).
    cbn [fst snd] in *. subst items'.
    destruct (IH _ _ _ _ Hrest) as (Hp & Hu & Hl & Hn).
    destruct (enrich_event_returned E _ _ _ _ _ _ Hev)
      as [(Hpe & Heq & ->)|[(e & Hpe & Hx & Heq & ->)|(data & Hpe & Hx & Heq & ->)]];
      injection Heq as -> ->; cbn [filter snd];
      rewrite ?set_unavailable_not_available, ?(update_is_available _ _ _ Hx);
      cbn [negb List.length app missing_count processed_count error_count] in *;
      lia.
Qed.

End EnrichmentMore.

(** X10.  A returning [enrich_with_html] ends its log with the three
    counts; they add up to the number of records, the first is the number
    of records that end with [html_available] true, and the two others
    together are the number of records logged before the summary, one
    warning or error for every record that ends with [html_available]
    false. *)
Theorem enrich_summary_counts (E : env) (events events' : pydict (pydict json))
    (html_dir : string) (log : list log_entry) :
  enrich_with_html E events html_dir = (Returned events', log) ->
  exists l processed missing errors,
    log = (l ++ [Log_html_summary processed missing errors])%list /\
    (processed + missing + errors = List.length events)%nat /\
    processed = List.length (filter (fun kv => is_available (snd kv)) events') /\
    (missing + errors)%nat
    = List.length (filter (fun kv => negb (is_available (snd kv))) events') /\
    (missing + errors)%nat = List.length l.
Proof.
  intros Hrun. apply enrich_with_html_returned in Hrun as (c & l & Hloop & ->).
  apply enrich_loop_counts in Hloop.
  cbn [missing_count processed_count error_count Nat.add] in Hloop.
  destruct Hloop as (Hp & Hu & Hl & Hn).
  exists l, (processed_count c), (missing_count c), (error_count c).
  split; [reflexivity|]. repeat split; try assumption.
  rewrite <- Hn, <- (filter_length (fun kv => is_available (snd kv)) events').
  lia.
Qed.

Lemma enrich_summary_counts_witness :
  exists events' l processed missing errors,
    enrich_with_html (table_env history)
      [("123", event_123_B); ("456", event_456); ("789", event_789)] "html"
    = (Returned events', (l ++ [Log_html_summary processed missing errors])%list) /\
    (processed + missing + errors = 3)%nat /\ (missing + errors)%nat = List.length l.
Proof.
  destruct (enrich_summary_counts (table_env history)
              [("123", event_123_B); ("456", event_456); ("789", event_789)]
              _ "html" _ eq_refl)
    as (l & processed & missing & errors & Hlog & Hsum & _ & _ & Hlen).
  eexists _, l, processed, missing, errors.
  split; [rewrite <- Hlog; reflexivity|]. split; [exact Hsum | exact Hlen].
Defined.

(** X11.  [enrich_with_html] touches six keys of a record and no other:
    in the mapping it returns, under every key that is none of the five
    narrative keys and not [html_available], a record holds what it held
    before. *)
Theorem enrich_touches_six_keys (E : env) (events events' : pydict (pydict json))
    (html_dir : string) (log : list log_entry) :
  enrich_with_html E events html_dir = (Returned events', log) ->
  Forall2 (fun item item' =>
             fst item' = fst item /\
             forall k, ~ In k (marker_key :: narrative_fields) ->
                       pd_get k (snd item') = pd_get k (snd item))
          events events'.
Proof.
  intros Hrun. refine (enrich_with_html_Forall2 E html_dir _ _ _ _ _ Hrun).
  intros c [event_id event] r l Hev. cbn [fst snd].
  split; [reflexivity|]. intros k Hk.
  destruct (enrich_event_returned E _ _ _ _ _ _ Hev)
    as [(Hp & -> & _)|[(e & Hp & Hx & -> & _)|(data & Hp & Hx & -> & _)]]; cbn [fst].
  - now apply set_unavailable_frame.
  - now apply set_unavailable_frame.
  - now apply (update_frame E _ _ _ _ Hx).
Qed.

Lemma enrich_touches_six_keys_witness :
  exists events' log r,
    enrich_with_html (table_env history) [("456", event_456)] "html"
    = (Returned events', log) /\
    events' = [("456", r)] /\ pd_get "name" r = Some (JStr "C").
Proof.
  assert (Hrun : exists events' log,
             enrich_with_html (table_env history) [("456", event_456)] "html"
             = (Returned events', log)) by (eexists _, _; reflexivity).
  destruct Hrun as (events' & log & Hrun).
  pose proof (enrich_touches_six_keys (table_env history) _ _ _ _ Hrun) as Hrel.
  inversion Hrel as [|x1 [k1 r1] l1 l1' (Hk1 & Hframe) Hrel1]; subst.
  inversion Hrel1; subst. cbn [fst snd] in *. subst k1.
  exists [("456", r1)], log, r1. split; [exact Hrun|]. split; [reflexivity|].
  rewrite (Hframe "name"); [reflexivity|].
  cbn. intros [H|[H|[H|[H|[H|[H|[]]]]]]]; discriminate H.
Defined.

(** X12.  Enriching again what [enrich_with_html] returned, with the same
    documents, returns the same mapping. *)
Theorem enrich_idempotent (E : env) (events events' : pydict (pydict json))
    (html_dir : string) (log : list log_entry) :
  enrich_with_html E events html_dir = (Returned events', log) ->
  exists log', enrich_with_html E events' html_dir = (Returned events', log').
Proof.
  intros Hrun. apply enrich_with_html_returned in Hrun as (c & l & Hloop & _).
  destruct (enrich_loop_fixed E _ _ _ _ _ Hloop (mk_counters 0 0 0))
    as (c2 & l2 & Hagain).
  cbn [fst] in Hagain. unfold enrich_with_html. rewrite Hagain.
  cbn [bind logger ret fst snd]. now eexists.
Qed.

Lemma enrich_idempotent_witness :
  exists events' log log',
    enrich_with_html (table_env history)
      [("123", event_123_B); ("456", event_456); ("789", event_789)] "html"
    = (Returned events', log) /\
    enrich_with_html (table_env history) events' "html" = (Returned events', log').
Proof.
  destruct (enrich_idempotent (table_env history)
              [("123", event_123_B); ("456", event_456); ("789", event_789)]
              _ "html" _ eq_refl) as [log' Hagain].
  eexists _, _, log'. split; [reflexivity | exact Hagain].
Defined.

(** *** When enrichment returns *)

Section EnrichmentOutcome.

Variable E : env.
Variable html_dir : string.

Lemma enrich_loop_probed (items : pydict (pydict json)) (c : counters)
    (r : pydict (pydict json) * counters) (l : list log_entry) :
  enrich_loop E html_dir items c = (Returned r, l) ->
  Forall (probed E html_dir) items.
Proof.
  revert c r l. induction items as [|item items IH]; intros c r l Hrun;
    [constructor|].
  apply enrich_loop_cons in Hrun
    as (event' & c' & l1 & rest' & l2 & Hev & Hrest & _).
  constructor.
  - apply (enrich_event_returns E html_dir c item).
    exists (event', c'), l1. exact Hev.
  - exact (IH _ _ _ Hrest).
Qed.

Lemma enrich_loop_raises (before after : pydict (pydict json))
    (item : string * pydict json) (e : exn) :
  Forall (probed E html_dir) before ->
  path_exists E (path_join E html_dir (fst item ++ ".html")) = Err e ->
  forall c, exists l,
      enrich_loop E html_dir (before ++ item :: after) c = (Raised e, l)
      /\ (List.length l <= List.length before)%nat.
Proof.
  intros Hbefore Hitem.
  induction Hbefore as [|[event_id event] before Hhead _ IH]; intros c;
    cbn [app enrich_loop].
  - rewrite (enrich_event_raised E html_dir c item e Hitem). now exists [].
  - apply (enrich_event_returns E html_dir c) in Hhead as ([event' c'] & l1 & Hev).
    rewrite Hev. cbn [bind snd]. destruct (IH c') as (l2 & -> & Hlen).
    exists (l1 ++ l2)%list. split; [reflexivity|].
    rewrite length_app. cbn [List.length].
    destruct (enrich_event_returned E _ _ _ _ _ _ Hev)
      as [(_ & _ & ->)|[(e0 & _ & _ & _ & ->)|(data & _ & _ & _ & ->)]];
      cbn [List.length]; lia.
Qed.

Lemma enrich_loop_never_exits (items : pydict (pydict json)) (c : counters)
    (code : Z) (l : list log_entry) :
  enrich_loop E html_dir items c <> (Exited code, l).
Proof.
  revert c l. induction items as [|item items IH]; intros c l;
    cbn [enrich_loop]; [discriminate|].
  destruct (path_exists E (path_join E html_dir (fst item ++ ".html")))
    as [found|e0] eqn:Hp.
  - assert (Hitem : probed E html_dir item) by now exists found.
    apply (enrich_event_returns E html_dir c) in Hitem as (r & l1 & ->).
    cbn [bind]. specialize (IH (snd r)).
    destruct (enrich_loop E html_dir items (snd r)) as [[rs|e|code'] l2];
      cbn [bind ret]; try discriminate.
    intros H. injection H as -> _. now apply (IH l2).
  - rewrite (enrich_event_raised E html_dir c item e0 Hp). discriminate.
Qed.

End EnrichmentOutcome.

(** X23.  [enrich_with_html] returns exactly when [html_path.exists()]
    returns for the document of every record.  When it raises for the
    document of some record, after returning for those before it, the
    [OSError] leaves [enrich_with_html]: the records before are treated, at
    most one log record each, the records after are not, and no summary is
    logged.  [enrich_with_html] never leaves through [sys.exit]. *)
Theorem enrich_returns_or_raises (E : env) (events : pydict (pydict json))
    (html_dir : string) :
  ((exists events' log, enrich_with_html E events html_dir = (Returned events', log))
   <-> Forall (probed E html_dir) events)
  /\ (forall before item after e,
        events = before ++ item :: after ->
        Forall (probed E html_dir) before ->
        path_exists E (path_join E html_dir (fst item ++ ".html")) = Err e ->
        exists log,
          enrich_with_html E events html_dir = (Raised e, log)
          /\ (List.length log <= List.length before)%nat)
  /\ (forall code log, enrich_with_html E events html_dir <> (Exited code, log)).
Proof.
  split; [split|split].
  - intros (events' & log & Hrun).
    apply enrich_with_html_returned in Hrun as (c & l & Hloop & _).
    exact (enrich_loop_probed E html_dir _ _ _ _ Hloop).
  - apply enrich_with_html_returns.
  - intros before item after e -> Hbefore Hitem. unfold enrich_with_html.
    destruct (enrich_loop_raises E html_dir before after item e Hbefore Hitem
                (mk_counters 0 0 0)) as (l & -> & Hlen).
    now exists l.
  - intros code log. unfold enrich_with_html.
    pose proof (enrich_loop_never_exits E html_dir events (mk_counters 0 0 0)) as Hno.
    destruct (enrich_loop E html_dir events (mk_counters 0 0 0)) as [[r| |] l];
      cbn [bind logger ret]; try discriminate.
    intros H. injection H as -> _. now apply (Hno code l).
Qed.

Lemma enrich_returns_or_raises_witness :
  exists log,
    enrich_with_html (table_env history)
      [("789", event_789); (long_id, event_long_id)] "html"
    = (Raised OSError, log)
    /\ (List.length log <= 1)%nat.
Proof.
  apply (proj1 (proj2 (enrich_returns_or_raises (table_env history)
                         [("789", event_789); (long_id, event_long_id)] "html"))
           [("789", event_789)] (long_id, event_long_id) [] OSError).
  - reflexivity.
  - apply Forall_cons; [exists false; reflexivity | apply Forall_nil].
  - reflexivity.
Defined.

(* ===================================================================== *)
(** ** More on flattening *)

Section FlattenMore.

Variable E : env.

Lemma update_values (event data : pydict json) (html_path k : string) :
  extract_html_data E html_path = Ok data ->
  In k (marker_key :: narrative_fields) ->
  pd_get k (pd_update event data) = pd_get k data /\ pd_get k data <> None.
Proof.
  intros H Hk. apply extract_html_data_shape in H as (t & p & b & d & a & ->).
  unfold pd_update. cbn [fold_left fst snd]. cbn in Hk.
  repeat (destruct Hk as [<-|Hk];
          [rewrite ?pd_get_set_neq by discriminate; rewrite pd_get_set_eq;
           split; [reflexivity | discriminate]|]).
  destruct Hk.
Qed.

End FlattenMore.

(** X13.  A flat record that [flatten_event_for_export] returns has the
    nine columns [event_id] to [longitude] in this order, followed by the
    five narrative columns and [html_available] when the record holds the
    key [html_available], and by nothing otherwise.  [event_id] is the
    identity, a string; [datetime], [name], [summary], [url] and [type] are
    what the record holds, the empty string when the key is absent; the
    narrative columns are what the record holds, [None] when a key is
    absent. *)
Theorem flat_record_schema (E : env) (event flat : pydict json)
    (log : list log_entry) :
  flatten_event_for_export E event = (Returned flat, log) ->
  pd_keys flat
  = base_columns
    ++ (if pd_mem marker_key event then narrative_fields ++ [marker_key] else [])
  /\ pd_get "event_id" flat = Some (JStr (identity E event))
  /\ (forall k, In k ["datetime"; "name"; "summary"; "url"; "type"] ->
        pd_get k flat = Some (pd_get_default k (JStr "") event))
  /\ (pd_mem marker_key event = true ->
      forall k, In k narrative_fields ->
                pd_get k flat = Some (pd_get_default k JNull event)).
Proof.
  intros Hrun. split; [|split; [|split]].
  - apply flatten_returned_form in Hrun as (location & la & lo & _ & ->).
    unfold add_html_fields. now destruct (pd_mem marker_key event).
  - apply flatten_returned_form in Hrun as (location & la & lo & _ & ->).
    unfold add_html_fields, set_coordinates.
    destruct (pd_mem marker_key event);
      rewrite ?pd_get_set_neq by discriminate; reflexivity.
  - apply flatten_returned_form in Hrun as (location & la & lo & _ & ->).
    intros k Hk. unfold add_html_fields, set_coordinates. cbn in Hk.
    destruct (pd_mem marker_key event);
      repeat (destruct Hk as [<-|Hk];
              [rewrite ?pd_get_set_neq by discriminate; reflexivity|]);
      destruct Hk.
  - intros Hmark. now apply (flat_narrative_values E event flat log Hrun Hmark).
Qed.

Lemma flat_record_schema_witness :
  exists flat log,
    flatten_event_for_export (table_env history) event_789 = (Returned flat, log) /\
    pd_keys flat = base_columns /\
    pd_get "event_id" flat = Some (JStr "789") /\
    pd_get "summary" flat = Some (JStr "").
Proof.
  eexists _, _. split; [reflexivity|].
  destruct (flat_record_schema (table_env history) event_789 _ _ eq_refl)
    as (Hkeys & Hid & Hbase & _).
  split; [exact Hkeys|]. split; [exact Hid|].
  apply (Hbase "summary"). cbn. tauto.
Defined.

(** X14.  What makes [flatten_event_for_export] raise: a [location] that is
    no object ([AttributeError]); under [gps], a number other than zero or
    [True] ([TypeError], from [',' not in gps_str]); a list that holds the
    string [","] or an object with the key [","] ([AttributeError], from
    [split]).  None of them is caught, and nothing is logged. *)
Theorem flatten_failures (E : env) (event : pydict json) :
  (forall v, pd_get "location" event = Some v -> is_dict v = false ->
             flatten_event_for_export E event = (Raised AttributeError, []))
  /\ (forall location g,
        pd_get_default "location" (JDict []) event = JDict location ->
        pd_get "gps" location = Some g -> truthy g = true ->
        (exists n, g = JInt n) \/ (exists f, g = JFloat f) \/ (exists b, g = JBool b) ->
        flatten_event_for_export E event = (Raised TypeError, []))
  /\ (forall location l,
        pd_get_default "location" (JDict []) event = JDict location ->
        pd_get "gps" location = Some (JList l) -> existsb is_comma_str l = true ->
        flatten_event_for_export E event = (Raised AttributeError, []))
  /\ (forall location d,
        pd_get_default "location" (JDict []) event = JDict location ->
        pd_get "gps" location = Some (JDict d) -> pd_mem "," d = true ->
        flatten_event_for_export E event = (Raised AttributeError, [])).
Proof.
  split; [|split; [|split]].
  - intros v Hv Hd. unfold flatten_event_for_export, pd_get_default. rewrite Hv.
    now destruct v.
  - intros location g Hloc Hg Ht Hkind.
    assert (Hgd : pd_get_default "gps" (JStr "") location = g)
      by (unfold pd_get_default; now rewrite Hg).
    unfold flatten_event_for_export. rewrite Hloc, Hgd, Ht.
    destruct Hkind as [[n ->]|[[f ->]|[b ->]]]; cbn [parse_gps_string];
      rewrite Ht; reflexivity.
  - intros location l Hloc Hg Hc.
    assert (Hgd : pd_get_default "gps" (JStr "") location = JList l)
      by (unfold pd_get_default; now rewrite Hg).
    unfold flatten_event_for_export. rewrite Hloc, Hgd.
    destruct l as [|x l]; [discriminate|].
    cbn [truthy parse_gps_string negb orb]. now rewrite Hc.
  - intros location d Hloc Hg Hc.
    assert (Hgd : pd_get_default "gps" (JStr "") location = JDict d)
      by (unfold pd_get_default; now rewrite Hg).
    unfold flatten_event_for_export. rewrite Hloc, Hgd.
    destruct d as [|x d]; [discriminate|].
    cbn [truthy parse_gps_string negb orb]. now rewrite Hc.
Qed.

Lemma flatten_failures_witness :
  flatten_event_for_export (table_env history)
    [("id", JInt 9); ("location", JStr "Sundsvall")]
    = (Raised AttributeError, [])
  /\ flatten_event_for_export (table_env history)
       [("id", JInt 9); ("location", JDict [("gps", JInt 62)])]
     = (Raised TypeError, []).
Proof.
  split.
  - apply (proj1 (flatten_failures (table_env history)
                    [("id", JInt 9); ("location", JStr "Sundsvall")])
             (JStr "Sundsvall")); reflexivity.
  - apply (proj1 (proj2 (flatten_failures (table_env history)
                           [("id", JInt 9); ("location", JDict [("gps", JInt 62)])]))
             [("gps", JInt 62)] (JInt 62)); try reflexivity.
    left. exists 62%Z. reflexivity.
Defined.

(** X15.  Enrichment followed by flattening: in the mapping
    [enrich_with_html] returns, the flat record of a record whose document
    [extract_html_data] reads holds, in its five narrative columns and
    [html_available], what [extract_html_data] returned; the flat record of
    a record whose document is absent or unreadable holds [html_available]
    false and [None] in the five columns. *)
Theorem enriched_flat_values (E : env) (events events' : pydict (pydict json))
    (html_dir : string) (log : list log_entry) :
  enrich_with_html E events html_dir = (Returned events', log) ->
  Forall2 (fun item item' =>
             forall flat l,
               flatten_event_for_export E (snd item') = (Returned flat, l) ->
               let html_path := path_join E html_dir (fst item ++ ".html") in
               (path_exists E html_path = Ok false -> unavailable flat) /\
               (forall e, path_exists E html_path = Ok true ->
                          extract_html_data E html_path = Err e ->
                          unavailable flat) /\
               (forall data, path_exists E html_path = Ok true ->
                             extract_html_data E html_path = Ok data ->
                             forall k, In k (marker_key :: narrative_fields) ->
                                       pd_get k flat = pd_get k data))
          events events'.
Proof.
  intros Hrun. refine (enrich_with_html_Forall2 E html_dir _ _ _ _ _ Hrun).
  intros c [event_id event] r lr Hev. cbn [fst snd].
  intros flat l Hflat. cbn zeta.
  destruct (enrich_event_record E _ _ _ _ _ _ Hev) as (Hmiss & Herr & Hok).
  assert (Hgone : fst r = set_unavailable event -> unavailable flat).
  { intros Heq. rewrite Heq in Hflat.
    destruct (set_unavailable_unavailable event) as [Hflag Hnull].
    assert (Hmark : pd_mem marker_key (set_unavailable event) = true)
      by (unfold pd_mem; now rewrite Hflag).
    destruct (flat_narrative_values E _ _ _ Hflat Hmark) as [Hvals Hm].
    split.
    - rewrite Hm. unfold pd_get_default. now rewrite Hflag.
    - rewrite Forall_forall in *. intros k Hk.
      rewrite (Hvals k Hk). unfold pd_get_default. now rewrite (Hnull k Hk). }
  split; [|split].
  - intros Hp. apply Hgone. now apply Hmiss.
  - intros e Hp Hx. apply Hgone. now apply (Herr e).
  - intros data Hp Hx k Hk. rewrite (Hok data Hp Hx) in Hflat.
    assert (Hmark : pd_mem marker_key (pd_update event data) = true)
      by (unfold pd_mem; now rewrite (update_available E _ _ _ Hx)).
    destruct (flat_narrative_values E _ _ _ Hflat Hmark) as [Hvals Hm].
    destruct (update_values E event data _ k Hx Hk) as [Hupd Hsome].
    destruct Hk as [<-|Hk].
    + rewrite Hm. unfold pd_get_default. rewrite Hupd.
      now destruct (pd_get marker_key data).
    + rewrite (Hvals k Hk). unfold pd_get_default. rewrite Hupd.
      now destruct (pd_get k data).
Qed.

Lemma enriched_flat_values_witness :
  exists events' log r flat l,
    enrich_with_html (table_env history) [("123", event_123_B)] "html"
    = (Returned events', log) /\
    events' = [("123", r)] /\
    flatten_event_for_export (table_env history) r = (Returned flat, l) /\
    pd_get "html_author" flat = Some (JStr "Polisen").
Proof.
  assert (Hrun : exists events' log,
             enrich_with_html (table_env history) [("123", event_123_B)] "html"
             = (Returned events', log)) by (eexists _, _; reflexivity).
  destruct Hrun as (events' & log & Hrun).
  pose proof (enriched_flat_values (table_env history) _ _ _ _ Hrun) as Hrel.
  vm_compute in Hrun. injection Hrun as <- <-.
  inversion Hrel as [|x1 y1 l1 l1' Hvals Hrel1]; subst. clear Hrel Hrel1.
  cbn [fst snd] in Hvals.
  eexists _, _, _, _, _.
  split; [reflexivity|]. split; [reflexivity|]. split; [reflexivity|].
  destruct (Hvals _ _ eq_refl) as (_ & _ & Hok).
  refine (eq_trans
            (Hok [("html_title", JStr "Trafikolycka, Sundsvall");
                  ("html_preamble", JNull);
                  ("html_body", JStr (lines ["En bil har krockat."; "Ingen skadad."]));
                  ("html_published_datetime", JStr "2024-03-01T10:05:00+01:00");
                  ("html_author", JStr "Polisen");
                  ("html_available", JBool true)]
               eq_refl eq_refl "html_author" _) eq_refl).
  cbn. tauto.
Defined.

(* ===================================================================== *)
(** ** The run as a whole *)

Section Run.

Variable E : env.

Lemma flat_event_id (event flat : pydict json) (log : list log_entry) :
  flatten_event_for_export E event = (Returned flat, log) ->
  pd_get "event_id" flat = Some (JStr (identity E event)).
Proof.
  intros Hrun. apply flatten_returned_form in Hrun as (location & la & lo & _ & ->).
  unfold add_html_fields, set_coordinates.
  destruct (pd_mem marker_key event);
    rewrite ?pd_get_set_neq by discriminate; reflexivity.
Qed.

Lemma extract_all_events_keyed (start_date end_date : option datetime)
    (events : pydict (pydict json)) (log : list log_entry) :
  extract_all_events E start_date end_date = (Returned events, log) ->
  Forall (fun kv => fst kv = identity E (snd kv)) events.
Proof.
  unfold extract_all_events. intros Hrun.
  apply bind_returned in Hrun as (merged & l1 & l2 & Hmerge & Hrun & _).
  apply merge_all_keyed in Hmerge as [Hkeyed _].
  assert (Hall : Forall (fun kv => fst kv = identity E (snd kv)) merged).
  { rewrite Forall_forall. intros [k d] Hin. now apply Hkeyed in Hin as [-> _]. }
  destruct start_date, end_date;
    try (now eapply date_filter_values; [exact Hall | exact Hrun]).
  now injection Hrun as <- _.
Qed.

(** Enrichment keeps the key and the identity of every record. *)
Lemma enrich_keeps_identity (events events' : pydict (pydict json))
    (html_dir : string) (log : list log_entry) :
  enrich_with_html E events html_dir = (Returned events', log) ->
  Forall2 (fun item item' =>
             fst item' = fst item /\ identity E (snd item') = identity E (snd item))
          events events'.
Proof.
  intros Hrun. refine (enrich_with_html_Forall2 E html_dir _ _ _ _ _ Hrun).
  intros c [event_id event] r l Hev. cbn [fst snd].
  split; [reflexivity|]. unfold identity, pd_get_default.
  assert (Hid : ~ In "id" (marker_key :: narrative_fields))
    by (cbn; intros [H|[H|[H|[H|[H|[H|[]]]]]]]; discriminate H).
  destruct (enrich_event_returned E _ _ _ _ _ _ Hev)
    as [(Hp & -> & _)|[(e & Hp & Hx & -> & _)|(data & Hp & Hx & -> & _)]]; cbn [fst].
  - now rewrite set_unavailable_frame.
  - now rewrite set_unavailable_frame.
  - now rewrite (update_frame E _ _ _ _ Hx).
Qed.

(** The stages a returning [main] went through, the mapping not empty. *)
Lemma main_stages (args : cli_args) (flats : list (pydict json))
    (log : list log_entry) :
  main E args = (Returned flats, log) ->
  exists start_date end_date events events' l1 l2,
    extract_all_events E start_date end_date = (Returned events, l1) /\
    events <> [] /\
    (if arg_include_html args
     then path_exists E (arg_html_dir args) = Ok true /\
          exists l, enrich_with_html E events (arg_html_dir args) = (Returned events', l)
     else events' = events) /\
    flatten_all E (pd_values events') = (Returned flats, l2).
Proof.
  unfold main. intros Hrun.
  apply bind_returned in Hrun as (start_date & l1 & l2 & _ & Hrun & _).
  apply bind_returned in Hrun as (end_date & l3 & l4 & _ & Hrun & _).
  apply bind_returned in Hrun as ([] & l5 & l6 & _ & Hrun & _).
  apply bind_returned in Hrun as (events & l7 & l8 & Hextract & Hrun & _).
  destruct events as [|item events]; [discriminate|].
  apply bind_returned in Hrun as (events' & l9 & l10 & Henrich & Hrun & _).
  apply bind_returned in Hrun as ([] & l11 & l12 & _ & Hflat & _).
  exists start_date, end_date, (item :: events), events', l7, l12.
  split; [exact Hextract|]. split; [discriminate|]. split; [|exact Hflat].
  destruct (arg_include_html args).
  - destruct (path_exists E (arg_html_dir args)) as [[|]|e]; try discriminate.
    split; [reflexivity|].
    apply bind_returned in Henrich as ([] & la & lb & _ & Henrich & _).
    now exists lb.
  - now injection Henrich as <- _.
Qed.

End Run.

(** X16.  When [main] returns the list for the export writer, the list is
    not empty and holds one flat record for every entry of the mapping
    [extract_all_events] returned, in the order of the mapping, with the key
    of the entry as [event_id]; with [--include-html] the directory
    exists. *)
Theorem main_rows (E : env) (args : cli_args) (flats : list (pydict json))
    (log : list log_entry) :
  main E args = (Returned flats, log) ->
  exists start_date end_date events l,
    extract_all_events E start_date end_date = (Returned events, l) /\
    flats <> [] /\
    map (pd_get "event_id") flats = map (fun k => Some (JStr k)) (pd_keys events) /\
    (arg_include_html args = true -> path_exists E (arg_html_dir args) = Ok true).
Proof.
  intros Hrun.
  apply main_stages in Hrun
    as (sd & ed & events & events' & l1 & l2 & Hextract & Hne & Henrich & Hflat).
  exists sd, ed, events, l1. split; [exact Hextract|].
  pose proof (extract_all_events_keyed E sd ed events l1 Hextract) as Hkeyed.
  assert (Hrel : Forall2 (fun item item' =>
                            fst item' = fst item /\
                            identity E (snd item') = identity E (snd item))
                         events events').
  { destruct (arg_include_html args).
    - destruct Henrich as [_ [l Henrich]]. exact (enrich_keeps_identity E _ _ _ l Henrich).
    - subst events'. clear. induction events; constructor; auto. }
  apply flatten_all_returned in Hflat. unfold pd_values in Hflat.
  assert (Hids : map (pd_get "event_id") flats
                 = map (fun k => Some (JStr k)) (pd_keys events)).
  { clear Hne Henrich Hextract. revert flats Hflat.
    induction Hrel as [|item item' evs evs' [Hk Hid] _ IH]; intros flats Hflat;
      inversion Hflat as [|ev flat ? fls [lf Hf] Hrest]; subst; [reflexivity|].
    inversion Hkeyed as [|? ? Hkey Hkeyed']; subst.
    cbn [map pd_keys fst]. rewrite (flat_event_id E _ _ _ Hf), Hid, <- Hkey.
    f_equal. now apply IH. }
  split; [|split; [exact Hids|]].
  - intros ->. destruct events; [now apply Hne|]. discriminate Hids.
  - intros Hhtml. rewrite Hhtml in Henrich. now destruct Henrich.
Qed.

Lemma main_rows_witness :
  exists flats log,
    main (table_env history) with_html = (Returned flats, log) /\
    flats <> [] /\ path_exists (table_env history) "html" = Ok true.
Proof.
  eexists _, _. split; [reflexivity|].
  destruct (main_rows (table_env history) with_html _ _ eq_refl)
    as (sd & ed & events & l & _ & Hne & _ & Hdir).
  split; [exact Hne | exact (Hdir eq_refl)].
Defined.

(** X17.  The three ways [main] leaves through [sys.exit(1)] before the
    export: a [--start-date] (or, past it, an [--end-date]) that
    [fromisoformat] rejects, before anything else is done; an empty mapping
    from [extract_all_events]; and, with [--include-html], a directory that
    does not exist, which is found out only after the extraction has run. *)
Theorem main_exits (E : env) (args : cli_args) :
  (forall s, arg_start_date args = Some s -> s <> "" -> fromisoformat E s = None ->
             main E args = (Exited 1, [Log_bad_start_date]))
  /\ (forall sd l1 s, parse_start_date E (arg_start_date args) = (Returned sd, l1) ->
        arg_end_date args = Some s -> s <> "" -> fromisoformat E s = None ->
        main E args = (Exited 1, l1 ++ [Log_bad_end_date]))
  /\ (forall sd ed l1 l2 l3,
        parse_start_date E (arg_start_date args) = (Returned sd, l1) ->
        parse_end_date E (arg_end_date args) = (Returned ed, l2) ->
        extract_all_events E sd ed = (Returned [], l3) ->
        main E args
        = (Exited 1, l1 ++ l2 ++ Log_stage "git archaeology" :: l3 ++ [Log_no_events]))
  /\ (forall sd ed l1 l2 l3 item events,
        parse_start_date E (arg_start_date args) = (Returned sd, l1) ->
        parse_end_date E (arg_end_date args) = (Returned ed, l2) ->
        extract_all_events E sd ed = (Returned (item :: events), l3) ->
        arg_include_html args = true ->
        path_exists E (arg_html_dir args) = Ok false ->
        main E args
        = (Exited 1,
           l1 ++ l2 ++ Log_stage "git archaeology" :: l3 ++ [Log_no_html_dir])).
Proof.
  split; [|split; [|split]].
  - intros s Hs Hne Hparse. unfold main, parse_start_date. rewrite Hs.
    destruct (String.eqb_spec s ""); [contradiction|]. now rewrite Hparse.
  - intros sd l1 s Hstart Hs Hne Hparse. unfold main. rewrite Hstart.
    unfold parse_end_date. rewrite Hs.
    destruct (String.eqb_spec s ""); [contradiction|]. rewrite Hparse.
    reflexivity.
  - intros sd ed l1 l2 l3 Hstart Hend Hextract. unfold main.
    rewrite Hstart. cbn [bind]. rewrite Hend. cbn [bind logger].
    rewrite Hextract. cbn [bind logger sys_exit app]. reflexivity.
  - intros sd ed l1 l2 l3 item events Hstart Hend Hextract Hhtml Hdir. unfold main.
    rewrite Hstart. cbn [bind]. rewrite Hend. cbn [bind logger].
    rewrite Hextract, Hhtml, Hdir. cbn [bind logger sys_exit app]. reflexivity.
Qed.

Lemma main_exits_witness :
  main (table_env history) (mk_args (Some "1 March 2024") None false "html")
    = (Exited 1, [Log_bad_start_date])
  /\ main (table_env history) (mk_args None None true "pages")
     = (Exited 1,
        [Log_stage "git archaeology"; Log_found_commits 6; Log_invalid_json "c2";
         Log_no_events_json "c5"; Log_total_extracted 7; Log_unique_events 3;
         Log_no_html_dir]).
Proof.
  split.
  - apply (proj1 (main_exits (table_env history)
                    (mk_args (Some "1 March 2024") None false "html"))
             "1 March 2024"); [reflexivity | discriminate | reflexivity].
  - apply (proj2 (proj2 (proj2 (main_exits (table_env history)
                                  (mk_args None None true "pages"))))
             None None [] []
             [Log_found_commits 6; Log_invalid_json "c2"; Log_no_events_json "c5";
              Log_total_extracted 7; Log_unique_events 3]
             ("123", event_123_B) [("456", event_456); ("789", event_789)]);
      reflexivity.
Defined.

(* ===================================================================== *)
(** ** The export step *)





Lemma split_on_line (a rest : string) :
  contains newline a = false ->
  split_on newline ((a ++ String newline "") ++ rest) = a :: split_on newline rest.
Proof.
  intros Ha. induction a as [|c a IH]; cbn [append split_on contains] in *.
  - now rewrite Ascii.eqb_refl.
  - apply orb_false_iff in Ha as [-> Ha]. now rewrite (IH Ha).
Qed.

(** X19.  The text [export_to_jsonl] writes holds one line for every
    record, in order, each the [json.dumps] of the record, and ends with a
    newline: cut at the newlines it gives the dumps back, followed by one
    empty string.  ([json.dumps] writes no newline when it is given no
    indent.) *)
Theorem jsonl_lines (dumps : pydict json -> string) (events : list (pydict json)) :
  Forall (fun event => contains newline (dumps event) = false) events ->
  split_on newline (jsonl_text dumps events) = map dumps events ++ [""].
Proof.
  unfold jsonl_text. induction 1 as [|event events Hev _ IH]; [reflexivity|].
  cbn [map String.concat app].
  destruct events as [|event' events].
  - cbn [map app]. now rewrite (split_on_app_sep newline (dumps event) "" Hev).
  - cbn [map] in *. cbn [append]. rewrite (split_on_line _ _ Hev). now f_equal.
Qed.

Lemma jsonl_lines_witness :
  split_on newline
    (jsonl_text (fun event => json_text (JDict event)) [event_undated; event_no_id])
  = [json_text (JDict event_undated); json_text (JDict event_no_id); ""].
Proof.
  apply (jsonl_lines (fun event => json_text (JDict event))
           [event_undated; event_no_id]).
  repeat constructor.
Defined.

(* ===================================================================== *)
(** ** Reading a document, a coordinate string, a snapshot *)

(** X20.  [extract_html_data] raises what reading or parsing the file
    raises, and [ValueError] when the tree has no content container.
    Otherwise it returns the five narrative keys and [html_available], in
    this order, the flag true, read off the first container: the title is
    [None] without heading, the body is the empty string (not [None]) when
    the body container holds no paragraph, the author is [None] when the
    published container holds one span only, and the published timestamp is
    [None] when the attribute of the time element is empty. *)
Theorem extract_html_data_rules (E : env) (html_path : string) :
  (forall e, read_text E html_path = Err e -> extract_html_data E html_path = Err e)
  /\ (forall text e, read_text E html_path = Ok text -> fromstring E text = Err e ->
        extract_html_data E html_path = Err e)
  /\ (forall text tree, read_text E html_path = Ok text -> fromstring E text = Ok tree ->
        cssselect E tree ".event-page.editorial-content" = [] ->
        extract_html_data E html_path = Err ValueError)
  /\ (forall text tree div others,
        read_text E html_path = Ok text -> fromstring E text = Ok tree ->
        cssselect E tree ".event-page.editorial-content" = div :: others ->
        exists data,
          extract_html_data E html_path = Ok data /\
          pd_keys data = narrative_fields ++ [marker_key] /\
          pd_get marker_key data = Some (JBool true) /\
          (cssselect E div "h1" = [] -> pd_get "html_title" data = Some JNull) /\
          (forall body rest,
              cssselect E div ".text-body.editorial-html" = body :: rest ->
              cssselect E body "p" = [] ->
              pd_get "html_body" data = Some (JStr "")) /\
          (forall span, cssselect E div ".published-container span" = [span] ->
                        pd_get "html_author" data = Some JNull) /\
          (forall t rest, cssselect E div "time.date" = t :: rest ->
                          attr_get E t "datetime" = Some "" ->
                          pd_get "html_published_datetime" data = Some JNull)).
Proof.
  unfold extract_html_data. split; [|split; [|split]].
  - now intros e ->.
  - now intros text e -> ->.
  - now intros text tree -> -> ->.
  - intros text tree div others -> -> ->. eexists. split; [reflexivity|].
    split; [reflexivity|]. split; [reflexivity|]. split; [|split; [|split]].
    + now intros ->.
    + now intros body rest -> ->.
    + now intros span ->.
    + now intros t rest -> ->.
Qed.

Lemma extract_html_data_rules_witness :
  extract_html_data (table_env history) "html/456.html" = Err ValueError
  /\ exists data,
       extract_html_data (table_env history) "html/123.html" = Ok data /\
       pd_keys data = narrative_fields ++ [marker_key].
Proof.
  split.
  - apply (proj1 (proj2 (proj2 (extract_html_data_rules (table_env history)
                                  "html/456.html")))
             "<not found>" bare_page); reflexivity.
  - destruct (proj2 (proj2 (proj2 (extract_html_data_rules (table_env history)
                                     "html/123.html")))
                "<event 123>" good_page event_div_page [] eq_refl eq_refl eq_refl)
      as (data & Hrun & Hkeys & _).
    exists data. split; [exact Hrun | exact Hkeys].
Defined.

(** [lstrip], by what the text starts with. *)
Lemma lstrip_cases (s : string) :
  s = ""
  \/ (s <> "" /\ space_prefix s = 0%nat)
  \/ (exists w t, s = (w ++ t)%string /\ is_space_char w = true
                  /\ lstrip s = lstrip t
                  /\ (String.length t < String.length s)%nat).
Proof.
  destruct s as [|c0 s1]; [now left|]. right.
  destruct (is_space c0) eqn:H0.
  { right. exists (String c0 ""), s1.
    cbn [append is_space_char lstrip String.length]. rewrite H0.
    repeat split. lia. }
  destruct s1 as [|c1 s2].
  { left. split; [discriminate|]. cbn [space_prefix]. now rewrite H0. }
  destruct (is_space2 c0 c1) eqn:H1.
  { right. exists (String c0 (String c1 "")), s2.
    cbn [append is_space_char lstrip String.length]. rewrite H0, H1.
    repeat split. lia. }
  destruct s2 as [|c2 s3].
  { left. split; [discriminate|]. cbn [space_prefix]. now rewrite H0, H1. }
  destruct (is_space3 c0 c1 c2) eqn:H2.
  - right. exists (String c0 (String c1 (String c2 ""))), s3.
    cbn [append is_space_char lstrip String.length]. rewrite H0, H1, H2.
    repeat split. lia.
  - left. split; [discriminate|]. cbn [space_prefix]. now rewrite H0, H1, H2.
Qed.

Lemma lstrip_induction (P : string -> Prop) :
  P "" ->
  (forall s, s <> "" -> space_prefix s = 0%nat -> P s) ->
  (forall w t, is_space_char w = true -> P t -> P (w ++ t)%string) ->
  forall s, P s.
Proof.
  intros Hnil Hplain Hstep s.
  remember (String.length s) as n eqn:Hn. revert s Hn.
  induction n as [n IH] using lt_wf_ind. intros s ->.
  destruct (lstrip_cases s) as [->|[(Hne & Hp)|(w & t & -> & Hw & _ & Hlen)]].
  - exact Hnil.
  - now apply Hplain.
  - apply Hstep; [exact Hw|]. now apply (IH (String.length t)).
Qed.

Lemma lstrip_space_char (w t : string) :
  is_space_char w = true -> lstrip (w ++ t) = lstrip t.
Proof.
  destruct w as [|c0 [|c1 [|c2 [|c3 w]]]]; try discriminate;
    cbn [is_space_char append lstrip]; intros H.
  - now rewrite H.
  - rewrite H. destruct (is_space c0) eqn:H0; [|reflexivity]. byte_facts. lia.
  - rewrite H. destruct (is_space c0) eqn:H0; [byte_facts; lia|].
    destruct (is_space2 c0 c1) eqn:H1; [byte_facts; lia | reflexivity].
Qed.

(** Text that is whitespace only: [lstrip] leaves nothing of it. *)
Lemma blank_induction (P : string -> Prop) :
  P "" ->
  (forall w t, is_space_char w = true -> lstrip t = "" -> P t -> P (w ++ t)%string) ->
  forall s, lstrip s = "" -> P s.
Proof.
  intros Hnil Hstep s.
  refine (lstrip_induction (fun s => lstrip s = "" -> P s) _ _ _ s).
  - intros _. exact Hnil.
  - intros s0 Hne Hp Hs. rewrite (lstrip_none s0 Hp) in Hs. contradiction.
  - intros w t Hw IH Hs. rewrite (lstrip_space_char w t Hw) in Hs.
    apply Hstep; [exact Hw | exact Hs | exact (IH Hs)].
Qed.

Lemma space_prefix_lstrip (s : string) : space_prefix (lstrip s) = 0%nat.
Proof.
  refine (lstrip_induction (fun s => space_prefix (lstrip s) = 0%nat) _ _ _ s).
  - reflexivity.
  - intros s0 _ Hp. now rewrite (lstrip_none s0 Hp).
  - intros w t Hw IH. now rewrite (lstrip_space_char w t Hw).
Qed.

Lemma lstrip_blank_app (p x : string) : lstrip p = "" -> lstrip (p ++ x) = lstrip x.
Proof.
  intros Hp. revert x.
  refine (blank_induction (fun p => forall x, lstrip (p ++ x) = lstrip x) _ _ p Hp).
  - reflexivity.
  - intros w t Hw _ IH x. now rewrite append_assoc, (lstrip_space_char w _ Hw).
Qed.

Lemma rstrip_blank (p : string) : lstrip p = "" -> rstrip p = "".
Proof.
  refine (blank_induction (fun p => rstrip p = "") _ _ p); [reflexivity|].
  intros w t Hw _ IH.
  destruct w as [|c0 [|c1 [|c2 [|c3 w]]]]; try discriminate;
    cbn [is_space_char append rstrip] in *; rewrite IH.
  - now rewrite Hw.
  - destruct (is_space c1) eqn:H1; [byte_facts; lia|]. now rewrite Hw.
  - destruct (is_space c2) eqn:H2; [byte_facts; lia|].
    destruct (is_space2 c1 c2) eqn:H12; [byte_facts; lia|]. now rewrite Hw.
Qed.

Lemma rstrip_app_blank (x p : string) : lstrip p = "" -> rstrip (x ++ p) = rstrip x.
Proof.
  intros Hp. induction x as [|c x IH]; cbn [append rstrip].
  - now apply rstrip_blank.
  - now rewrite IH.
Qed.

(** Whitespace starts with a byte that continues no character. *)
Lemma blank_starter (p : string) :
  lstrip p = "" ->
  p = "" \/ exists c u, p = String c u
                        /\ (nat_of_ascii c < 128 \/ 192 <= nat_of_ascii c)%nat.
Proof.
  refine (blank_induction
            (fun p => p = "" \/ exists c u, p = String c u
                        /\ (nat_of_ascii c < 128 \/ 192 <= nat_of_ascii c)%nat)
            _ _ p); [now left|].
  intros w t Hw _ _. right.
  destruct w as [|c0 [|c1 [|c2 [|c3 w]]]]; try discriminate;
    cbn [is_space_char append] in *; eexists _, _; (split; [reflexivity|]);
    byte_facts; lia.
Qed.

Lemma strip_app_blank (a p : string) : lstrip p = "" -> strip (a ++ p) = strip a.
Proof.
  intros Hp. unfold strip.
  refine (lstrip_induction
            (fun a => rstrip (lstrip (a ++ p)) = rstrip (lstrip a)) _ _ _ a); clear a.
  - cbn [append]. now rewrite Hp.
  - intros a Hne Ha. rewrite (lstrip_none a Ha).
    rewrite lstrip_none; [now apply rstrip_app_blank|].
    destruct (blank_starter p Hp) as [->|(c & u & -> & Hc)].
    + now rewrite append_nil_r.
    + now apply space_prefix_app.
  - intros w t Hw IH. now rewrite append_assoc, !(lstrip_space_char w _ Hw).
Qed.

(** What [rstrip] leaves when it leaves at most two bytes. *)
Lemma rstrip_short (x : string) :
  (rstrip x = "" -> lstrip x = "")
  /\ (forall c1, rstrip x = String c1 "" ->
                 exists t, x = String c1 t /\ lstrip t = "")
  /\ (forall c1 c2, rstrip x = String c1 (String c2 "") ->
                    exists t, x = String c1 (String c2 t) /\ lstrip t = "").
Proof.
  induction x as [|c x (IH0 & IH1 & IH2)].
  - repeat split; intros; discriminate.
  - cbn [rstrip].
    destruct (rstrip x) as [|d1 [|d2 [|d3 r]]] eqn:Hr.
    + specialize (IH0 eq_refl). destruct (is_space c) eqn:Hc; repeat split.
      * intros _. cbn [lstrip]. now rewrite Hc.
      * intros c1 H. discriminate H.
      * intros c1 c2 H. discriminate H.
      * intros H. discriminate H.
      * intros c1 H. injection H as <-. now exists x.
      * intros c1 c2 H. discriminate H.
    + destruct (IH1 d1 eq_refl) as (t & -> & Ht).
      destruct (is_space2 c d1) eqn:Hc; repeat split.
      * intros _. rewrite <- Ht.
        apply (lstrip_space_char (String c (String d1 "")) t Hc).
      * intros c1 H. discriminate H.
      * intros c1 c2 H. discriminate H.
      * intros H. discriminate H.
      * intros c1 H. discriminate H.
      * intros c1 c2 H. injection H as <- <-. now exists t.
    + destruct (IH2 d1 d2 eq_refl) as (t & -> & Ht).
      destruct (is_space3 c d1 d2) eqn:Hc; repeat split;
        try (intros; discriminate).
      intros _.
      rewrite <- Ht. apply (lstrip_space_char (String c (String d1 (String d2 ""))) t Hc).
    + repeat split; intros; discriminate.
Qed.

Lemma strip_blank (p : string) : strip p = "" -> lstrip p = "".
Proof.
  unfold strip. intros H. apply (proj1 (rstrip_short (lstrip p))) in H.
  now rewrite (lstrip_none _ (space_prefix_lstrip p)) in H.
Qed.

Lemma comma_byte : nat_of_ascii comma = 44%nat.
Proof. reflexivity. Qed.

Lemma blank_no_comma (p : string) : lstrip p = "" -> contains comma p = false.
Proof.
  refine (blank_induction (fun p => contains comma p = false) _ _ p); [reflexivity|].
  intros w t Hw _ IH. rewrite contains_app, IH, orb_false_r.
  destruct w as [|c0 [|c1 [|c2 [|c3 w]]]]; try discriminate;
    cbn [is_space_char contains] in *;
    repeat match goal with
           | |- context [Ascii.eqb ?c comma] =>
               destruct (Ascii.eqb_spec c comma) as [->|]
           end; cbn [orb]; try reflexivity;
    try (vm_compute in Hw; discriminate Hw);
    byte_facts; rewrite ?comma_byte in *; lia.
Qed.

(** [strip] drops whitespace of any kind on both sides. *)
Lemma strip_padding (p a q : string) :
  strip p = "" -> strip q = "" -> strip (p ++ a ++ q) = strip a.
Proof.
  intros Hp Hq. apply strip_blank in Hp, Hq.
  rewrite <- (strip_app_blank a q Hq). unfold strip.
  now rewrite (lstrip_blank_app p (a ++ q) Hp).
Qed.

(** X21.  [parse_gps_string] ignores whitespace around either coordinate: a
    string with one comma gives the same result, the same pair or the same
    [ValueError], with and without whitespace before and after each of its
    two sides, whatever whitespace [strip] removes. *)
Theorem parse_gps_ignores_padding (E : env) (p1 p2 p3 p4 a b : string) :
  strip p1 = "" -> strip p2 = "" -> strip p3 = "" -> strip p4 = "" ->
  contains comma a = false -> contains comma b = false ->
  parse_gps_string E (JStr ((p1 ++ a ++ p2) ++ String comma (p3 ++ b ++ p4)))
  = parse_gps_string E (JStr (a ++ String comma b)).
Proof.
  intros H1 H2 H3 H4 Ha Hb.
  assert (Ha' : contains comma (p1 ++ a ++ p2) = false).
  { rewrite !contains_app, Ha.
    now rewrite (blank_no_comma p1 (strip_blank p1 H1)),
      (blank_no_comma p2 (strip_blank p2 H2)). }
  assert (Hb' : contains comma (p3 ++ b ++ p4) = false).
  { rewrite !contains_app, Hb.
    now rewrite (blank_no_comma p3 (strip_blank p3 H3)),
      (blank_no_comma p4 (strip_blank p4 H4)). }
  cbn [parse_gps_string]. unfold parse_gps_text.
  rewrite !contains_join, (split_on_join comma _ _ Ha' Hb'),
    (split_on_join comma a b Ha Hb),
    (strip_padding p1 a p2 H1 H2), (strip_padding p3 b p4 H3 H4).
  now destruct (p1 ++ a ++ p2)%string, a.
Qed.

Lemma parse_gps_ignores_padding_witness :
  parse_gps_string (table_env history)
    (JStr ((" " ++ "62.63227" ++ no_break_space)
           ++ String comma (no_break_space ++ "17.940871" ++ String newline "")))
  = Returned (62.63227%float, 17.940871%float).
Proof.
  exact (eq_trans
           (parse_gps_ignores_padding (table_env history)
              " " no_break_space no_break_space (String newline "")
              "62.63227" "17.940871"
              eq_refl eq_refl eq_refl eq_refl eq_refl eq_refl)
           eq_refl).
Defined.

(** X22.  [extract_events_from_commit] returns the empty list with one
    warning, naming the first eight characters of the hash, when
    [git show] fails; it returns the list of the snapshot as it is, logging
    nothing, when the content is a JSON list; and when it raises, it raises
    what [git show] or [json.loads] raised, which is neither a
    [CalledProcessError] nor a [JSONDecodeError], having logged nothing.
    It never leaves through [sys.exit]. *)
Theorem extract_events_outcomes (E : env) (commit_sha : string) :
  (git_show E commit_sha = Err CalledProcessError ->
   extract_events_from_commit E commit_sha
   = (Returned [], [Log_no_events_json (prefix_of 8 commit_sha)]))
  /\ (forall content l, git_show E commit_sha = Ok content ->
        json_loads E content = Ok (JList l) ->
        extract_events_from_commit E commit_sha = (Returned l, []))
  /\ (forall e log, extract_events_from_commit E commit_sha = (Raised e, log) ->
        log = [] /\ e <> CalledProcessError /\ e <> JSONDecodeError /\
        (git_show E commit_sha = Err e
         \/ exists content, git_show E commit_sha = Ok content
                            /\ json_loads E content = Err e))
  /\ (forall code log, extract_events_from_commit E commit_sha <> (Exited code, log)).
Proof.
  unfold extract_events_from_commit. split; [|split; [|split]].
  - now intros ->.
  - now intros content l -> ->.
  - intros e log.
    destruct (git_show E commit_sha) as [content|e0].
    + destruct (json_loads E content) as [v|e1] eqn:Hloads.
      * destruct v; discriminate.
      * destruct e1; cbn; try discriminate; intros H; injection H as <- <-;
          (split; [reflexivity|]; split; [discriminate|]; split; [discriminate|];
           right; exists content; split; [reflexivity | exact Hloads]).
    + destruct e0; cbn; try discriminate; intros H; injection H as <- <-;
        (split; [reflexivity|]; split; [discriminate|]; split; [discriminate|];
         left; reflexivity).
  - intros code log.
    destruct (git_show E commit_sha) as [content|e0].
    + destruct (json_loads E content) as [v|e1].
      * destruct v; discriminate.
      * destruct e1; cbn; discriminate.
    + destruct e0; cbn; discriminate.
Qed.

Lemma extract_events_outcomes_witness :
  extract_events_from_commit (table_env history) "c5"
    = (Returned [], [Log_no_events_json "c5"])
  /\ extract_events_from_commit (table_env history) "c3"
     = (Returned [JDict event_456; JDict event_789], []).
Proof.
  split.
  - apply (proj1 (extract_events_outcomes (table_env history) "c5")). reflexivity.
  - apply (proj1 (proj2 (extract_events_outcomes (table_env history) "c3"))
             (json_text snapshot_2)); reflexivity.
Defined.
